(** * Electrum Qt history list: reconciliation, filtering and export

    A shallow embedding of [electrum/gui/qt/history_list.py].

    The widget keeps three pieces of state in step with the wallet's
    transaction list: the ordered mapping [transactions] (an OrderedDict
    keyed by transaction hash), the table [txid_to_items] (hash to the list
    of QStandardItem objects of that row) and the rows of the
    QStandardItemModel.  QStandardItem objects are shared between
    [txid_to_items] and the model, so they live in an explicit store
    ([heap]) and both sides hold references into it.

    Python exceptions are modelled by the [result] monad. *)

From Stdlib Require Import ZArith String Ascii DecimalString.
From stdpp Require Import gmap strings list fin_maps.

Local Open Scope string_scope.
Local Open Scope list_scope.

(** ** Exceptions and the error monad *)

Inductive exn :=
| KeyError
| IndexError
| ValueError
| TypeError
| AttributeError
| AssertionError
| UnicodeDecodeError
| OSError (msg : string).

Inductive result (A : Type) :=
| Ok (a : A)
| Raise (e : exn).
Arguments Ok {A} a.
Arguments Raise {A} e.

Global Instance result_ret : MRet result := fun A a => Ok a.
Global Instance result_bind : MBind result := fun A B k m =>
  match m with
  | Ok a => k a
  | Raise e => Raise e
  end.

Definition is_OSError (e : exn) : bool :=
  match e with OSError _ => true | _ => false end.

(** Python's [l[i]] on a list. *)
Definition getitem {A} (l : list A) (i : nat) : result A :=
  match l !! i with
  | Some a => Ok a
  | None => Raise IndexError
  end.

(** ** Transaction records

    A history entry is a Python dict built by the wallet.  The keys the
    view reads with [item[...]] are plain fields; the keys it reads with
    [item.get(..., '')] or only under the fiat configuration are optional
    ([None] here: the key is absent).  [value] and [balance] are
    [Satoshis] objects and the fiat fields are [Fiat] objects; both wrap a
    [.value] that may be [None].  The wallet files ['fee'] and
    ['fiat_fee'] as an object or as plain [None], so these two entries
    have three states: absent, [None], or an object. *)

Definition Satoshis := option Z.
Definition Fiat := option Z.

Record tx_item := mk_tx_item {
  txid : string;
  height : Z;
  confirmations : Z;
  timestamp : option Z;
  date : option Z;
  value : Satoshis;
  balance : Satoshis;
  label : string;
  fee : option (option Satoshis);
  fiat_value : option Fiat;
  fiat_default : option bool;
  fiat_fee : option (option Fiat);
  acquisition_price : option Fiat;
  capital_gain : option Fiat
}.

Global Instance tx_item_eq_dec : EqDecision tx_item.
Proof. solve_decision. Defined.

Definition set_confirmations (c : Z) (i : tx_item) : tx_item :=
  mk_tx_item (txid i) (height i) c (timestamp i) (date i) (value i)
    (balance i) (label i) (fee i) (fiat_value i) (fiat_default i)
    (fiat_fee i) (acquisition_price i) (capital_gain i).

Record TxMinedStatus := mk_TxMinedStatus {
  st_height : Z;
  st_conf : Z;
  st_timestamp : option Z
}.

(** ** Items of the Qt model *)

Inductive brush := blue_brush | red_brush | default_color.

Inductive alignment := AlignRight_VCenter.

Record QStandardItem := mk_item {
  text : string;
  icon : option string;
  toolTip : string;
  foreground : option brush;
  font : option string;
  textAlignment : option alignment;
  editable : bool;
  tx_hash_role : option string;      (* data(TX_HASH_ROLE) *)
  data_role : option (nat * Z)       (* data(SortableTreeWidgetItem.DataRole) *)
}.

Global Instance brush_eq_dec : EqDecision brush.
Proof. solve_decision. Defined.
Global Instance alignment_eq_dec : EqDecision alignment.
Proof. solve_decision. Defined.
Global Instance QStandardItem_eq_dec : EqDecision QStandardItem.
Proof. solve_decision. Defined.

(** [QStandardItem(e)]: a fresh item showing [e]. *)
Definition new_item (e : string) : QStandardItem :=
  mk_item e None "" None None None true None None.

Definition setText (t : string) (i : QStandardItem) : QStandardItem :=
  mk_item t (icon i) (toolTip i) (foreground i) (font i) (textAlignment i)
    (editable i) (tx_hash_role i) (data_role i).
Definition setIcon (ic : string) (i : QStandardItem) : QStandardItem :=
  mk_item (text i) (Some ic) (toolTip i) (foreground i) (font i)
    (textAlignment i) (editable i) (tx_hash_role i) (data_role i).
Definition setToolTip (t : string) (i : QStandardItem) : QStandardItem :=
  mk_item (text i) (icon i) t (foreground i) (font i) (textAlignment i)
    (editable i) (tx_hash_role i) (data_role i).
Definition setForeground (b : brush) (i : QStandardItem) : QStandardItem :=
  mk_item (text i) (icon i) (toolTip i) (Some b) (font i) (textAlignment i)
    (editable i) (tx_hash_role i) (data_role i).
Definition setFont (f : string) (i : QStandardItem) : QStandardItem :=
  mk_item (text i) (icon i) (toolTip i) (foreground i) (Some f)
    (textAlignment i) (editable i) (tx_hash_role i) (data_role i).
Definition setTextAlignment (a : alignment) (i : QStandardItem) : QStandardItem :=
  mk_item (text i) (icon i) (toolTip i) (foreground i) (font i) (Some a)
    (editable i) (tx_hash_role i) (data_role i).
Definition setEditable (b : bool) (i : QStandardItem) : QStandardItem :=
  mk_item (text i) (icon i) (toolTip i) (foreground i) (font i)
    (textAlignment i) b (tx_hash_role i) (data_role i).
Definition setData_tx_hash (h : string) (i : QStandardItem) : QStandardItem :=
  mk_item (text i) (icon i) (toolTip i) (foreground i) (font i)
    (textAlignment i) (editable i) (Some h) (data_role i).
Definition setData_sort (d : nat * Z) (i : QStandardItem) : QStandardItem :=
  mk_item (text i) (icon i) (toolTip i) (foreground i) (font i)
    (textAlignment i) (editable i) (tx_hash_role i) (Some d).

(** A row of the source model: one optional item reference per column
    (a missing or [None] cell has no item yet), and the hidden flag the
    view keeps for the row. *)
Record Row := mk_Row {
  cells : list (option nat);
  row_hidden : bool
}.

Global Instance Row_eq_dec : EqDecision Row.
Proof. solve_decision. Defined.

(** ** The widget state *)

Record HistoryList := mk_HistoryList {
  txid_to_items : gmap string (list nat);
  transactions : list (string * tx_item);      (* OrderedDict *)
  current_filter : string;
  editable_columns : list nat;
  start_timestamp : option Z;
  end_timestamp : option Z;
  wallet : bool;                               (* False while self.wallet is None *)
  heap : list QStandardItem;                   (* the item objects *)
  rows : list Row;                             (* std_model rows *)
  columnCount : nat                            (* std_model.columnCount() *)
}.

Definition with_txid_to_items (m : gmap string (list nat)) (s : HistoryList) :=
  mk_HistoryList m (transactions s) (current_filter s) (editable_columns s)
    (start_timestamp s) (end_timestamp s) (wallet s) (heap s) (rows s)
    (columnCount s).
Definition with_transactions (t : list (string * tx_item)) (s : HistoryList) :=
  mk_HistoryList (txid_to_items s) t (current_filter s) (editable_columns s)
    (start_timestamp s) (end_timestamp s) (wallet s) (heap s) (rows s)
    (columnCount s).
Definition with_current_filter (f : string) (s : HistoryList) :=
  mk_HistoryList (txid_to_items s) (transactions s) f (editable_columns s)
    (start_timestamp s) (end_timestamp s) (wallet s) (heap s) (rows s)
    (columnCount s).
Definition with_editable_columns (e : list nat) (s : HistoryList) :=
  mk_HistoryList (txid_to_items s) (transactions s) (current_filter s) e
    (start_timestamp s) (end_timestamp s) (wallet s) (heap s) (rows s)
    (columnCount s).
Definition with_start_timestamp (t : option Z) (s : HistoryList) :=
  mk_HistoryList (txid_to_items s) (transactions s) (current_filter s)
    (editable_columns s) t (end_timestamp s) (wallet s) (heap s) (rows s)
    (columnCount s).
Definition with_end_timestamp (t : option Z) (s : HistoryList) :=
  mk_HistoryList (txid_to_items s) (transactions s) (current_filter s)
    (editable_columns s) (start_timestamp s) t (wallet s) (heap s) (rows s)
    (columnCount s).
Definition with_wallet (w : bool) (s : HistoryList) :=
  mk_HistoryList (txid_to_items s) (transactions s) (current_filter s)
    (editable_columns s) (start_timestamp s) (end_timestamp s) w (heap s)
    (rows s) (columnCount s).
Definition with_heap (h : list QStandardItem) (s : HistoryList) :=
  mk_HistoryList (txid_to_items s) (transactions s) (current_filter s)
    (editable_columns s) (start_timestamp s) (end_timestamp s) (wallet s) h
    (rows s) (columnCount s).
Definition with_rows (r : list Row) (s : HistoryList) :=
  mk_HistoryList (txid_to_items s) (transactions s) (current_filter s)
    (editable_columns s) (start_timestamp s) (end_timestamp s) (wallet s)
    (heap s) r (columnCount s).
Definition with_columnCount (c : nat) (s : HistoryList) :=
  mk_HistoryList (txid_to_items s) (transactions s) (current_filter s)
    (editable_columns s) (start_timestamp s) (end_timestamp s) (wallet s)
    (heap s) (rows s) c.

(** ** The ordered mapping [transactions] *)

Definition keys {V} (d : list (string * V)) : list string := d.*1.
Definition values {V} (d : list (string * V)) : list V := d.*2.

Fixpoint od_get {V} (d : list (string * V)) (k : string) : option V :=
  match d with
  | [] => None
  | (k', v) :: d' => if decide (k' = k) then Some v else od_get d' k
  end.

Definition od_mem {V} (d : list (string * V)) (k : string) : bool :=
  bool_decide (k ∈ keys d).

(** [d[k] = v]: overwrite in place or append. *)
Fixpoint od_set {V} (d : list (string * V)) (k : string) (v : V) : list (string * V) :=
  match d with
  | [] => [(k, v)]
  | (k', v') :: d' =>
      if decide (k' = k) then (k, v) :: d' else (k', v') :: od_set d' k v
  end.

(** [del d[k]]. *)
Fixpoint od_del {V} (d : list (string * V)) (k : string) : list (string * V) :=
  match d with
  | [] => []
  | (k', v') :: d' =>
      if decide (k' = k) then d' else (k', v') :: od_del d' k
  end.

(** [d.move_to_end(k, last=True)]; raises KeyError for an absent key. *)
Definition od_move_to_end {V} (d : list (string * V)) (k : string)
  : result (list (string * V)) :=
  match od_get d k with
  | Some v => Ok (od_del d k ++ [(k, v)])
  | None => Raise KeyError
  end.

(** [list(d.keys()).index(k)]; raises ValueError for an absent key. *)
Fixpoint index_of (l : list string) (k : string) : option nat :=
  match l with
  | [] => None
  | k' :: l' => if decide (k' = k) then Some 0 else S <$> index_of l' k
  end.

(** ** Strings: [str.lower] and the [in] test *)

Definition lower_ascii (c : ascii) : ascii :=
  let n := nat_of_ascii c in
  if (65 <=? n)%nat && (n <=? 90)%nat then ascii_of_nat (n + 32) else c.

(** [s.lower()] on ASCII text: the letters A to Z are folded, every other
    byte is kept.  Python folds every cased letter of Unicode, so the two
    agree exactly on text that is ASCII; the theorems that state what a
    match is assume such text. *)
Fixpoint lower (s : string) : string :=
  match s with
  | EmptyString => EmptyString
  | String c s' => String (lower_ascii c) (lower s')
  end.

(** [sub in s]. *)
Fixpoint contains (sub s : string) : bool :=
  String.prefix sub s ||
  match s with
  | EmptyString => false
  | String _ s' => contains sub s'
  end.

(** [str(n)] for an integer. *)
Definition str_Z (n : Z) : string := NilZero.string_of_int (Z.to_int n).

(** ** The QStandardItemModel and the item store *)

(** Calling a setter on the item behind reference [r]. *)
Definition modify (r : nat) (f : QStandardItem -> QStandardItem)
    (s : HistoryList) : HistoryList :=
  with_heap (alter f r (heap s)) s.

(** Reading through a reference.  Every reference handed out by [alloc]
    stays live, so the error branch is only there for totality. *)
Definition deref (s : HistoryList) (r : nat) : result QStandardItem :=
  match heap s !! r with
  | Some i => Ok i
  | None => Raise AttributeError
  end.

(** Constructing a new item object. *)
Definition alloc (i : QStandardItem) (s : HistoryList) : nat * HistoryList :=
  (length (heap s), with_heap (heap s ++ [i]) s).

Definition rowCount (s : HistoryList) : nat := length (rows s).

(** [std_model.index(row, col).isValid()] *)
Definition index_valid (s : HistoryList) (row col : nat) : bool :=
  bool_decide (row < rowCount s) && bool_decide (col < columnCount s).

(** The item stored at a cell, if any. *)
Definition cell_at (s : HistoryList) (row col : nat) : option nat :=
  match rows s !! row with
  | Some rw => match cells rw !! col with
               | Some c => c
               | None => None
               end
  | None => None
  end.

Definition set_cell (l : list (option nat)) (col r : nat) : list (option nat) :=
  <[col := Some r]> (l ++ replicate (S col - length l) None).

Definition set_row_cell (col r : nat) (rw : Row) : Row :=
  mk_Row (set_cell (cells rw) col r) (row_hidden rw).

(** [std_model.itemFromIndex(std_model.index(row, col))]: [None] for an
    invalid index; for a valid index without an item the model creates an
    empty one on the spot and stores it in the cell. *)
Definition itemFromIndex (row col : nat) (s : HistoryList)
  : option nat * HistoryList :=
  if index_valid s row col then
    match cell_at s row col with
    | Some r => (Some r, s)
    | None =>
        let '(r, s1) := alloc (new_item "") s in
        (Some r, with_rows (alter (set_row_cell col r) row (rows s1)) s1)
    end
  else (None, s).

(** [std_model.insertRow(idx, items)] *)
Definition insertRow (idx : nat) (items : list nat) (s : HistoryList)
  : HistoryList :=
  if bool_decide (idx <= rowCount s) then
    with_columnCount (columnCount s `max` length items)
      (with_rows (take idx (rows s) ++ mk_Row (Some <$> items) false
                    :: drop idx (rows s)) s)
  else s.

(** [std_model.takeRow(idx)]: the row's items, and the row is gone; an
    empty list when there is no such row. *)
Definition takeRow (idx : nat) (s : HistoryList)
  : list (option nat) * HistoryList :=
  match rows s !! idx with
  | Some rw => (cells rw, with_rows (delete idx (rows s)) s)
  | None => ([], s)
  end.

(** [self.setRowHidden(row, QModelIndex(), hide)] *)
Definition setRowHidden (row : nat) (hide : bool) (s : HistoryList)
  : HistoryList :=
  with_rows (alter (fun rw => mk_Row (cells rw) hide) row (rows s)) s.

(** [std_model.setHorizontalHeaderLabels(headers)] grows the column count
    when there are more labels than columns. *)
Definition setHorizontalHeaderLabels (n : nat) (s : HistoryList) : HistoryList :=
  with_columnCount (columnCount s `max` n) s.

(** ** Filtering: [hide_row], [hide_rows], [filter]

    ([filter] is [HistoryList_filter] here, the plain name being taken.)

    The proxy model only sorts: every source row has exactly one proxy
    row, [mapToSource] undoes [mapFromSource], and the view's hidden flag
    follows the row.  Rows are therefore addressed by their source index. *)

Definition filter_columns : list nat := [1; 2; 3].

(** Calling a method on what [itemFromIndex] returned: [None] has none. *)
Definition item_of (o : option nat) : result nat :=
  match o with
  | Some r => Ok r
  | None => Raise AttributeError
  end.

(** The body of the [for column in ...] loop; [inl] is the [break] exit
    (a column matched and the row was shown), [inr] is normal exhaustion. *)
Fixpoint hide_row_columns (row : nat) (cols : list nat) (s : HistoryList)
  : result (HistoryList + HistoryList) :=
  match cols with
  | [] => Ok (inr s)
  | column :: cols' =>
      let '(o, s1) := itemFromIndex row column s in
      r ← item_of o;
      item ← deref s1 r;
      let txt := lower (text item) in
      if contains (current_filter s1) txt
      then Ok (inl (setRowHidden row false s1))
      else hide_row_columns row cols' s1
  end.

(** [start <= date <= end] *)
Definition in_range (start d stop : Z) : bool :=
  (start <=? d)%Z && (d <=? stop)%Z.

(** The [else] branch of the loop. *)
Definition hide_row_dates (row : nat) (s : HistoryList) : result HistoryList :=
  match start_timestamp s, end_timestamp s with
  | Some start, Some stop =>
      let '(o, s1) := itemFromIndex row 0 s in
      r ← item_of o;
      item ← deref s1 r;
      match tx_hash_role item with
      | None => Raise KeyError
      | Some txid =>
          match od_get (transactions s1) txid with
          | None => Raise KeyError
          | Some tx =>
              match date tx with
              | Some d =>
                  if negb (in_range start d stop)
                  then Ok (setRowHidden row true s1)
                  else Ok (setRowHidden row false s1)
              | None => Ok (setRowHidden row false s1)
              end
          end
      end
  | _, _ => Ok (setRowHidden row false s)
  end.

Definition hide_row (row : nat) (s : HistoryList) : result HistoryList :=
  let cols := if decide (current_filter s = "") then [] else filter_columns in
  r ← hide_row_columns row cols s;
  match r with
  | inl s1 => Ok s1
  | inr s1 => hide_row_dates row s1
  end.

Fixpoint hide_rows_from (rws : list nat) (s : HistoryList) : result HistoryList :=
  match rws with
  | [] => Ok s
  | row :: rws' => s1 ← hide_row row s; hide_rows_from rws' s1
  end.

Definition hide_rows (s : HistoryList) : result HistoryList :=
  hide_rows_from (seq 0 (rowCount s)) s.

Definition HistoryList_filter (p : string) (s : HistoryList) : result HistoryList :=
  hide_rows (with_current_filter (lower p) s).

(** [select_start_date] and [select_end_date], with [d] the date picked in
    the dialog ([None] when it was dismissed), and [on_hide_toolbar]. *)
Definition select_start_date (d : option Z) (s : HistoryList) : result HistoryList :=
  hide_rows (with_start_timestamp d s).

Definition select_end_date (d : option Z) (s : HistoryList) : result HistoryList :=
  hide_rows (with_end_timestamp d s).

Definition on_hide_toolbar (s : HistoryList) : result HistoryList :=
  hide_rows (with_end_timestamp None (with_start_timestamp None s)).

(** [limit_confirmations]: cap the confirmation count of every entry. *)
Definition limit_confirmations (r : list tx_item) : list tx_item :=
  (fun i => if (10 <=? confirmations i)%Z then set_confirmations 10 i else i) <$> r.

(** ** The environment of the view

    The main window ([self.parent]), its wallet and its exchange-rate
    object ([fx]) are outside this module; the view only queries them.
    [Fiat_bool] is the truth value Python gives a [Fiat] object. *)

Record Parent := mk_Parent {
  get_tx_status : string -> TxMinedStatus -> nat * string;
  get_tx_height : string -> TxMinedStatus;
  invoice_paid : string -> bool;
  format_amount : Satoshis -> bool -> string;
  format_fiat : Fiat -> string;
  show_history : bool;
  get_history_capital_gains_config : bool;
  Fiat_bool : Fiat -> bool
}.

Definition TX_ICONS : list string :=
  [ "unconfirmed.png"; "warning.png"; "unconfirmed.png"; "offline_tx.png";
    "clock1.png"; "clock2.png"; "clock3.png"; "clock4.png"; "clock5.png";
    "confirmed.png" ].

Definition MONOSPACE_FONT : string := "monospace".

(** [d[k]] on a dict key that may be absent. *)
Definition getkey {A} (o : option A) : result A :=
  match o with
  | Some a => Ok a
  | None => Raise KeyError
  end.

(** [v < 0] on a [.value] that may be [None]. *)
Definition lt0 (v : Satoshis) : result bool :=
  match v with
  | Some z => Ok (z <? 0)%Z
  | None => Raise TypeError
  end.

Definition set_item_properties (r i : nat) (tx_hash : string)
    (s : HistoryList) : HistoryList :=
  let s1 := if bool_decide (2 < i) then modify r (setTextAlignment AlignRight_VCenter) s else s in
  let s2 := if bool_decide (i ≠ 1) then modify r (setFont MONOSPACE_FONT) s1 else s1 in
  let s3 := if bool_decide (i ∉ editable_columns s2) then modify r (setEditable false) s2 else s2 in
  modify r (setData_tx_hash tx_hash) s3.

(** The [while len(items) < idx + 1] loop of [ensure]: every round appends
    one item, so it runs [idx + 1 - len(items)] times. *)
Fixpoint ensure_rounds (n : nat) (items : list nat) (txid : string)
    (s : HistoryList) : result (list nat * HistoryList) :=
  match n with
  | 0 => Ok (items, s)
  | S n' =>
      match index_of (keys (transactions s)) txid with
      | None => Raise ValueError
      | Some row =>
          if negb (index_valid s row (length items)) then Raise AssertionError
          else
            let '(o, s1) := itemFromIndex row (length items) s in
            r ← item_of o;
            let s2 := set_item_properties r (length items) txid s1 in
            ensure_rounds n' (items ++ [r]) txid s2
      end
  end.

Definition ensure (items : list nat) (idx : nat) (txid : string)
    (s : HistoryList) : result (list nat * HistoryList) :=
  ensure_rounds (idx + 1 - length items) items txid s.

Section View.

Variable parent : Parent.

Definition update_item (tx_hash : string) (tx_mined_status : TxMinedStatus)
    (s : HistoryList) : result HistoryList :=
  if negb (wallet s) then Ok s
  else
    let conf := st_conf tx_mined_status in
    let '(status, status_str) := get_tx_status parent tx_hash tx_mined_status in
    ic ← getitem TX_ICONS status;
    match txid_to_items s !! tx_hash with
    | None => Ok s
    | Some items =>
        i0 ← getitem items 0;
        let s1 := modify i0 (setIcon (":icons/" +:+ ic)) s in
        let s2 := modify i0 (setToolTip (str_Z conf +:+ " confirmation" +:+
                               (if decide (conf = 1%Z) then "" else "s"))) s1 in
        let s3 := modify i0 (setData_sort (status, conf)) s2 in
        i1 ← getitem items 1;
        Ok (modify i1 (setText status_str) s3)
    end.

Definition update_fiat (txid : string) (row : tx_item) (s : HistoryList)
  : result HistoryList :=
  let cap_gains := get_history_capital_gains_config parent in
  items ← getkey (txid_to_items s !! txid);
  '(items, s1) ← ensure items (if cap_gains then 7 else 5) txid s;
  (* [items] is the very list stored in the table: the appended items show there *)
  let s2 := with_txid_to_items (<[txid := items]> (txid_to_items s1)) s1 in
  i5 ← getitem items 5;
  fd ← getkey (fiat_default row);
  fv ← getkey (fiat_value row);
  let s3 := modify i5 (setForeground
              (if negb fd && Fiat_bool parent fv then blue_brush else default_color)) s2 in
  let s4 := modify i5 (setText (format_fiat parent fv)) s3 in
  neg ← lt0 (value row);
  if neg && cap_gains then
    i6 ← getitem items 6;
    ap ← getkey (acquisition_price row);
    let s5 := modify i6 (setText (format_fiat parent ap)) s4 in
    i7 ← getitem items 7;
    cg ← getkey (capital_gain row);
    Ok (modify i7 (setText (format_fiat parent cg)) s5)
  else Ok s4.

(** [item = [QStandardItem(e) for e in entry]] *)
Fixpoint new_items (entry : list string) (s : HistoryList)
  : list nat * HistoryList :=
  match entry with
  | [] => ([], s)
  | e :: entry' =>
      let '(r, s1) := alloc (new_item e) s in
      let '(rs, s2) := new_items entry' s1 in
      (r :: rs, s2)
  end.

(** [for i in range(len(entry)): self.set_item_properties(item[i], i, tx_hash)] *)
Fixpoint set_all_item_properties (item : list nat) (i : nat) (tx_hash : string)
    (s : HistoryList) : HistoryList :=
  match item with
  | [] => s
  | r :: item' =>
      set_all_item_properties item' (S i) tx_hash (set_item_properties r i tx_hash s)
  end.

Definition is_negative (v : Satoshis) : bool :=
  match v with
  | Some z => negb (z =? 0)%Z && (z <? 0)%Z
  | None => false
  end.

Definition insert_tx (tx : tx_item) (s : HistoryList) : result HistoryList :=
  let tx_hash := txid tx in
  let tx_mined_status := mk_TxMinedStatus (height tx) (confirmations tx) (timestamp tx) in
  if negb (wallet s) then Raise AttributeError
  else
    let '(status, status_str) := get_tx_status parent tx_hash tx_mined_status in
    let has_invoice := invoice_paid parent tx_hash in
    _ ← getitem TX_ICONS status;
    let v_str := format_amount parent (value tx) true in
    let balance_str := format_amount parent (balance tx) false in
    let entry := [""; status_str; label tx; v_str; balance_str] in
    let '(item, s1) := new_items entry s in
    s2 ← (if has_invoice
          then i2 ← getitem item 2; Ok (modify i2 (setIcon ":icons/seal") s1)
          else Ok s1);
    let s3 := set_all_item_properties item 0 tx_hash s2 in
    s4 ← (if is_negative (value tx)
          then i2 ← getitem item 2;
               i3 ← getitem item 3;
               Ok (modify i3 (setForeground red_brush)
                     (modify i2 (setForeground red_brush) s3))
          else Ok s3);
    let s5 := with_txid_to_items (<[tx_hash := item]> (txid_to_items s4)) s4 in
    s6 ← update_item tx_hash (get_tx_height parent tx_hash) s5;
    let source_row_idx := rowCount s6 in
    let s7 := insertRow source_row_idx item s6 in
    s8 ← (if show_history parent then update_fiat tx_hash tx s7 else Ok s7);
    hide_row source_row_idx s8.

(** ** [update]: reconciliation with the freshly fetched list *)

(** [self.transactions[txid] = row; self.transactions.move_to_end(txid);
    self.insert_tx(row)] *)
Definition add_tx (row : tx_item) (s : HistoryList) : result HistoryList :=
  let k := txid row in
  let s1 := with_transactions (od_set (transactions s) k row) s in
  t ← od_move_to_end (transactions s1) k;
  insert_tx row (with_transactions t s1).

(** The changed-row branch of the walk (lines after [if old == row]). *)
Definition refresh_tx (row : tx_item) (s : HistoryList) : result HistoryList :=
  let k := txid row in
  s1 ← update_item k (get_tx_height parent k) s;
  s2 ← (if show_history parent then update_fiat k row s1 else Ok s1);
  let balance_str := format_amount parent (balance row) false in
  items ← getkey (txid_to_items s2 !! k);
  i4 ← getitem items 4;
  let s3 := modify i4 (setText balance_str) s2 in
  (* old.clear(); old.update( **row ): the stored record becomes [row] *)
  Ok (with_transactions (od_set (transactions s3) k row) s3).

(** [for idx, row in enumerate(r['transactions'])] *)
Fixpoint walk (r : list tx_item) (seen : gset string) (s : HistoryList)
  : result (gset string * HistoryList) :=
  match r with
  | [] => Ok (seen, s)
  | row :: r' =>
      let k := txid row in
      let seen1 := seen ∪ {[k]} in
      match od_get (transactions s) k with
      | None => s1 ← add_tx row s; walk r' seen1 s1
      | Some old =>
          if decide (old = row) then walk r' seen1 s
          else s1 ← refresh_tx row s; walk r' seen1 s1
      end
  end.

(** [for idx, txid in l: if txid not in seen: ...] over the snapshot
    [l = list(enumerate(self.transactions.keys()))]. *)
Fixpoint remove_unseen (l : list (nat * string)) (seen : gset string)
    (removed : nat) (s : HistoryList) : result HistoryList :=
  match l with
  | [] => Ok s
  | (idx, k) :: l' =>
      if bool_decide (k ∈ seen) then remove_unseen l' seen removed s
      else
        _ ← getkey (od_get (transactions s) k);
        let s1 := with_transactions (od_del (transactions s) k) s in
        _ ← getkey (txid_to_items s1 !! k);
        let s2 := with_txid_to_items (delete k (txid_to_items s1)) s1 in
        let '(items, s3) := takeRow (idx - removed) s2 in
        o ← getitem items 0;
        i0 ← item_of o;
        it ← deref s3 i0;
        if decide (tx_hash_role it = Some k)
        then remove_unseen l' seen (S removed) s3
        else Raise AssertionError
  end.

Definition enumerate {A} (l : list A) : list (nat * A) :=
  zip (seq 0 (length l)) l.

(** The full reconciliation: walk, then removal. *)
Definition update_full (r : list tx_item) (s : HistoryList) : result HistoryList :=
  '(seen, s1) ← walk r ∅ s;
  remove_unseen (enumerate (keys (transactions s1))) seen 0 s1.

(** [update], with [fetched] the wallet's answer to [get_full_history]. *)
Definition update (fetched : list tx_item) (s : HistoryList) : result HistoryList :=
  let s := with_wallet true s in
  let r := limit_confirmations fetched in
  let tx_list := values (transactions s) in
  if decide (r = tx_list) then Ok s
  else if decide (removelast r = tx_list) then
    row ← getitem r (length r - 1);
    let k := txid row in
    if negb (od_mem (transactions s) k) then add_tx row s
    else update_full r s
  else update_full r s.

(** ** Construction *)

Definition headers_count : nat :=
  if show_history parent
  then (if get_history_capital_gains_config parent then 8 else 6)
  else 5.

(** [refresh_headers(update=False)] *)
Definition refresh_headers (s : HistoryList) : HistoryList :=
  let ec := if show_history parent
            then (if bool_decide (5 ∈ editable_columns s)
                  then editable_columns s else editable_columns s ++ [5])
            else base.filter (fun c => c ≠ 5) (editable_columns s) in
  setHorizontalHeaderLabels headers_count (with_editable_columns ec s).

Definition empty_view : HistoryList :=
  mk_HistoryList ∅ [] "" [2] None None false [] [] 0.

(** [self.transactions.update([(x['txid'], x) for x in r['transactions']])] *)
Definition od_update (d : list (string * tx_item)) (r : list tx_item)
  : list (string * tx_item) :=
  foldl (fun d x => od_set d (txid x) x) d r.

Fixpoint insert_all (l : list tx_item) (s : HistoryList) : result HistoryList :=
  match l with
  | [] => Ok s
  | tx :: l' => s1 ← insert_tx tx s; insert_all l' s1
  end.

(** [__init__], with [fetched] the wallet's answer to [get_full_history]. *)
Definition init (fetched : list tx_item) : result HistoryList :=
  let s1 := refresh_headers empty_view in
  let s2 := with_wallet true s1 in
  let r := limit_confirmations fetched in
  let s3 := with_transactions (od_update (transactions s2) r) s2 in
  insert_all (values (transactions s3)) s3.

End View.

(** ** Export and import

    Files and dialogs are outside the view.  A file holds the lines
    written to it, in order (one [writerow] or one [f.write] each;
    buffering is not modelled).  A file system answers an [open] with an
    [OSError] or lets it through; a write may fail at any line, the
    earlier ones having gone through: [write_fault path n] is the answer
    to a write to [path] when [n] lines are in the file.  Reading a file
    as text gives its text or raises.  The main window collects the
    dialogs it was asked to show. *)

Inductive pyval :=
| PyStr (s : string)
| PyInt (z : Z)
| PySatoshis (v : Satoshis)
| PyFiat (v : Fiat)
| PyDatetime (t : Z)
| PyNone.

Inductive line :=
| CsvRow (fields : list pyval)      (* one [writerow] of the csv writer *)
| Text (t : string).                (* one [f.write] *)

Record FileSystem := mk_FileSystem {
  files : gmap string (list line);          (* what was written, per path *)
  open_fault : string -> option string;     (* [open(path, "w+")] raises OSError *)
  write_fault : string -> nat -> option string;  (* a write to [path] raises OSError *)
  source : string -> result string          (* [open(path).read()] *)
}.

Definition with_files (m : gmap string (list line)) (fs : FileSystem) :=
  mk_FileSystem m (open_fault fs) (write_fault fs) (source fs).

Inductive dialog :=
| show_message (msg : string)
| show_critical (msg title : string)
| show_error (e : exn).

(** [open(file_name, "w+")]: the file is created or emptied. *)
Definition open_w (file_name : string) (fs : FileSystem)
  : FileSystem * result unit :=
  match open_fault fs file_name with
  | Some msg => (fs, Raise (OSError msg))
  | None => (with_files (<[file_name := []]> (files fs)) fs, Ok tt)
  end.

Definition write (file_name : string) (l : line) (fs : FileSystem)
  : FileSystem * result unit :=
  let content := default [] (files fs !! file_name) in
  match write_fault fs file_name (length content) with
  | Some msg => (fs, Raise (OSError msg))
  | None =>
      (with_files (<[file_name := content ++ [l]]> (files fs)) fs, Ok tt)
  end.

(** [for line in lines: transaction.writerow(line)] *)
Fixpoint writerows (file_name : string) (ls : list (list pyval))
    (fs : FileSystem) : FileSystem * result unit :=
  match ls with
  | [] => (fs, Ok tt)
  | l :: ls' =>
      match write file_name (CsvRow l) fs with
      | (fs1, Ok _) => writerows file_name ls' fs1
      | (fs1, Raise e) => (fs1, Raise e)
      end
  end.

Definition py_date (d : option Z) : pyval :=
  match d with
  | Some t => PyDatetime t
  | None => PyNone
  end.

(** [item.get(key, '')] *)
Definition get_or_empty {A} (f : A -> pyval) (o : option A) : pyval :=
  match o with
  | Some a => f a
  | None => PyStr ""
  end.

(** [item.get(key, '')] on an entry that the wallet may have set to
    [None]: the writer is handed [None] then. *)
Definition get_entry {A} (f : A -> pyval) (o : option (option A)) : pyval :=
  match o with
  | Some (Some a) => f a
  | Some None => PyNone
  | None => PyStr ""
  end.

(** The data row of one history entry. *)
Definition csv_line (item : tx_item) : list pyval :=
  [ PyStr (txid item);
    PyStr (label item);
    PyInt (confirmations item);
    PySatoshis (value item);
    get_or_empty PyFiat (fiat_value item);
    get_entry PySatoshis (fee item);
    get_entry PyFiat (fiat_fee item);
    py_date (date item) ].

Definition csv_header : list pyval :=
  PyStr <$> [ "transaction_hash"; "label"; "confirmations"; "value";
              "fiat_value"; "fee"; "fiat_fee"; "timestamp" ].

Section ExportHistory.

(** [electrum.util.json_encode] *)
Variable json_encode : list tx_item -> result string.

Definition do_export_history (file_name : string) (is_csv : bool)
    (self : HistoryList) (fs : FileSystem) : FileSystem * result unit :=
  let history := values (transactions self) in
  let lines := if is_csv then csv_line <$> history else [] in
  match open_w file_name fs with
  | (fs0, Raise e) => (fs0, Raise e)
  | (fs0, Ok _) =>
      if is_csv then
        match write file_name (CsvRow csv_header) fs0 with
        | (fs1, Ok _) => writerows file_name lines fs1
        | (fs1, Raise e) => (fs1, Raise e)
        end
      else
        match json_encode history with
        | Ok txt => write file_name (Text txt) fs0
        | Raise e => (fs0, Raise e)
        end
  end.

Variable parent : Parent.

(** [export_history_dialog], with [accepted] the outcome of [d.exec_()],
    [filename] the text of the file-name field and [is_csv] the state of
    the CSV button. *)
Definition export_history_dialog (fetched : list tx_item) (accepted : bool)
    (filename : string) (is_csv : bool)
    (st : HistoryList * FileSystem * list dialog)
  : result (HistoryList * FileSystem * list dialog) :=
  let '(self, fs, dialogs) := st in
  self1 ← update parent fetched self;
  if negb accepted then Ok (self1, fs, dialogs)
  else if decide (filename = "") then Ok (self1, fs, dialogs)
  else
    match do_export_history filename is_csv self1 fs with
    | (fs1, Raise (OSError reason)) =>
        let export_error_label :=
          "Electrum was unable to produce a transaction export." in
        Ok (self1, fs1,
            dialogs ++ [show_critical
                          (export_error_label +:+ String "010" "" +:+ reason)
                          "Unable to export history"])
    | (fs1, Raise e) => Raise e
    | (fs1, Ok _) =>
        Ok (self1, fs1,
            dialogs ++ [show_message
                          "Your wallet history has been successfully exported."])
    end.

End ExportHistory.

Section ImportTransaction.

(** The main window's [tx_from_text] and [save_transaction_into_wallet]
    work on the main window's own state [MW]; either may raise. *)
Variables (MW Tx : Type).
Variable tx_from_text : string -> MW -> MW * result Tx.
Variable save_transaction_into_wallet : Tx -> MW -> MW * result unit.
Variable parent_show_error : exn -> MW -> MW.

(** The [try] body of [onFileAdded]. *)
Definition import_file (fn : string) (fs : FileSystem) (mw : MW)
  : MW * result unit :=
  match source fs fn with
  | Raise e => (mw, Raise e)
  | Ok txt =>
      match tx_from_text txt mw with
      | (mw1, Raise e) => (mw1, Raise e)
      | (mw1, Ok tx) => save_transaction_into_wallet tx mw1
      end
  end.

(** [except IOError as e: self.parent.show_error(e)] *)
Definition onFileAdded (fn : string) (fs : FileSystem) (mw : MW)
  : MW * result unit :=
  match import_file fn fs mw with
  | (mw1, Raise e) =>
      if is_OSError e then (parent_show_error e mw1, Ok tt)
      else (mw1, Raise e)
  | (mw1, Ok _) => (mw1, Ok tt)
  end.

End ImportTransaction.

(** ** Column layout changes: [update_headers], [refresh_headers(update=True)] *)

(** [std_model.removeColumns(column, count)]: refused when the range does
    not lie inside the model; otherwise every row loses the cells of the
    range.  (Qt destroys the items of the removed cells; the Python lists
    in [txid_to_items] keep their references.) *)
Definition removeColumns (column count : nat) (s : HistoryList) : HistoryList :=
  if bool_decide (0 < count) && bool_decide (column + count <= columnCount s) then
    with_columnCount (columnCount s - count)
      (with_rows ((fun rw => mk_Row (take column (cells rw) ++
                                     drop (column + count) (cells rw))
                                    (row_hidden rw)) <$> rows s) s)
  else s.

(** [std_model.clear()]: no rows and no columns are left. *)
Definition clear_model (s : HistoryList) : HistoryList :=
  with_columnCount 0 (with_rows [] s).

(** [while len(items) > col_count: items.pop()] *)
Definition pop_to (col_count : nat) (items : list nat) : list nat :=
  take col_count items.

Section Headers.

Variable parent : Parent.

(** [update_headers(headers)], with [n = len(headers)] and [fetched] the
    wallet's answer to [get_full_history] should [update] be called. *)
Definition update_headers (n : nat) (fetched : list tx_item) (s : HistoryList)
  : result HistoryList :=
  let col_count := columnCount s in
  let diff := col_count - n in
  if bool_decide (n < col_count) then
    s1 ← (if decide (diff = 2) then Ok (removeColumns 6 diff s)
          else if bool_decide (diff ∈ [1; 3]) then Ok (removeColumns 5 diff s)
               else Raise AssertionError);
    let s2 := with_txid_to_items (pop_to col_count <$> txid_to_items s1) s1 in
    Ok (setHorizontalHeaderLabels n s2)
  else if bool_decide (col_count < n) then
    let s1 := clear_model s in
    let s2 := with_txid_to_items ∅ s1 in
    let s3 := with_transactions [] s2 in
    let s4 := setHorizontalHeaderLabels n s3 in
    update parent fetched s4
  else Ok (setHorizontalHeaderLabels n s).

(** [refresh_headers(update=True)] *)
Definition refresh_headers_update (fetched : list tx_item) (s : HistoryList)
  : result HistoryList :=
  let ec := if show_history parent
            then (if bool_decide (5 ∈ editable_columns s)
                  then editable_columns s else editable_columns s ++ [5])
            else base.filter (fun c => c ≠ 5) (editable_columns s) in
  update_headers (headers_count parent) fetched (with_editable_columns ec s).

End Headers.

(** ** Labels and editing: [update_labels], [on_edited] *)

Section Editing.

Variable parent : Parent.

(** The wallet's state [W] is outside this module.  [get_label] is given
    the [TX_HASH_ROLE] data of an item, which is [None] for an item that
    was never tagged. *)
Variable W : Type.
Variable get_label : W -> option string -> result string.
Variable set_label : option string -> string -> W -> W.
(** [wallet.set_fiat_value(key, ccy, text, fx, value)] *)
Variable set_fiat_value : option string -> string -> Satoshis -> W -> W.
(** [tx_item.update(wallet.get_tx_item_fiat(key, value, fx, fee))]: the
    record with the wallet's fiat fields written over its own. *)
Variable get_tx_item_fiat : W -> string -> Z -> option Z -> tx_item -> tx_item.

(** [for i in range(child_count)] of [update_labels]; [root.child(i, 2)]
    is [None] for a cell without an item. *)
Fixpoint update_labels_from (w : W) (rws : list nat) (s : HistoryList)
  : result HistoryList :=
  match rws with
  | [] => Ok s
  | i :: rws' =>
      r ← item_of (cell_at s i 2);
      item ← deref s r;
      label ← get_label w (tx_hash_role item);
      update_labels_from w rws' (modify r (setText label) s)
  end.

Definition update_labels (w : W) (s : HistoryList) : result HistoryList :=
  update_labels_from w (seq 0 (rowCount s)) s.

(** [on_edited(index)], with [row] and [column] those of the edited
    index.  [update_completions] belongs to the main window.
    [fee.value if fee else None] is the amount of a fee object and [None]
    for a fee that is [None]. *)
Definition on_edited (row column : nat) (st : W * HistoryList)
  : result (W * HistoryList) :=
  let '(w, s) := st in
  let '(o, s1) := itemFromIndex row column s in
  r ← item_of o;
  item ← deref s1 r;
  let key := tx_hash_role item in
  let txt := text item in
  if decide (column = 2) then
    let w1 := set_label key txt w in
    s2 ← update_labels w1 s1;
    Ok (w1, s2)
  else if decide (column = 5) then
    k ← getkey key;
    tx ← getkey (od_get (transactions s1) k);
    let w1 := set_fiat_value key txt (value tx) w in
    match value tx with
    | Some v =>
        fee ← getkey (fee tx);
        let fee_value := match fee with Some sat => sat | None => None end in
        let tx' := get_tx_item_fiat w1 k v fee_value tx in
        let s2 := with_transactions (od_set (transactions s1) k tx') s1 in
        s3 ← update_fiat parent k tx' s2;
        Ok (w1, s3)
    | None => Ok (w1, s1)
    end
  else Raise AssertionError.

End Editing.

(** ** The period controls: [on_combo], [show_toolbar], [toggle_toolbar] *)

Section Period.

(** Python's [int(s)] ([None] when it raises) and
    [datetime.datetime(year, 1, 1)], which raises for a year that the
    calendar does not have. *)
Variable int_of : string -> option Z.
Variable new_year : Z -> result Z.

(** [on_combo(x)], with [txt] the text of entry [x] of the combo box.
    (The state of the two date buttons is not part of the model.) *)
Definition on_combo (txt : string) (s : HistoryList) : result HistoryList :=
  if decide (txt = "All") then
    hide_rows (with_end_timestamp None (with_start_timestamp None s))
  else
    match int_of txt with
    | None => Ok s
    | Some year =>
        start_date ← new_year year;
        let s1 := with_start_timestamp (Some start_date) s in
        end_date ← new_year (year + 1);
        let s2 := with_end_timestamp (Some end_date) s1 in
        hide_rows s2
    end.

End Period.

(** The toolbar: whether it is shown, the visibility of its buttons
    ([None] until [create_toolbar] has made them), and the key saved in
    the configuration. *)
Record Toolbar := mk_Toolbar {
  toolbar_shown : bool;
  toolbar_buttons : option bool;
  show_toolbar_history : option bool
}.

(** [create_toolbar]: the buttons are there, invisible. *)
Definition create_toolbar (tb : Toolbar) : Toolbar :=
  mk_Toolbar (toolbar_shown tb) (Some false) (show_toolbar_history tb).

(** [show_toolbar(state, config)]; [has_config] tells whether a config
    was passed. *)
Definition show_toolbar (state has_config : bool) (st : Toolbar * HistoryList)
  : result (Toolbar * HistoryList) :=
  let '(tb, s) := st in
  if decide (state = toolbar_shown tb) then Ok (tb, s)
  else
    let saved := if has_config then Some state else show_toolbar_history tb in
    match toolbar_buttons tb with
    | None => Raise AttributeError
    | Some _ =>
        let tb1 := mk_Toolbar state (Some state) saved in
        if negb state then s1 ← on_hide_toolbar s; Ok (tb1, s1)
        else Ok (tb1, s)
    end.

Definition toggle_toolbar (has_config : bool) (st : Toolbar * HistoryList)
  : result (Toolbar * HistoryList) :=
  show_toolbar (negb (toolbar_shown st.1)) has_config st.

(** ** Sorting: [HistorySortModel.lessThan] *)

(** Python's [<] on the [(status, conf)] tuples kept under [DataRole]. *)
Definition tuple_lt (a b : nat * Z) : bool :=
  if decide (a.1 = b.1) then (a.2 <? b.2)%Z else bool_decide (a.1 < b.1).

Section SortModel.

(** [float(text)] ([None] when it raises ValueError) with the order of
    floats, and the items' own [<], belong to Python and Qt. *)
Variable F : Type.
Variable float : string -> option F.
Variable F_lt : F -> F -> bool.
Variable item_lt : QStandardItem -> QStandardItem -> bool.

Definition lessThan (source_left source_right : nat * nat) (s : HistoryList)
  : result bool * HistoryList :=
  let '(o1, s1) := itemFromIndex source_left.1 source_left.2 s in
  let '(o2, s2) := itemFromIndex source_right.1 source_right.2 s1 in
  (match o1, o2 with
   | Some r1, Some r2 =>
       item1 ← deref s2 r1;
       item2 ← deref s2 r2;
       match data_role item1, data_role item2 with
       | Some data1, Some data2 => Ok (tuple_lt data1 data2)
       | _, _ =>
           match float (text item1), float (text item2) with
           | Some f1, Some f2 => Ok (F_lt f1 f2)
           | _, _ => Ok (item_lt item1 item2)
           end
       end
   | _, _ => Raise AttributeError
   end, s2).

End SortModel.

(** * Specification

    The predicates the theorems are stated with. *)

(** ** Assumptions on the environment *)

(** The status the wallet reports indexes [TX_ICONS]. *)
Definition status_ok (p : Parent) : Prop :=
  forall h st, (get_tx_status p h st).1 < length TX_ICONS.

(** The key is in the dict. *)
Definition present {A} (o : option A) : bool :=
  match o with Some _ => true | None => false end.

(** [value < 0], for a value that is there. *)
Definition negative (v : Satoshis) : bool :=
  match v with Some z => (z <? 0)%Z | None => false end.

(** When the fiat columns are shown, a history entry carries the fiat
    fields and the value [update_fiat] reads. *)
Definition wf_row (p : Parent) (row : tx_item) : bool :=
  negb (show_history p) ||
  (present (fiat_default row) && present (fiat_value row) &&
   present (value row) &&
   (negb (get_history_capital_gains_config p && negative (value row)) ||
    (present (acquisition_price row) && present (capital_gain row)))).

(** Every entry of the fetched list is well formed. *)
Definition wf_fetched (p : Parent) (r : list tx_item) : Prop :=
  Forall (fun row => wf_row p row = true) r.

(** Every stored record is filed under its own hash and is well formed. *)
Definition filed (p : Parent) (kv : string * tx_item) : Prop :=
  txid kv.2 = kv.1 /\ wf_row p kv.2 = true.

(** ** The synchronisation invariant *)

(** An item is [tagged] with the hash it carries under [TX_HASH_ROLE]. *)
Definition tagged (s : HistoryList) (k : string) (r : nat) : Prop :=
  exists it, heap s !! r = Some it /\ tx_hash_role it = Some k.

(** A row is in order for hash [k] when the table entry of [k] lists
    exactly the row's items, at least the five of [insert_tx], all tagged
    [k]. *)
Definition row_ok (s : HistoryList) (k : string) (rw : Row) : Prop :=
  exists items, txid_to_items s !! k = Some items /\
    cells rw = Some <$> items /\ 5 <= length items /\
    Forall (tagged s k) items.

(** The rows present mirror a prefix of the mapping. *)
Record Synced (s : HistoryList) : Prop := mk_Synced {
  synced_nodup : NoDup (keys (transactions s));
  synced_len : rowCount s <= length (transactions s);
  synced_rows : forall i k rw,
    keys (transactions s) !! i = Some k -> rows s !! i = Some rw ->
    row_ok s k rw;
  synced_dom : forall k, is_Some (txid_to_items s !! k) ->
    exists i, i < rowCount s /\ keys (transactions s) !! i = Some k;
  synced_cols : 5 <= columnCount s
}.

(** Between two reconciliations every entry of the mapping has its row. *)
Definition Inv (s : HistoryList) : Prop :=
  Synced s /\ rowCount s = length (transactions s).

(** ** Frames: what a step may write *)

(** [touch k s s']: going from [s] to [s'] only the row of [k], the table
    entry of [k] and items not tagged with another hash were written. *)
Record touch (k : string) (s s' : HistoryList) : Prop := mk_touch {
  t_transactions : transactions s' = transactions s;
  t_wallet : wallet s' = wallet s;
  t_filter : current_filter s' = current_filter s;
  t_start : start_timestamp s' = start_timestamp s;
  t_end : end_timestamp s' = end_timestamp s;
  t_editable : editable_columns s' = editable_columns s;
  t_cols : columnCount s <= columnCount s';
  t_items : forall k', k' ≠ k -> txid_to_items s' !! k' = txid_to_items s !! k';
  t_rowCount : rowCount s <= rowCount s';
  t_rows : forall i, i < rowCount s ->
    keys (transactions s) !! i ≠ Some k -> rows s' !! i = rows s !! i;
  t_heap_len : length (heap s) <= length (heap s');
  t_heap : forall r it k', heap s !! r = Some it ->
    tx_hash_role it = Some k' -> k' ≠ k -> heap s' !! r = Some it;
  t_tagged : forall k' r, tagged s k' r -> tagged s' k' r
}.

(** A setter that leaves the hash of an item alone, or sets it to [k]. *)
Definition tag_safe (k : string) (f : QStandardItem -> QStandardItem) : Prop :=
  forall it, tx_hash_role (f it) = tx_hash_role it \/ tx_hash_role (f it) = Some k.

(** Items that [k] may write: untagged ones and its own. *)
Definition writable (s : HistoryList) (k : string) (r : nat) : Prop :=
  forall it, heap s !! r = Some it ->
    tx_hash_role it = None \/ tx_hash_role it = Some k.

(** Items that were just created and may be written on behalf of [k]. *)
Definition fresh_for (k : string) (s : HistoryList) (r : nat) : Prop :=
  r < length (heap s) /\ writable s k r.

(** What a heap-only step leaves as it was. *)
Record same_table (s s' : HistoryList) : Prop := mk_same_table {
  st_rows : rows s' = rows s;
  st_items : txid_to_items s' = txid_to_items s;
  st_cols : columnCount s' = columnCount s;
  st_heap_len : length (heap s') = length (heap s)
}.

(** The row of [k] is row [i], shows [rw] and owns [items]. *)
Record holds (k : string) (i : nat) (rw : Row) (items : list nat)
    (s : HistoryList) : Prop := mk_holds {
  h_items : txid_to_items s !! k = Some items;
  h_row : rows s !! i = Some rw;
  h_tagged : Forall (tagged s k) items
}.

(** The state while [insert_tx] prepares the items of the new row. *)
Record staged (k : string) (item : list nat) (s s' : HistoryList) : Prop :=
  mk_staged {
  sg_touch : touch k s s';
  sg_fresh : Forall (fresh_for k s') item;
  sg_rows : rows s' = rows s;
  sg_items : txid_to_items s' = txid_to_items s;
  sg_cols : columnCount s' = columnCount s
}.

(** [kept k0 s s']: the row of [k0] sits at the same place with the same
    cells and flag, its table entry and its record are the same, and none
    of its items was written. *)
Record kept (k0 : string) (s s' : HistoryList) : Prop := mk_kept {
  k_pos : forall i, keys (transactions s) !! i = Some k0 ->
    keys (transactions s') !! i = Some k0 /\ rows s' !! i = rows s !! i;
  k_items : txid_to_items s' !! k0 = txid_to_items s !! k0;
  k_heap : forall r it, heap s !! r = Some it ->
    tx_hash_role it = Some k0 -> heap s' !! r = Some it;
  k_record : od_get (transactions s') k0 = od_get (transactions s) k0
}.

(** The row of [k] is still there, possibly further up. *)
Definition moved (k : string) (s s' : HistoryList) : Prop :=
  forall i, keys (transactions s) !! i = Some k ->
    exists j, keys (transactions s') !! j = Some k /\
              rows s' !! j = rows s !! i.

(** What filtering cannot change. *)
Record same_data (s s' : HistoryList) : Prop := mk_same_data {
  sd_transactions : transactions s' = transactions s;
  sd_items : txid_to_items s' = txid_to_items s;
  sd_heap : heap s' = heap s;
  sd_cells : cells <$> rows s' = cells <$> rows s;
  sd_cols : columnCount s' = columnCount s
}.

(** ** The loops of [update] *)

(** The record of [k] after walking [r], starting from [d]. *)
Fixpoint latest (r : list tx_item) (k : string) (d : option tx_item)
  : option tx_item :=
  match r with
  | [] => d
  | row :: r' => latest r' k (if decide (txid row = k) then Some row else d)
  end.

(** One round of the walk. *)
Definition walk_step (p : Parent) (row : tx_item) (s : HistoryList)
  : result HistoryList :=
  match od_get (transactions s) (txid row) with
  | None => add_tx p row s
  | Some old => if decide (old = row) then Ok s else refresh_tx p row s
  end.

(** What one round of the walk establishes. *)
Record step_post (row : tx_item) (s s1 : HistoryList) : Prop := mk_step_post {
  sp_inv : Inv s1;
  sp_wallet : wallet s1 = true;
  sp_cols : columnCount s <= columnCount s1;
  sp_keys : keys (transactions s1) = keys (transactions s) \/
            ((txid row ∉ keys (transactions s)) /\
             keys (transactions s1) = keys (transactions s) ++ [txid row]);
  sp_in : txid row ∈ keys (transactions s1);
  sp_kept : forall k0, k0 ≠ txid row -> kept k0 s s1;
  sp_same : od_get (transactions s) (txid row) = Some row -> kept (txid row) s s1;
  sp_get : forall k', od_get (transactions s1) k' =
             if decide (txid row = k') then Some row
             else od_get (transactions s) k'
}.

(** What the walk establishes. *)
Record walk_post (r : list tx_item) (seen : gset string) (s : HistoryList)
    (seen' : gset string) (s' : HistoryList) : Prop := mk_walk_post {
  wp_inv : Inv s';
  wp_wallet : wallet s' = true;
  wp_cols : columnCount s <= columnCount s';
  wp_seen : seen' = seen ∪ list_to_set (txid <$> r);
  wp_keys : exists new, keys (transactions s') = keys (transactions s) ++ new /\
              forall k, k ∈ new -> k ∈ txid <$> r;
  wp_in : forall k, k ∈ txid <$> r -> k ∈ keys (transactions s');
  wp_kept : forall k0,
    (forall row, row ∈ r -> txid row = k0 ->
       od_get (transactions s) k0 = Some row) ->
    kept k0 s s';
  wp_get : forall k, od_get (transactions s') k =
             latest r k (od_get (transactions s) k)
}.

(** Dropping the entry, the table entry and the row of [k], at place [n]. *)
Definition remove_row (n : nat) (k : string) (s : HistoryList) : HistoryList :=
  with_rows (delete n (rows s))
    (with_txid_to_items (delete k (txid_to_items s))
       (with_transactions (od_del (transactions s) k) s)).

(** What the removal loop establishes, started at place [n]. *)
Record rm_post (seen : gset string) (n : nat) (s s' : HistoryList) : Prop :=
  mk_rm_post {
  rp_inv : Inv s';
  rp_heap : heap s' = heap s;
  rp_cols : columnCount s' = columnCount s;
  rp_wallet : wallet s' = wallet s;
  rp_keys : keys (transactions s') =
            take n (keys (transactions s)) ++
            filter (fun k => k ∈ seen) (drop n (keys (transactions s)));
  rp_kept : forall k, k ∈ seen ->
    txid_to_items s' !! k = txid_to_items s !! k /\
    od_get (transactions s') k = od_get (transactions s) k /\
    moved k s s'
}.

(** What the full reconciliation establishes. *)
Record full_post (r : list tx_item) (s s' : HistoryList) : Prop := mk_full_post {
  fp_inv : Inv s';
  fp_wallet : wallet s' = true;
  fp_cols : columnCount s <= columnCount s';
  fp_keys : exists new,
    keys (transactions s') =
      filter (fun k => k ∈ txid <$> r) (keys (transactions s)) ++ new /\
    NoDup (keys (transactions s) ++ new) /\
    forall k, k ∈ new -> k ∈ txid <$> r;
  fp_hashes : forall k, k ∈ keys (transactions s') <-> k ∈ txid <$> r;
  fp_get : forall k, k ∈ txid <$> r ->
    od_get (transactions s') k = latest r k None;
  fp_kept : forall k0 i,
    keys (transactions s) !! i = Some k0 -> k0 ∈ txid <$> r ->
    (forall row, row ∈ r -> txid row = k0 ->
       od_get (transactions s) k0 = Some row) ->
    (exists j, keys (transactions s') !! j = Some k0 /\
               rows s' !! j = rows s !! i) /\
    txid_to_items s' !! k0 = txid_to_items s !! k0 /\
    od_get (transactions s') k0 = od_get (transactions s) k0 /\
    (forall r0 it, heap s !! r0 = Some it ->
       tx_hash_role it = Some k0 -> heap s' !! r0 = Some it)
}.

(** ** Reachable states and what they show *)

(** The view is built by [init] and then lives through calls of
    [update], of the text filter and of the date-range controls, in an
    environment that meets the assumptions above. *)
Inductive reachable : HistoryList -> Prop :=
| reach_init p fetched s :
    status_ok p -> wf_fetched p fetched ->
    init p fetched = Ok s -> reachable s
| reach_update p fetched s s' :
    reachable s -> status_ok p -> wf_fetched p fetched ->
    headers_count p <= columnCount s ->
    update p fetched s = Ok s' -> reachable s'
| reach_filter f s s' :
    reachable s -> HistoryList_filter f s = Ok s' -> reachable s'
| reach_start d s s' :
    reachable s -> select_start_date d s = Ok s' -> reachable s'
| reach_end d s s' :
    reachable s -> select_end_date d s = Ok s' -> reachable s'
| reach_hide_toolbar s s' :
    reachable s -> on_hide_toolbar s = Ok s' -> reachable s'.

(** The hash a row carries: the [TX_HASH_ROLE] data of its first item. *)
Definition row_hash (s : HistoryList) (rw : Row) : option string :=
  match cells rw !! 0 with
  | Some (Some r) =>
      match heap s !! r with
      | Some it => tx_hash_role it
      | None => None
      end
  | _ => None
  end.

(** The hashes carried by the rows, top to bottom. *)
Definition row_hashes (s : HistoryList) : list (option string) :=
  row_hash s <$> rows s.

(** The lower-cased text shown at a cell. *)
Definition cell_text (s : HistoryList) (row col : nat) : option string :=
  match cell_at s row col with
  | Some r => (fun it => lower (text it)) <$> heap s !! r
  | None => None
  end.

(** Some filter column of the row contains the filter string. *)
Definition text_matches (s : HistoryList) (row : nat) (cols : list nat) : bool :=
  existsb (fun c => match cell_text s row c with
                    | Some t => contains (current_filter s) t
                    | None => false
                    end) cols.

(** Both ends of the period are set and the date lies outside. *)
Definition date_excluded (s : HistoryList) (d : option Z) : bool :=
  match start_timestamp s, end_timestamp s, d with
  | Some start, Some stop, Some t => negb (in_range start t stop)
  | _, _, _ => false
  end.

(** The text of the filter columns of a row. *)
Definition filter_texts (s : HistoryList) (row : nat) : list string :=
  omap (fun c => match cell_at s row c with
                 | Some r => text <$> heap s !! r
                 | None => None
                 end) filter_columns.

(** The hidden flag of a row. *)
Definition hidden_at (s : HistoryList) (row : nat) : option bool :=
  row_hidden <$> rows s !! row.

(** ** A sample wallet, view and file system *)

(** A wallet with the fiat columns and the capital gains shown. *)
Definition sample_parent : Parent :=
  mk_Parent
    (fun _ st => (Z.to_nat (Z.min 9 (Z.max 0 (st_conf st))), "status"))
    (fun _ => mk_TxMinedStatus 100 3 (Some 1546300800%Z))
    (fun _ => false)
    (fun v _ => match v with Some z => str_Z z | None => "unknown" end)
    (fun v => match v with Some z => str_Z z | None => "No data" end)
    true true
    (fun _ => true).

(** A history entry with all its fiat fields. *)
Definition sample_tx (h : string) (conf amount : Z) : tx_item :=
  mk_tx_item h 100 conf (Some 1546300800%Z) (Some 1546300800%Z)
    (Some amount) (Some 5000%Z) "rent" None
    (Some (Some 12%Z)) (Some false) None (Some (Some 10%Z)) (Some (Some 2%Z)).

(** Two transactions; the second is capped at ten confirmations. *)
Definition sample_history : list tx_item :=
  [sample_tx "aa" 3 (-700); sample_tx "bb" 12 900].

(** The view built over [sample_history]. *)
Definition sample_view : HistoryList :=
  Eval vm_compute in
    match init sample_parent sample_history with
    | Ok s => s
    | Raise _ => empty_view
    end.

(** The sample view after a reconciliation that drops "aa", keeps "bb"
    as it is and brings in "cc". *)
Definition sample_view_reconciled : HistoryList :=
  Eval vm_compute in
    match update_full sample_parent
            [sample_tx "bb" 10 900; sample_tx "cc" 0 40] sample_view with
    | Ok s => s
    | Raise _ => empty_view
    end.

(** A file system with a read-only directory, a file that is not text, a
    missing file, and otherwise files holding one serialized transaction. *)
Definition sample_fs : FileSystem :=
  mk_FileSystem ∅
    (fun f => if decide (f = "/readonly/history.csv")
              then Some "Permission denied" else None)
    (fun _ _ => None)
    (fun f => if decide (f = "garbled.txn") then Raise UnicodeDecodeError
              else if decide (f = "missing.txn")
                   then Raise (OSError "No such file or directory")
                   else Ok "0100000000").

(** A stand-in for [json_encode]. *)
Definition sample_json_encode (h : list tx_item) : result string :=
  Ok ("[" +:+ String.concat ", " (txid <$> h) +:+ "]").



(** A main window that only keeps its dialogs, with a parser that accepts
    one serialized transaction. *)
Definition sample_tx_from_text (txt : string) (mw : list dialog)
  : list dialog * result string :=
  if decide (txt = "0100000000") then (mw, Ok txt) else (mw, Raise ValueError).

(** Saving always succeeds. *)
Definition sample_save (tx : string) (mw : list dialog)
  : list dialog * result unit := (mw, Ok tt).

(** [show_error] appends the dialog. *)
Definition sample_show_error (e : exn) (mw : list dialog) : list dialog :=
  mw ++ [show_error e].

(** ** What the filter controls decide *)

(** The flag [hide_row] gives the row at [row], whose record is [tx]:
    hidden when no filter column matched (or no filter is set) and the
    period excludes the date. *)
Definition hidden_flag (s : HistoryList) (row : nat) (tx : tx_item) : bool :=
  negb (negb (bool_decide (current_filter s = "")) &&
        text_matches s row filter_columns) &&
  date_excluded s (date tx).

(** The text is ASCII: [str.lower] is then the folding of A to Z that
    [lower] does. *)
Definition ascii_only (t : string) : bool :=
  forallb (fun c => bool_decide (nat_of_ascii c < 128)) (list_ascii_of_string t).

(** The filter cells of the row show ASCII text. *)
Definition ascii_row (s : HistoryList) (row : nat) : bool :=
  forallb ascii_only (filter_texts s row).

(** So do the filter cells of every row. *)
Definition ascii_cells (s : HistoryList) : bool :=
  forallb (ascii_row s) (seq 0 (rowCount s)).

(** Going from [s] to [s'] only hidden flags were written. *)
Record flags_only (s s' : HistoryList) : Prop := mk_flags_only {
  fo_data : same_data s s';
  fo_filter : current_filter s' = current_filter s;
  fo_start : start_timestamp s' = start_timestamp s;
  fo_end : end_timestamp s' = end_timestamp s;
  fo_editable : editable_columns s' = editable_columns s;
  fo_wallet : wallet s' = wallet s
}.

(** Every row is shown. *)
Definition all_shown (s : HistoryList) : Prop :=
  Forall (fun rw => row_hidden rw = false) (rows s).

(** Two history entries that are the same, or differ only in their
    confirmation counts, both of which are ten or more. *)
Definition same_but_deep (a b : tx_item) : Prop :=
  a = b \/
  (set_confirmations 10 a = set_confirmations 10 b /\
   (10 <= confirmations a)%Z /\ (10 <= confirmations b)%Z).

(** The record is dated, and outside the period from [b] to [e]. *)
Definition dated_outside (b e : Z) (tx : tx_item) : bool :=
  match date tx with
  | Some d => negb (in_range b d e)
  | None => false
  end.

(** Every stored record is filed under its own hash. *)
Definition keyed (d : list (string * tx_item)) : Prop :=
  Forall (fun kv => txid kv.2 = kv.1) d.

(** ** Labels *)

(** Going from [s] to [s'] the description cell (column 2) of every row
    listed in [l] was given the label of the row's hash, and nothing
    else was written. *)
Record labelled (lbl : string -> string) (l : list nat) (s s' : HistoryList)
  : Prop := mk_labelled {
  lb_state : s' = with_heap (heap s') s;
  lb_done : forall i k, i ∈ l -> keys (transactions s) !! i = Some k ->
    exists r it, cell_at s i 2 = Some r /\ heap s !! r = Some it /\
                 heap s' !! r = Some (setText (lbl k) it);
  lb_rest : forall r, (forall i, i ∈ l -> cell_at s i 2 ≠ Some r) ->
    heap s' !! r = heap s !! r
}.

(** A history entry that carries its fee. *)
Definition sample_fee_tx (h : string) (conf amount : Z) : tx_item :=
  mk_tx_item h 100 conf (Some 1546300800%Z) (Some 1546300800%Z)
    (Some amount) (Some 5000%Z) "rent" (Some (Some (Some 1%Z)))
    (Some (Some 12%Z)) (Some false) None (Some (Some 10%Z)) (Some (Some 2%Z)).

(** The view built over one such entry. *)
Definition sample_view_fees : HistoryList :=
  Eval vm_compute in
    match init sample_parent [sample_fee_tx "aa" 3 (-700)] with
    | Ok s => s
    | Raise _ => empty_view
    end.

(** ** Export *)

(** Two file systems that differ at most in the content of [f]. *)
Definition only_file (f : string) (fs fs' : FileSystem) : Prop :=
  (forall g, g ≠ f -> files fs' !! g = files fs !! g) /\
  open_fault fs' = open_fault fs /\ write_fault fs' = write_fault fs /\
  source fs' = source fs.


(** A wallet that shows no fiat columns, and the view it builds over one
    transaction, in a model that was given a sixth column. *)
Definition sample_plain_parent : Parent :=
  mk_Parent (get_tx_status sample_parent) (get_tx_height sample_parent)
    (invoice_paid sample_parent) (format_amount sample_parent)
    (format_fiat sample_parent) false false (Fiat_bool sample_parent).

Definition sample_view_plain : HistoryList :=
  Eval vm_compute in
    match init sample_plain_parent [sample_tx "aa" 3 (-700)] with
    | Ok s => with_columnCount 6 s
    | Raise _ => empty_view
    end.

(** ** What reconciliation leaves alone *)

(** An item that has sort data still has some. *)
Definition keeps_sort (it it' : QStandardItem) : Prop :=
  is_Some (data_role it) -> is_Some (data_role it').

(** Going from [s] to [s'] the filter string, the period and the
    editable columns were not written, and every reference of the item
    store still leads to an item, with sort data if it had some.  (The
    store keeps the items of rows that were taken out: no row and no
    table entry refers to them any more.) *)
Record quiet (s s' : HistoryList) : Prop := mk_quiet {
  q_filter : current_filter s' = current_filter s;
  q_start : start_timestamp s' = start_timestamp s;
  q_end : end_timestamp s' = end_timestamp s;
  q_editable : editable_columns s' = editable_columns s;
  q_heap : forall r it, heap s !! r = Some it ->
    exists it', heap s' !! r = Some it' /\ keeps_sort it it'
}.

(** Every entry of the table starts with an item that has sort data. *)
Definition sort_inv (s : HistoryList) : Prop :=
  forall k items, txid_to_items s !! k = Some items ->
    exists i0 it, items !! 0 = Some i0 /\ heap s !! i0 = Some it /\
                  is_Some (data_role it).

(** A step that is [quiet], leaves the table and the wallet alone and
    does not shorten the item store. *)
Record tame (s s' : HistoryList) : Prop := mk_tame {
  tm_quiet : quiet s s';
  tm_items : txid_to_items s' = txid_to_items s;
  tm_wallet : wallet s' = wallet s;
  tm_len : length (heap s) <= length (heap s')
}.

(** A [quiet] step that may lengthen the table entry of [k] and leaves
    the other entries alone. *)
Record grows (k : string) (s s' : HistoryList) : Prop := mk_grows {
  g_quiet : quiet s s';
  g_wallet : wallet s' = wallet s;
  g_len : length (heap s) <= length (heap s');
  g_other : forall k', k' ≠ k -> txid_to_items s' !! k' = txid_to_items s !! k';
  g_own : exists extra,
    txid_to_items s' !! k = (fun items => items ++ extra) <$> txid_to_items s !! k
}.

(** A [quiet] step that keeps the wallet bound and the sort data of the
    first items. *)
Definition sober (s s' : HistoryList) : Prop :=
  quiet s s' /\ (wallet s = true -> wallet s' = true) /\
  (sort_inv s -> sort_inv s').

(** The sort data of the first cell of a row. *)
Definition sort_data (s : HistoryList) (row : nat) : option (nat * Z) :=
  match cell_at s row 0 with
  | Some r => match heap s !! r with
              | Some it => data_role it
              | None => None
              end
  | None => None
  end.

(** The sample view, filtered by "rent", after an [update] that changes
    "bb", drops "aa" and brings in "cc". *)
Definition sample_view_refiltered : HistoryList :=
  Eval vm_compute in
    match update sample_parent [sample_tx "bb" 12 950; sample_tx "cc" 0 40]
            (with_current_filter "rent" sample_view) with
    | Ok s => s
    | Raise _ => empty_view
    end.

(** * Verification *)

(** ** Inverting the error monad *)

Lemma getitem_Ok {A} (l : list A) i a : l !! i = Some a -> getitem l i = Ok a.
Proof. unfold getitem. by intros ->. Qed.

Lemma getitem_lt {A} (l : list A) i :
  i < length l -> exists a, l !! i = Some a /\ getitem l i = Ok a.
Proof.
  intros H. destruct (lookup_lt_is_Some_2 l i H) as [a Ha].
  exists a. split; [done | by apply getitem_Ok].
Qed.

(** ** The ordered mapping *)

Section OrderedDict.
Context {V : Type}.
Implicit Types (d : list (string * V)) (k : string) (v : V).

Lemma od_get_None d k : od_get d k = None <-> k ∉ keys d.
Proof.
  induction d as [|[k' v'] d IH]; simpl.
  - split; [intros _; apply not_elem_of_nil | done].
  - case_decide as Hk.
    + subst. split; [done | intros H; exfalso; apply H; left].
    + rewrite IH, not_elem_of_cons. intuition congruence.
Qed.

Lemma od_get_Some_elem d k v : od_get d k = Some v -> k ∈ keys d.
Proof.
  intros H. destruct (decide (k ∈ keys d)) as [|Hn]; [done|].
  apply od_get_None in Hn. congruence.
Qed.

Lemma od_get_is_Some d k : k ∈ keys d -> is_Some (od_get d k).
Proof.
  intros H. destruct (od_get d k) eqn:E; [eauto|].
  apply od_get_None in E. done.
Qed.

Lemma keys_od_set_in d k v : k ∈ keys d -> keys (od_set d k v) = keys d.
Proof.
  induction d as [|[k' v'] d IH]; simpl; intros H.
  - by apply elem_of_nil in H.
  - case_decide as Hk; simpl; [by subst|].
    unfold keys in *. simpl. f_equal. apply IH.
    apply elem_of_cons in H as [?|?]; [congruence | done].
Qed.

Lemma od_set_notin d k v : k ∉ keys d -> od_set d k v = d ++ [(k, v)].
Proof.
  induction d as [|[k' v'] d IH]; simpl; intros H; [done|].
  apply not_elem_of_cons in H as [Hne Hn].
  case_decide; [congruence|]. by rewrite IH.
Qed.

Lemma od_del_notin d k : k ∉ keys d -> od_del d k = d.
Proof.
  induction d as [|[k' v'] d IH]; simpl; intros H; [done|].
  apply not_elem_of_cons in H as [Hne Hn].
  case_decide; [congruence|]. by rewrite IH.
Qed.

Lemma od_get_app_r d k v : k ∉ keys d -> od_get (d ++ [(k, v)]) k = Some v.
Proof.
  induction d as [|[k' v'] d IH]; simpl; intros H.
  - by case_decide.
  - apply not_elem_of_cons in H as [Hne Hn]. case_decide; [congruence | auto].
Qed.

Lemma od_get_od_set d k v k' :
  od_get (od_set d k v) k' = if decide (k = k') then Some v else od_get d k'.
Proof.
  induction d as [|[k0 v0] d IH]; simpl.
  - done.
  - destruct (decide (k0 = k)) as [->|Hne]; simpl.
    + destruct (decide (k = k')); done.
    + rewrite IH. destruct (decide (k0 = k')) as [->|]; [|done].
      destruct (decide (k = k')); [by exfalso; apply Hne | done].
Qed.

(** Storing a new key and moving it to the end is an append. *)
Lemma od_set_move_to_end d k v :
  k ∉ keys d -> od_move_to_end (od_set d k v) k = Ok (d ++ [(k, v)]).
Proof.
  intros H. unfold od_move_to_end. rewrite od_set_notin by done.
  rewrite od_get_app_r by done. f_equal.
  induction d as [|[k' v'] d IH]; simpl in *.
  - by case_decide.
  - apply not_elem_of_cons in H as [Hne Hn]. case_decide; [congruence|].
    simpl. f_equal. by apply IH.
Qed.

Lemma index_of_NoDup (l : list string) k i :
  NoDup l -> l !! i = Some k -> index_of l k = Some i.
Proof.
  revert i. induction l as [|k' l IH]; simpl; intros i Hnd H; [done|].
  apply NoDup_cons in Hnd as [Hn Hnd].
  destruct i as [|i]; simpl in *.
  - simplify_eq. by case_decide.
  - case_decide.
    + subst. exfalso. apply Hn. by eapply list_elem_of_lookup_2.
    + by rewrite (IH i).
Qed.

End OrderedDict.

(** ** Basic facts about [touch] *)

Lemma touch_refl k s : touch k s s.
Proof. by constructor. Qed.

Lemma touch_trans k s1 s2 s3 : touch k s1 s2 -> touch k s2 s3 -> touch k s1 s3.
Proof.
  intros [] []. constructor; try congruence; try lia; eauto.
  - intros k' Hk. by rewrite t_items1, t_items0.
  - intros i Hi Hk. rewrite t_rows1; [auto | lia | congruence].
Qed.

Lemma tagged_writable s k r : tagged s k r -> writable s k r.
Proof. intros (it & H1 & H2) it' H. right. congruence. Qed.

Lemma touch_modify k s r f :
  writable s k r -> tag_safe k f -> touch k s (modify r f s).
Proof.
  intros Hw Hf. constructor; simpl; try done.
  - by rewrite length_alter.
  - intros r' it k' Hr' Hit Hk.
    rewrite list_lookup_alter_ne; [done|].
    intros ->. destruct (Hw _ Hr') as [?|?]; congruence.
  - intros k' r' (it & Hr' & Hit).
    destruct (decide (r = r')) as [->|Hne].
    + exists (f it). simpl. rewrite list_lookup_alter_eq, Hr'. split; [done|].
      destruct (Hf it) as [?|?]; [congruence|].
      destruct (Hw _ Hr') as [?|?]; congruence.
    + exists it. simpl. by rewrite list_lookup_alter_ne.
Qed.

Lemma tagged_modify s k r f r' :
  tagged s k r' -> (forall it, tx_hash_role (f it) = tx_hash_role it) ->
  tagged (modify r f s) k r'.
Proof.
  intros (it & Hr' & Hit) Hf. unfold tagged. simpl.
  destruct (decide (r = r')) as [->|Hne].
  - exists (f it). simpl. rewrite list_lookup_alter_eq, Hr'. split; [done|]. by rewrite Hf.
  - exists it. simpl. by rewrite list_lookup_alter_ne.
Qed.

Lemma touch_alloc k s it : touch k s (alloc it s).2.
Proof.
  constructor; simpl; try done.
  - rewrite length_app. lia.
  - intros r it' k' Hr _ _. by apply lookup_app_l_Some.
  - intros k' r (it' & Hr & Hit). exists it'. split; [|done].
    by apply lookup_app_l_Some.
Qed.

Lemma touch_set_items k s items :
  touch k s (with_txid_to_items (<[k := items]> (txid_to_items s)) s).
Proof.
  constructor; simpl; try done.
  intros k' Hk. by rewrite lookup_insert_ne.
Qed.

Lemma touch_insertRow k s items :
  touch k s (insertRow (rowCount s) items s).
Proof.
  unfold insertRow. rewrite bool_decide_true by done.
  constructor; simpl; try done.
  - lia.
  - unfold rowCount. simpl. rewrite length_app, length_take. simpl. lia.
  - intros i Hi _. unfold rowCount in *.
    rewrite take_ge, drop_ge by lia. by rewrite lookup_app_l.
Qed.

Lemma rows_insertRow s items :
  rows (insertRow (rowCount s) items s) = rows s ++ [mk_Row (Some <$> items) false].
Proof.
  unfold insertRow. rewrite bool_decide_true by done. simpl.
  unfold rowCount. by rewrite take_ge, drop_ge by lia.
Qed.

Lemma touch_setRowHidden k s i b :
  keys (transactions s) !! i = Some k -> touch k s (setRowHidden i b s).
Proof.
  intros Hi. constructor; simpl; try done.
  - unfold rowCount. simpl. by rewrite length_alter.
  - intros j Hj Hk. rewrite list_lookup_alter_ne; [done | congruence].
Qed.

Lemma row_ok_mono s s' k rw :
  txid_to_items s' !! k = txid_to_items s !! k ->
  (forall r, tagged s k r -> tagged s' k r) ->
  row_ok s k rw -> row_ok s' k rw.
Proof.
  intros Hi Ht (items & H1 & H2 & H3 & H4).
  exists items. rewrite Hi. repeat split; try done.
  eapply Forall_impl; eauto.
Qed.

(** Rows of other hashes stay in order across a [touch]. *)
Lemma row_ok_touch k k' s s' rw :
  touch k s s' -> k' ≠ k -> row_ok s k' rw -> row_ok s' k' rw.
Proof.
  intros Ht Hne. apply row_ok_mono.
  - by apply (t_items _ _ _ Ht).
  - intros r. apply (t_tagged _ _ _ Ht).
Qed.

Lemma synced_touch k s s' :
  Synced s -> touch k s s' ->
  rowCount s' <= length (transactions s) ->
  (forall i rw, rows s' !! i = Some rw ->
     i < rowCount s \/ keys (transactions s) !! i = Some k) ->
  (forall i rw, keys (transactions s) !! i = Some k ->
     rows s' !! i = Some rw -> row_ok s' k rw) ->
  (is_Some (txid_to_items s' !! k) ->
     exists i, i < rowCount s' /\ keys (transactions s) !! i = Some k) ->
  Synced s'.
Proof.
  intros Hs Ht Hrc Hnew Hk Hdom. destruct Hs.
  constructor.
  - by rewrite (t_transactions _ _ _ Ht).
  - by rewrite (t_transactions _ _ _ Ht).
  - rewrite (t_transactions _ _ _ Ht). intros i k' rw Hi Hrw.
    destruct (decide (k' = k)) as [->|Hne]; [by eapply Hk|].
    destruct (Hnew _ _ Hrw) as [Hlt|?]; [|congruence].
    rewrite (t_rows _ _ _ Ht) in Hrw; [|done|congruence].
    eapply row_ok_touch; eauto.
  - rewrite (t_transactions _ _ _ Ht). intros k' Hk'.
    destruct (decide (k' = k)) as [->|Hne]; [auto|].
    rewrite (t_items _ _ _ Ht) in Hk' by done.
    destruct (synced_dom0 _ Hk') as (i & Hi & Hki).
    exists i. split; [|done]. pose proof (t_rowCount _ _ _ Ht). lia.
  - pose proof (t_cols _ _ _ Ht). lia.
Qed.

(** ** Well-formed fetched lists *)

Lemma wf_fetched_limit p r : wf_fetched p r -> wf_fetched p (limit_confirmations r).
Proof.
  unfold wf_fetched, limit_confirmations. intros H.
  apply Forall_fmap. eapply Forall_impl; [exact H|].
  intros row Hrow. simpl. by destruct (10 <=? confirmations row)%Z.
Qed.

Lemma txid_limit r : txid <$> limit_confirmations r = txid <$> r.
Proof.
  unfold limit_confirmations. rewrite <- list_fmap_compose.
  apply list_fmap_ext. intros _ row _. simpl.
  by destruct (10 <=? confirmations row)%Z.
Qed.

(** ** Writing through references *)

Lemma modify_modify r f g s :
  modify r f (modify r g s) = modify r (f ∘ g) s.
Proof. unfold modify, with_heap. simpl. by rewrite list_alter_alter_eq. Qed.

Lemma set_item_properties_modify r i k s :
  exists g, set_item_properties r i k s = modify r g s /\
            forall it, tx_hash_role (g it) = Some k.
Proof.
  unfold set_item_properties.
  destruct (bool_decide (2 < i)), (bool_decide (i ≠ 1)); simpl;
    match goal with |- context [bool_decide ?P] => destruct (bool_decide P) end;
    rewrite ?modify_modify; eexists; (split; [reflexivity | done]).
Qed.

Lemma touch_step k s s1 r f :
  touch k s s1 -> writable s1 k r -> tag_safe k f -> touch k s (modify r f s1).
Proof. intros. eapply touch_trans; [done | by apply touch_modify]. Qed.

Lemma tag_safe_keep k f :
  (forall it, tx_hash_role (f it) = tx_hash_role it) -> tag_safe k f.
Proof. intros H it. by left. Qed.

Lemma tag_safe_set k f :
  (forall it, tx_hash_role (f it) = Some k) -> tag_safe k f.
Proof. intros H it. by right. Qed.

Lemma touch_set_item_properties k s r i :
  writable s k r -> touch k s (set_item_properties r i k s).
Proof.
  intros Hw. destruct (set_item_properties_modify r i k s) as (g & -> & Hg).
  apply touch_modify; [done | by apply tag_safe_set].
Qed.

Lemma tagged_set_item_properties k s r i :
  r < length (heap s) -> tagged (set_item_properties r i k s) k r.
Proof.
  intros Hr. destruct (set_item_properties_modify r i k s) as (g & -> & Hg).
  destruct (lookup_lt_is_Some_2 _ _ Hr) as [it Hit].
  exists (g it). simpl. by rewrite list_lookup_alter_eq, Hit.
Qed.

Lemma same_table_refl s : same_table s s.
Proof. by constructor. Qed.

Lemma same_table_trans s1 s2 s3 :
  same_table s1 s2 -> same_table s2 s3 -> same_table s1 s3.
Proof. intros [] []. constructor; congruence. Qed.

Lemma same_table_modify s r f : same_table s (modify r f s).
Proof. constructor; simpl; try done. by rewrite length_alter. Qed.

Lemma same_table_set_item_properties s r i k :
  same_table s (set_item_properties r i k s).
Proof.
  destruct (set_item_properties_modify r i k s) as (g & -> & _).
  apply same_table_modify.
Qed.

Lemma same_table_rowCount s s' : same_table s s' -> rowCount s' = rowCount s.
Proof. intros []. unfold rowCount. congruence. Qed.

(** ** [update_item] *)

Lemma update_item_spec p k st s items :
  wallet s = true -> status_ok p ->
  txid_to_items s !! k = Some items -> 2 <= length items ->
  Forall (tagged s k) items ->
  exists s', update_item p k st s = Ok s' /\ touch k s s' /\ same_table s s'.
Proof.
  intros Hw Hst Hitems Hlen Htag. unfold update_item. rewrite Hw. simpl.
  pose proof (Hst k st) as Hs.
  destruct (get_tx_status p k st) as [status status_str]. simpl in Hs.
  destruct (getitem_lt TX_ICONS status Hs) as (ic & _ & ->). simpl.
  rewrite Hitems.
  destruct (getitem_lt items 0 ltac:(lia)) as (i0 & Hi0 & ->). simpl.
  destruct (getitem_lt items 1 ltac:(lia)) as (i1 & Hi1 & ->). simpl.
  assert (tagged s k i0) as Ht0
    by (eapply Forall_lookup_1; [exact Htag | exact Hi0]).
  assert (tagged s k i1) as Ht1
    by (eapply Forall_lookup_1; [exact Htag | exact Hi1]).
  eexists. split; [reflexivity|]. split.
  - repeat (apply touch_step; [| | by apply tag_safe_keep]);
      [apply touch_refl | ..];
      apply tagged_writable; repeat (apply tagged_modify; [|done]); done.
  - repeat (eapply same_table_trans; [|apply same_table_modify]).
    apply same_table_refl.
Qed.

(** ** [hide_row] on a row that is in order *)

Lemma itemFromIndex_existing s i col rw r :
  rows s !! i = Some rw -> cells rw !! col = Some (Some r) ->
  col < columnCount s -> itemFromIndex i col s = (Some r, s).
Proof.
  intros Hrw Hc Hcol. unfold itemFromIndex, index_valid, cell_at, rowCount.
  pose proof (lookup_lt_Some _ _ _ Hrw).
  rewrite !bool_decide_true by done. simpl. by rewrite Hrw, Hc.
Qed.

Lemma row_ok_cell s k rw c :
  row_ok s k rw -> c < 5 ->
  exists r it, cells rw !! c = Some (Some r) /\ heap s !! r = Some it /\
               tx_hash_role it = Some k.
Proof.
  intros (items & _ & Hc & Hlen & Htag) Hlt.
  destruct (lookup_lt_is_Some_2 items c ltac:(lia)) as [r Hr].
  destruct (Forall_lookup_1 _ _ _ _ Htag Hr) as (it & Hit & Hrole).
  exists r, it. rewrite Hc, list_lookup_fmap, Hr. done.
Qed.

Lemma hide_row_columns_spec s i k rw cols :
  rows s !! i = Some rw -> row_ok s k rw -> 5 <= columnCount s ->
  Forall (fun c => c < 5) cols ->
  hide_row_columns i cols s = Ok (inl (setRowHidden i false s)) \/
  hide_row_columns i cols s = Ok (inr s).
Proof.
  intros Hrw Hok Hcc. induction 1 as [|c cols Hc _ IH]; simpl; [by right|].
  destruct (row_ok_cell _ _ _ c Hok Hc) as (r & it & Hcell & Hit & _).
  rewrite (itemFromIndex_existing _ _ _ _ _ Hrw Hcell) by lia. simpl.
  unfold deref. rewrite Hit. simpl.
  destruct (contains _ _); [by left | exact IH].
Qed.

Lemma hide_row_dates_spec s i k rw :
  keys (transactions s) !! i = Some k ->
  rows s !! i = Some rw -> row_ok s k rw -> 5 <= columnCount s ->
  exists b, hide_row_dates i s = Ok (setRowHidden i b s).
Proof.
  intros Hk Hrw Hok Hcc. unfold hide_row_dates.
  destruct (start_timestamp s) as [start|]; [|by eexists].
  destruct (end_timestamp s) as [stop|]; [|by eexists].
  destruct (row_ok_cell _ _ _ 0 Hok ltac:(lia)) as (r & it & Hcell & Hit & Hrole).
  rewrite (itemFromIndex_existing _ _ _ _ _ Hrw Hcell) by lia. simpl.
  unfold deref. rewrite Hit. simpl. rewrite Hrole.
  destruct (od_get_is_Some (transactions s) k) as [tx ->].
  { by eapply list_elem_of_lookup_2. }
  destruct (date tx) as [d|]; [|by eexists].
  destruct (negb _); by eexists.
Qed.

Lemma hide_row_spec s i k rw :
  keys (transactions s) !! i = Some k ->
  rows s !! i = Some rw -> row_ok s k rw -> 5 <= columnCount s ->
  exists b, hide_row i s = Ok (setRowHidden i b s).
Proof.
  intros Hk Hrw Hok Hcc. unfold hide_row.
  set (cols := if decide (current_filter s = "") then [] else filter_columns).
  assert (Forall (fun c => c < 5) cols) as Hcols.
  { subst cols. case_decide; [constructor|].
    unfold filter_columns. repeat constructor; lia. }
  destruct (hide_row_columns_spec s i k rw cols Hrw Hok Hcc Hcols) as [-> | ->].
  - simpl. by eexists.
  - simpl. by eapply hide_row_dates_spec.
Qed.

Lemma row_ok_setRowHidden s k rw i b :
  row_ok s k rw -> row_ok (setRowHidden i b s) k (mk_Row (cells rw) b).
Proof. intros (items & ? & ? & ? & ?). by exists items. Qed.

(** ** [ensure]: the missing items of a row are created in its own row *)

Lemma set_cell_end l r : set_cell l (length l) r = l ++ [Some r].
Proof.
  unfold set_cell. replace (S (length l) - length l) with 1 by lia. simpl.
  replace (length l) with (length l + 0) at 1 by lia.
  by rewrite insert_app_r.
Qed.

Lemma itemFromIndex_fresh s i rw items :
  rows s !! i = Some rw -> cells rw = Some <$> items ->
  length items < columnCount s ->
  itemFromIndex i (length items) s =
    (Some (length (heap s)),
     with_rows (<[i := mk_Row (Some <$> (items ++ [length (heap s)])) (row_hidden rw)]> (rows s))
       (with_heap (heap s ++ [new_item ""]) s)).
Proof.
  intros Hrw Hc Hcol. unfold itemFromIndex, index_valid, cell_at, rowCount.
  pose proof (lookup_lt_Some _ _ _ Hrw).
  rewrite !bool_decide_true by done. simpl. rewrite Hrw, Hc.
  rewrite list_lookup_fmap, (lookup_ge_None_2 items) by lia. simpl.
  f_equal. unfold with_rows. simpl. f_equal.
  apply list_eq. intros j. destruct (decide (i = j)) as [<-|Hne].
  - rewrite list_lookup_alter_eq, list_lookup_insert_eq by done.
    rewrite Hrw. simpl. unfold set_row_cell. rewrite Hc.
    replace (length items) with (length (Some <$> items)) at 1
      by apply length_fmap.
    by rewrite set_cell_end, fmap_snoc.
  - by rewrite list_lookup_alter_ne, list_lookup_insert_ne.
Qed.

Lemma touch_new_cell k s i rw' it :
  keys (transactions s) !! i = Some k ->
  touch k s (with_rows (<[i := rw']> (rows s)) (with_heap (heap s ++ [it]) s)).
Proof.
  intros Hk. constructor; simpl; try done.
  - unfold rowCount. simpl. by rewrite length_insert.
  - intros j Hj Hne. rewrite list_lookup_insert_ne; [done | congruence].
  - rewrite length_app. lia.
  - intros r it' k' Hr _ _. by apply lookup_app_l_Some.
  - intros k' r (it' & Hr & Hit). exists it'. split; [|done].
    simpl. by apply lookup_app_l_Some.
Qed.

Lemma ensure_rounds_spec k i n : forall items s rw,
  NoDup (keys (transactions s)) ->
  keys (transactions s) !! i = Some k ->
  rows s !! i = Some rw -> cells rw = Some <$> items ->
  (0 < n -> length items + n <= columnCount s) ->
  Forall (tagged s k) items ->
  exists items' s',
    ensure_rounds n items k s = Ok (items', s') /\
    length items' = length items + n /\
    Forall (tagged s' k) items' /\
    touch k s s' /\ rowCount s' = rowCount s /\
    txid_to_items s' = txid_to_items s /\
    rows s' !! i = Some (mk_Row (Some <$> items') (row_hidden rw)).
Proof.
  induction n as [|n IH]; intros items s rw Hnd Hk Hrw Hc Hcol Htag; simpl.
  - exists items, s. repeat split; try done; try lia; try apply touch_refl.
    rewrite Hrw. f_equal. destruct rw. simpl in *. by rewrite Hc.
  - rewrite (index_of_NoDup _ _ _ Hnd Hk).
    pose proof (lookup_lt_Some _ _ _ Hrw) as Hlt.
    unfold index_valid at 1. unfold rowCount at 1.
    rewrite !bool_decide_true by (done || lia). simpl.
    rewrite (itemFromIndex_fresh _ _ _ _ Hrw Hc) by lia. simpl.
    set (r := length (heap s)).
    set (rw1 := mk_Row (Some <$> items ++ [r]) (row_hidden rw)).
    set (s1 := with_rows _ _).
    assert (touch k s s1) as Ht1 by (by apply touch_new_cell).
    set (s2 := set_item_properties r (length items) k s1).
    assert (writable s1 k r) as Hw.
    { intros it Hit. left. subst s1 r. simpl in Hit.
      rewrite lookup_app_r, Nat.sub_diag in Hit by done. by simplify_eq/=. }
    assert (touch k s1 s2) as Ht2 by (by apply touch_set_item_properties).
    pose proof (same_table_set_item_properties s1 r (length items) k) as Hst.
    fold s2 in Hst.
    assert (tagged s2 k r) as Htr.
    { apply tagged_set_item_properties. subst s1 r. simpl.
      rewrite length_app. simpl. lia. }
    destruct (IH (items ++ [r]) s2 rw1) as (items' & s' & Hens & Hlen & Htag' & Ht' & Hrc & Hti & Hrow).
    + by rewrite (t_transactions _ _ _ Ht2), (t_transactions _ _ _ Ht1).
    + by rewrite (t_transactions _ _ _ Ht2), (t_transactions _ _ _ Ht1).
    + rewrite (st_rows _ _ Hst). subst s1. simpl.
      by rewrite list_lookup_insert_eq.
    + done.
    + rewrite length_app, (st_cols _ _ Hst). subst s1. simpl. lia.
    + apply Forall_app. split; [|by repeat constructor].
      eapply Forall_impl; [exact Htag|]. intros r' Hr'.
      apply (t_tagged _ _ _ Ht2), (t_tagged _ _ _ Ht1), Hr'.
    + exists items', s'. split; [exact Hens|].
      split; [rewrite Hlen, length_app; simpl; lia|].
      split; [done|].
      split; [eapply touch_trans; [|exact Ht']; by eapply touch_trans|].
      split.
      { rewrite Hrc, (same_table_rowCount _ _ Hst). subst s1.
        unfold rowCount. simpl. by rewrite length_insert. }
      split; [|done].
      rewrite Hti, (st_items _ _ Hst). by subst s1.
Qed.

(** ** [update_fiat] *)

Lemma holds_modify k i rw items s r f :
  holds k i rw items s ->
  (forall it, tx_hash_role (f it) = tx_hash_role it) ->
  holds k i rw items (modify r f s).
Proof.
  intros [] Hf. constructor; simpl; try done.
  eapply Forall_impl; [exact h_tagged0|]. intros r' Hr'.
  by apply tagged_modify.
Qed.

Lemma holds_writable k i rw items s j r :
  holds k i rw items s -> items !! j = Some r -> writable s k r.
Proof.
  intros [] Hj. apply tagged_writable.
  eapply Forall_lookup_1; [exact h_tagged0 | exact Hj].
Qed.

(** One more setter call on an item of the row. *)
Lemma touch_holds_modify k s0 i rw items s j r f :
  touch k s0 s /\ holds k i rw items s /\ rowCount s = rowCount s0 ->
  items !! j = Some r ->
  (forall it, tx_hash_role (f it) = tx_hash_role it) ->
  touch k s0 (modify r f s) /\ holds k i rw items (modify r f s) /\
  rowCount (modify r f s) = rowCount s0.
Proof.
  intros (Ht & Hh & Hrc) Hj Hf. split; [|split].
  - apply touch_step; [done | by eapply holds_writable | by apply tag_safe_keep].
  - by apply holds_modify.
  - done.
Qed.

Lemma update_fiat_spec p k row s i rw items :
  show_history p = true -> wf_row p row = true ->
  NoDup (keys (transactions s)) -> keys (transactions s) !! i = Some k ->
  rows s !! i = Some rw -> txid_to_items s !! k = Some items ->
  cells rw = Some <$> items -> 5 <= length items ->
  Forall (tagged s k) items ->
  headers_count p <= columnCount s ->
  exists s' items',
    update_fiat p k row s = Ok s' /\ touch k s s' /\
    holds k i (mk_Row (Some <$> items') (row_hidden rw)) items' s' /\
    rowCount s' = rowCount s /\ 5 <= length items'.
Proof.
  intros Hsh Hwf Hnd Hk Hrw Hitems Hc Hlen Htag Hcc.
  unfold update_fiat. rewrite Hitems. simpl.
  set (cap := get_history_capital_gains_config p) in *.
  set (idx := if cap then 7 else 5).
  assert (idx + 1 = headers_count p) as Hidx.
  { unfold headers_count, idx. rewrite Hsh. fold cap. by destruct cap. }
  unfold ensure.
  destruct (ensure_rounds_spec k i (idx + 1 - length items) items s rw)
    as (items' & s1 & -> & Hlen' & Htag' & Ht1 & Hrc1 & Hti1 & Hrow1);
    try done.
  { intros. lia. }
  simpl.
  set (s2 := with_txid_to_items _ s1).
  assert (touch k s s2 /\
          holds k i (mk_Row (Some <$> items') (row_hidden rw)) items' s2 /\
          rowCount s2 = rowCount s) as H2.
  { split; [|split].
    - eapply touch_trans; [exact Ht1 | apply touch_set_items].
    - constructor; simpl; [by rewrite lookup_insert_eq | done | done].
    - done. }
  clearbody s2.
  assert (idx + 1 <= length items') as Hlen2 by lia.
  unfold wf_row in Hwf. rewrite Hsh in Hwf. simpl in Hwf. fold cap in Hwf.
  destruct (fiat_default row) as [fd|]; [|done].
  destruct (fiat_value row) as [fv|]; [|done].
  destruct (value row) as [v|]; [|done]. simpl in *.
  destruct (getitem_lt items' 5) as (i5 & Hi5 & ->).
  { subst idx. destruct cap; lia. }
  simpl.
  pose proof (touch_holds_modify _ _ _ _ _ _ _ _
    (setForeground (if negb fd && Fiat_bool p fv then blue_brush else default_color))
    H2 Hi5 ltac:(done)) as H3.
  pose proof (touch_holds_modify _ _ _ _ _ _ _ _
    (setText (format_fiat p fv)) H3 Hi5 ltac:(done)) as H4.
  destruct ((v <? 0)%Z && cap) eqn:Hneg; simpl.
  - apply andb_true_iff in Hneg as [Hv Hcap]. rewrite Hv, Hcap in Hwf.
    simpl in Hwf.
    destruct (acquisition_price row) as [ap|]; [|done].
    destruct (capital_gain row) as [cg|]; [|done]. simpl.
    subst idx. rewrite Hcap in *.
    destruct (getitem_lt items' 6 ltac:(lia)) as (i6 & Hi6 & ->). simpl.
    destruct (getitem_lt items' 7 ltac:(lia)) as (i7 & Hi7 & ->). simpl.
    pose proof (touch_holds_modify _ _ _ _ _ _ _ _
      (setText (format_fiat p ap)) H4 Hi6 ltac:(done)) as H5.
    pose proof (touch_holds_modify _ _ _ _ _ _ _ _
      (setText (format_fiat p cg)) H5 Hi7 ltac:(done)) as H6.
    destruct H6 as (? & ? & ?).
    eexists _, items'. split; [reflexivity|]. split_and!; try done; lia.
  - destruct H4 as (? & ? & ?).
    eexists _, items'. split; [reflexivity|]. split_and!; try done.
    subst idx. destruct cap; lia.
Qed.

(** ** [insert_tx] *)

Lemma new_items_spec entry : forall s,
  new_items entry s =
    (seq (length (heap s)) (length entry),
     with_heap (heap s ++ (new_item <$> entry)) s).
Proof.
  induction entry as [|e entry IH]; intros s; simpl.
  - rewrite app_nil_r. by destruct s.
  - rewrite IH. simpl. rewrite length_app. simpl.
    replace (length (heap s) + 1) with (S (length (heap s))) by lia.
    unfold with_heap. simpl. by rewrite <- app_assoc.
Qed.

Lemma writable_modify k s r r' f :
  writable s k r -> tag_safe k f -> writable (modify r' f s) k r.
Proof.
  intros Hw Hf it. simpl. destruct (decide (r' = r)) as [->|Hne].
  - rewrite list_lookup_alter_eq. destruct (heap s !! r) as [it0|] eqn:E; [|done].
    intros Heq. simplify_eq/=. destruct (Hf it0) as [-> | ->]; [by apply Hw | by right].
  - rewrite list_lookup_alter_ne by done. apply Hw.
Qed.

Lemma fresh_for_modify k s r r' f :
  fresh_for k s r -> tag_safe k f -> fresh_for k (modify r' f s) r.
Proof.
  intros [Hlt Hw] Hf. split; [simpl; by rewrite length_alter|].
  by apply writable_modify.
Qed.

Lemma set_all_item_properties_spec k item : forall i s,
  Forall (fresh_for k s) item ->
  touch k s (set_all_item_properties item i k s) /\
  same_table s (set_all_item_properties item i k s) /\
  Forall (tagged (set_all_item_properties item i k s) k) item.
Proof.
  induction item as [|r item IH]; intros i s Hf; simpl.
  - split; [apply touch_refl|]. split; [apply same_table_refl | constructor].
  - apply Forall_cons in Hf as [[Hlt Hw] Hf].
    pose proof (touch_set_item_properties k s r i Hw) as Ht1.
    pose proof (same_table_set_item_properties s r i k) as Hs1.
    pose proof (tagged_set_item_properties k s r i Hlt) as Htag1.
    destruct (IH (S i) (set_item_properties r i k s)) as (Ht2 & Hs2 & Htag2).
    { eapply Forall_impl; [exact Hf|]. intros r' Hr'.
      destruct (set_item_properties_modify r i k s) as (g & -> & Hg).
      apply fresh_for_modify; [done | by apply tag_safe_set]. }
    split; [by eapply touch_trans|].
    split; [by eapply same_table_trans|].
    constructor; [|done]. by apply (t_tagged _ _ _ Ht2).
Qed.

Lemma tagged_fresh k s r : r < length (heap s) -> tagged s k r -> fresh_for k s r.
Proof. intros. split; [done | by apply tagged_writable]. Qed.

Lemma tagged_lt s k r : tagged s k r -> r < length (heap s).
Proof. intros (it & H & _). by eapply lookup_lt_Some. Qed.

Lemma synced_absent s k :
  Synced s -> keys (transactions s) !! rowCount s = Some k ->
  txid_to_items s !! k = None.
Proof.
  intros Hs Hk. destruct (txid_to_items s !! k) as [items|] eqn:E; [|done].
  destruct (synced_dom _ Hs k) as (i & Hi & Hki); [by eexists|].
  pose proof (NoDup_lookup _ _ _ _ (synced_nodup _ Hs) Hki Hk). lia.
Qed.

Lemma fresh_new_items k s entry :
  Forall (fresh_for k (with_heap (heap s ++ (new_item <$> entry)) s))
         (seq (length (heap s)) (length entry)).
Proof.
  apply Forall_forall. intros r Hr. apply elem_of_seq in Hr.
  split; simpl.
  - rewrite length_app, length_fmap. lia.
  - intros it. simpl. rewrite lookup_app_r by lia.
    rewrite list_lookup_fmap. destruct (entry !! _); [|done].
    intros ?. simplify_eq/=. by left.
Qed.

Lemma touch_new_items k s its :
  touch k s (with_heap (heap s ++ its) s).
Proof.
  constructor; simpl; try done.
  - rewrite length_app. lia.
  - intros r it' k' Hr _ _. by apply lookup_app_l_Some.
  - intros k' r (it' & Hr & Hit). exists it'. split; [|done].
    simpl. by apply lookup_app_l_Some.
Qed.

Lemma staged_modify k item s s' r f :
  staged k item s s' -> r ∈ item -> tag_safe k f ->
  staged k item s (modify r f s').
Proof.
  intros [] Hr Hf. constructor; simpl; try done.
  - apply touch_step; [done | | done].
    by apply (proj1 (Forall_forall _ _) sg_fresh0 r Hr).
  - eapply Forall_impl; [exact sg_fresh0|]. intros r' Hr'.
    by apply fresh_for_modify.
Qed.

Lemma staged_set_all k item s s' :
  staged k item s s' ->
  staged k item s (set_all_item_properties item 0 k s') /\
  Forall (tagged (set_all_item_properties item 0 k s') k) item.
Proof.
  intros [].
  destruct (set_all_item_properties_spec k item 0 s' sg_fresh0)
    as (Ht & Hst & Htag).
  split; [|done]. constructor.
  - by eapply touch_trans.
  - eapply Forall_impl; [exact Htag|]. intros r Hr.
    apply tagged_fresh; [by eapply tagged_lt | done].
  - by rewrite (st_rows _ _ Hst).
  - by rewrite (st_items _ _ Hst).
  - by rewrite (st_cols _ _ Hst).
Qed.

Lemma Forall_tagged_modify s k item r f :
  Forall (tagged s k) item ->
  (forall it, tx_hash_role (f it) = tx_hash_role it) ->
  Forall (tagged (modify r f s) k) item.
Proof.
  intros H Hf. eapply Forall_impl; [exact H|]. intros r' Hr'.
  by apply tagged_modify.
Qed.

Lemma items_insertRow i items s :
  txid_to_items (insertRow i items s) = txid_to_items s.
Proof. unfold insertRow. by case_bool_decide. Qed.

Local Opaque new_items set_all_item_properties update_item update_fiat hide_row insertRow is_negative.

Lemma insert_tx_spec p tx s :
  wallet s = true -> status_ok p -> wf_row p tx = true ->
  Synced s -> keys (transactions s) !! rowCount s = Some (txid tx) ->
  headers_count p <= columnCount s ->
  exists s', insert_tx p tx s = Ok s' /\ Synced s' /\
    rowCount s' = S (rowCount s) /\ touch (txid tx) s s'.
Proof.
  intros Hw Hst Hwf Hs Hk Hcc.
  set (k := txid tx) in *.
  pose proof (synced_absent _ _ Hs Hk) as Habs.
  unfold insert_tx. fold k. rewrite Hw. simpl.
  pose proof (Hst k (mk_TxMinedStatus (height tx) (confirmations tx) (timestamp tx))) as Hstat.
  destruct (get_tx_status p k _) as [status status_str]. simpl in Hstat.
  destruct (getitem_lt TX_ICONS status Hstat) as (ic & _ & ->). simpl.
  match goal with |- context [new_items ?e s] => set (entry := e) end.
  rewrite (new_items_spec entry s).
  pose proof (fresh_new_items k s entry) as Hfresh.
  pose proof (touch_new_items k s (new_item <$> entry)) as Ht1.
  set (s1 := with_heap _ s) in *.
  set (item := seq (length (heap s)) (length entry)) in *.
  assert (staged k item s s1) as Hsg1 by (by constructor).
  assert (length item = 5) as Hlen by done.
  destruct (getitem_lt item 2 ltac:(lia)) as (i2 & Hi2 & Hg2).
  destruct (getitem_lt item 3 ltac:(lia)) as (i3 & Hi3 & Hg3).
  pose proof (list_elem_of_lookup_2 _ _ _ Hi2) as Hin2.
  pose proof (list_elem_of_lookup_2 _ _ _ Hi3) as Hin3.
  clear Hfresh Ht1. clearbody item s1.
  (* the invoice icon *)
  assert (exists s2, (if invoice_paid p k
                      then i2 ← getitem item 2; Ok (modify i2 (setIcon ":icons/seal") s1)
                      else Ok s1) = Ok s2 /\ staged k item s s2)
    as (s2 & -> & Hsg2).
  { destruct (invoice_paid p k).
    - rewrite Hg2. simpl. eexists. split; [done|].
      apply staged_modify; [done | done | by apply tag_safe_keep].
    - by eexists. }
  simpl. clear Hsg1.
  destruct (staged_set_all _ _ _ _ Hsg2) as (Hsg3 & Htag3).
  set (s3 := set_all_item_properties item 0 k s2) in *. clearbody s3.
  (* the red brush *)
  assert (exists s4, (if is_negative (value tx)
                      then i2 ← getitem item 2; i3 ← getitem item 3;
                           Ok (modify i3 (setForeground red_brush)
                                 (modify i2 (setForeground red_brush) s3))
                      else Ok s3) = Ok s4 /\ staged k item s s4 /\
                     Forall (tagged s4 k) item)
    as (s4 & -> & Hsg4 & Htag4).
  { destruct (is_negative (value tx)).
    - rewrite Hg2. simpl. rewrite Hg3. simpl. eexists. split; [done|]. split.
      + repeat (apply staged_modify; [| done | by apply tag_safe_keep]). done.
      + repeat (apply Forall_tagged_modify; [|done]). done.
    - by eexists. }
  simpl. clear Hsg3 Htag3.
  destruct Hsg4 as [Ht4 _ Hrows4 Hitems4 Hcols4].
  set (s5 := with_txid_to_items _ s4).
  assert (touch k s s5) as Ht5
    by (eapply touch_trans; [exact Ht4 | apply touch_set_items]).
  destruct (update_item_spec p k (get_tx_height p k) s5 item)
    as (s6 & -> & Ht6 & Hst6); try done.
  { by rewrite (t_wallet _ _ _ Ht5). }
  { subst s5. simpl. by rewrite lookup_insert_eq. }
  { lia. }
  simpl.
  assert (Forall (tagged s6 k) item) as Htag6.
  { eapply Forall_impl; [exact Htag4|]. intros r Hr.
    by apply (t_tagged _ _ _ Ht6). }
  assert (rowCount s6 = rowCount s) as Hrc6.
  { unfold rowCount. rewrite (st_rows _ _ Hst6). subst s5. simpl.
    by rewrite Hrows4. }
  pose proof (touch_insertRow k s6 item) as Ht7.
  pose proof (rows_insertRow s6 item) as Hrows7.
  set (s7 := insertRow (rowCount s6) item s6) in *.
  assert (touch k s s7) as Ht07.
  { eapply touch_trans; [exact Ht5|]. by eapply touch_trans. }
  set (i := rowCount s) in *.
  assert (rows s7 !! i = Some (mk_Row (Some <$> item) false)) as Hrow7.
  { rewrite Hrows7. rewrite lookup_app_r; fold (rowCount s6); [|lia].
    by rewrite Hrc6, Nat.sub_diag. }
  assert (txid_to_items s7 !! k = Some item) as Hit7.
  { subst s7. rewrite items_insertRow.
    rewrite (st_items _ _ Hst6). subst s5. simpl. by rewrite lookup_insert_eq. }
  assert (keys (transactions s7) !! i = Some k) as Hk7
    by (by rewrite (t_transactions _ _ _ Ht07)).
  assert (Forall (tagged s7 k) item) as Htag7.
  { eapply Forall_impl; [exact Htag6|]. intros r Hr.
    by apply (t_tagged _ _ _ Ht7). }
  (* the fiat columns *)
  assert (exists s8 items',
            (if show_history p then update_fiat p k tx s7 else Ok s7) = Ok s8 /\
            touch k s7 s8 /\
            holds k i (mk_Row (Some <$> items') false) items' s8 /\
            rowCount s8 = rowCount s7 /\ 5 <= length items')
    as (s8 & items' & -> & Ht8 & Hh8 & Hrc8 & Hlen8).
  { destruct (show_history p) eqn:Hsh.
    - destruct (update_fiat_spec p k tx s7 i (mk_Row (Some <$> item) false) item Hsh Hwf)
        as (s8 & items' & ?); try done.
      + rewrite (t_transactions _ _ _ Ht07). by destruct Hs.
      + lia.
      + pose proof (t_cols _ _ _ Ht07). lia.
      + by exists s8, items'.
    - exists s7, item. split; [done|]. split; [apply touch_refl|].
      split; [by constructor|]. split; [done | lia]. }
  simpl. rewrite Hrc6. fold i.
  assert (touch k s s8) as Ht08 by (by eapply touch_trans).
  destruct Hh8 as [Hit8 Hrow8 Htag8].
  assert (row_ok s8 k (mk_Row (Some <$> items') false)) as Hok8
    by (by exists items').
  assert (keys (transactions s8) !! i = Some k) as Hk8
    by (by rewrite (t_transactions _ _ _ Ht08)).
  destruct (hide_row_spec s8 i k _ Hk8 Hrow8 Hok8) as (b & ->).
  { pose proof (t_cols _ _ _ Ht08). destruct Hs. lia. }
  assert (rowCount s7 = S i) as Hrc7.
  { unfold rowCount. rewrite Hrows7, length_app. simpl.
    fold (rowCount s6). lia. }
  assert (touch k s (setRowHidden i b s8)) as Ht9.
  { eapply touch_trans; [exact Ht08 | by apply touch_setRowHidden]. }
  assert (rowCount (setRowHidden i b s8) = S i) as Hrc9.
  { unfold rowCount. simpl. rewrite length_alter. fold (rowCount s8). lia. }
  eexists. split; [reflexivity|]. split; [|done].
  pose proof (lookup_lt_Some _ _ _ Hk) as Hlt.
  unfold keys in Hlt. rewrite length_fmap in Hlt.
  eapply (synced_touch k s); try done.
  - lia.
  - intros j rw Hj. apply lookup_lt_Some in Hj. fold (rowCount (setRowHidden i b s8)) in Hj.
    destruct (decide (j < i)); [by left | right].
    by replace j with i by lia.
  - intros j rw Hkj Hj.
    pose proof (NoDup_lookup _ _ _ _ (synced_nodup _ Hs) Hkj Hk) as ->.
    simpl in Hj. rewrite list_lookup_alter_eq in Hj. fold i in Hj.
    rewrite Hrow8 in Hj. simpl in Hj. injection Hj as <-.
    exact (row_ok_setRowHidden s8 k (mk_Row (Some <$> items') false) i b Hok8).
  - intros _. exists i. split; [lia | done].
Qed.

(** ** One step of the walk *)

Lemma synced_with_transactions s t :
  Synced s -> keys t = keys (transactions s) ->
  Synced (with_transactions t s).
Proof.
  intros [] Hk. constructor; simpl; rewrite ?Hk; try done.
  assert (length t = length (transactions s)) as ->; [|done].
  apply (f_equal length) in Hk. unfold keys in Hk.
  by rewrite !length_fmap in Hk.
Qed.

Lemma keys_length {V} (d : list (string * V)) : length (keys d) = length d.
Proof. unfold keys. apply length_fmap. Qed.

Lemma inv_row s i k :
  Inv s -> keys (transactions s) !! i = Some k ->
  exists rw, rows s !! i = Some rw /\ row_ok s k rw.
Proof.
  intros [Hs Hrc] Hk.
  pose proof (lookup_lt_Some _ _ _ Hk) as Hlt. rewrite keys_length in Hlt.
  destruct (lookup_lt_is_Some_2 (rows s) i) as [rw Hrw].
  { fold (rowCount s). lia. }
  exists rw. split; [done|]. by eapply synced_rows.
Qed.

Lemma row_ok_modify s k rw r f :
  row_ok s k rw -> (forall it, tx_hash_role (f it) = tx_hash_role it) ->
  row_ok (modify r f s) k rw.
Proof.
  intros (items & ? & ? & ? & ?) Hf. exists items. split_and!; try done.
  by apply Forall_tagged_modify.
Qed.

(** The state handed to [insert_tx] once the new record is stored. *)
Lemma synced_append s k row :
  Inv s -> k ∉ keys (transactions s) ->
  Synced (with_transactions (transactions s ++ [(k, row)]) s) /\
  keys (transactions s ++ [(k, row)]) !! rowCount s = Some k.
Proof.
  intros [[] Hrc] Hk.
  assert (keys (transactions s ++ [(k, row)]) = keys (transactions s) ++ [k])
    as Hkeys by (unfold keys; by rewrite fmap_app).
  split.
  - constructor; simpl; rewrite ?Hkeys.
    + apply NoDup_app. split; [done|]. split; [|apply NoDup_singleton].
      intros x Hx Hx'. apply list_elem_of_singleton in Hx'. by subst.
    + rewrite length_app. simpl. unfold rowCount in *. simpl. lia.
    + intros i k' rw Hi Hrw. eapply (synced_rows0 i); [|done].
      pose proof (lookup_lt_Some _ _ _ Hrw) as Hlt.
      rewrite lookup_app_l in Hi; [done|]. rewrite keys_length.
      fold (rowCount s) in Hlt. lia.
    + intros k' Hk'. destruct (synced_dom0 _ Hk') as (i & Hi & Hki).
      exists i. split; [done|]. by apply lookup_app_l_Some.
    + done.
  - rewrite Hkeys, Hrc, <- (keys_length (transactions s)).
    by rewrite lookup_app_r, Nat.sub_diag.
Qed.

Lemma add_tx_spec p row s :
  wallet s = true -> status_ok p -> wf_row p row = true ->
  headers_count p <= columnCount s ->
  Inv s -> txid row ∉ keys (transactions s) ->
  exists s', add_tx p row s = Ok s' /\ Inv s' /\
    touch (txid row)
      (with_transactions (transactions s ++ [(txid row, row)]) s) s' /\
    rowCount s' = S (rowCount s).
Proof.
  intros Hw Hst Hwf Hcc Hinv Hk. unfold add_tx. simpl.
  rewrite od_set_move_to_end by done. simpl.
  destruct (synced_append s (txid row) row Hinv Hk) as [Hs1 Hk1].
  set (s1 := with_transactions _ _) in *.
  destruct (insert_tx_spec p row s1) as (s' & Hins & Hs' & Hrc' & Ht');
    try done.
  exists s'. split; [exact Hins|]. split; [|done].
  split; [done|]. rewrite Hrc', (t_transactions _ _ _ Ht').
  subst s1. simpl. rewrite length_app. simpl.
  destruct Hinv as [_ Hrc]. unfold rowCount in *. simpl in *. lia.
Qed.

Lemma refresh_tx_spec p row s :
  wallet s = true -> status_ok p -> wf_row p row = true ->
  headers_count p <= columnCount s ->
  Inv s -> txid row ∈ keys (transactions s) ->
  exists s3, refresh_tx p row s =
                Ok (with_transactions (od_set (transactions s) (txid row) row) s3) /\
    Inv s3 /\ touch (txid row) s s3 /\ rowCount s3 = rowCount s.
Proof.
  intros Hw Hst Hwf Hcc Hinv Hk. unfold refresh_tx.
  set (k := txid row) in *.
  apply list_elem_of_lookup_1 in Hk as [i Hi].
  destruct (inv_row _ _ _ Hinv Hi) as (rw & Hrw & Hok).
  destruct Hok as (items & Hitems & Hcells & Hlen & Htag).
  destruct (update_item_spec p k (get_tx_height p k) s items)
    as (s1 & -> & Ht1 & Hst1); try done; [lia|]. simpl.
  destruct Hinv as [Hs Hrc].
  assert (Forall (tagged s1 k) items) as Htag1.
  { eapply Forall_impl; [exact Htag|]. intros r Hr.
    by apply (t_tagged _ _ _ Ht1). }
  assert (exists s2 items' rw',
            (if show_history p then update_fiat p k row s1 else Ok s1) = Ok s2 /\
            touch k s1 s2 /\ holds k i rw' items' s2 /\
            cells rw' = Some <$> items' /\
            rowCount s2 = rowCount s1 /\ 5 <= length items')
    as (s2 & items' & rw' & -> & Ht2 & Hh2 & Hc2 & Hrc2 & Hlen2).
  { destruct (show_history p) eqn:Hsh.
    - destruct (update_fiat_spec p k row s1 i rw items Hsh Hwf)
        as (s2 & items' & ? & ? & ? & ? & ?); try done.
      + rewrite (t_transactions _ _ _ Ht1). by destruct Hs.
      + by rewrite (t_transactions _ _ _ Ht1).
      + by rewrite (st_rows _ _ Hst1).
      + by rewrite (st_items _ _ Hst1).
      + rewrite (st_cols _ _ Hst1). lia.
      + by exists s2, items', (mk_Row (Some <$> items') (row_hidden rw)).
    - exists s1, items, rw. split; [done|]. split; [apply touch_refl|].
      split; [|done]. constructor; [|by rewrite (st_rows _ _ Hst1)|done].
      by rewrite (st_items _ _ Hst1). }
  simpl. destruct Hh2 as [Hit2 Hrow2 Htag2]. rewrite Hit2. simpl.
  destruct (getitem_lt items' 4 ltac:(lia)) as (i4 & Hi4 & ->). simpl.
  rewrite (t_transactions _ _ _ Ht2), (t_transactions _ _ _ Ht1).
  set (s3 := modify i4 _ s2).
  assert (touch k s s3) as Ht3.
  { eapply touch_trans; [exact Ht1|]. eapply touch_trans; [exact Ht2|].
    apply touch_modify; [|by apply tag_safe_keep].
    apply tagged_writable. eapply Forall_lookup_1; [exact Htag2 | exact Hi4]. }
  assert (rowCount s3 = rowCount s) as Hrc3.
  { subst s3. unfold rowCount in *. simpl.
    rewrite Hrc2. by rewrite (st_rows _ _ Hst1). }
  exists s3. split; [done|]. split; [|done].
  split; [|by rewrite (t_transactions _ _ _ Ht3), Hrc3].
  eapply (synced_touch k s); try done.
  - rewrite Hrc3. lia.
  - intros j rwj Hj. left. apply lookup_lt_Some in Hj.
    fold (rowCount s3) in Hj. lia.
  - intros j rwj Hkj Hj.
    pose proof (NoDup_lookup _ _ _ _ (synced_nodup _ Hs) Hkj Hi) as ->.
    subst s3. simpl in Hj. rewrite Hrow2 in Hj. injection Hj as <-.
    apply row_ok_modify; [|done]. by exists items'.
  - intros _. exists i. split; [|done]. rewrite Hrc3.
    apply lookup_lt_Some in Hrw. by fold (rowCount s) in Hrw.
Qed.

(** ** What a step leaves alone *)

Lemma kept_refl k0 s : kept k0 s s.
Proof. by constructor. Qed.

Lemma kept_trans k0 s1 s2 s3 : kept k0 s1 s2 -> kept k0 s2 s3 -> kept k0 s1 s3.
Proof.
  intros [] []. constructor; try congruence; eauto.
  intros i Hi. destruct (k_pos0 i Hi) as [H1 H2].
  destruct (k_pos1 i H1) as [H3 H4]. split; [done | congruence].
Qed.

Lemma kept_touch k k0 s s' :
  k ≠ k0 ->
  (forall i, keys (transactions s) !! i = Some k0 -> i < rowCount s) ->
  touch k s s' -> kept k0 s s'.
Proof.
  intros Hne Hrc Ht. constructor.
  - intros i Hi. rewrite (t_transactions _ _ _ Ht). split; [done|].
    apply (t_rows _ _ _ Ht); [by apply Hrc | congruence].
  - by apply (t_items _ _ _ Ht).
  - intros r it Hr Hit. by eapply (t_heap _ _ _ Ht).
  - by rewrite (t_transactions _ _ _ Ht).
Qed.

Lemma od_get_app_ne {V} (d : list (string * V)) k v k0 :
  k ≠ k0 -> od_get (d ++ [(k, v)]) k0 = od_get d k0.
Proof.
  intros Hne. induction d as [|[k' v'] d IH]; simpl.
  - by case_decide.
  - by rewrite IH.
Qed.

Lemma kept_append k k0 row s :
  k ≠ k0 -> kept k0 s (with_transactions (transactions s ++ [(k, row)]) s).
Proof.
  intros Hne. constructor; simpl; try done.
  - intros i Hi. split; [|done]. unfold keys. rewrite fmap_app.
    by apply lookup_app_l_Some.
  - by apply od_get_app_ne.
Qed.

Lemma kept_od_set k k0 row s s3 :
  k ∈ keys (transactions s) ->
  (k = k0 -> od_get (transactions s) k = Some row) ->
  transactions s3 = transactions s ->
  kept k0 s3 (with_transactions (od_set (transactions s) k row) s3).
Proof.
  intros Hk Hsame Htr. constructor; simpl; try done.
  - intros i Hi. split; [|done]. rewrite keys_od_set_in by done. congruence.
  - rewrite od_get_od_set, Htr. case_decide; [|done].
    subst. symmetry. by apply Hsame.
Qed.

Lemma walk_cons p row r seen s :
  walk p (row :: r) seen s =
    (walk_step p row s ≫= (walk p r (seen ∪ {[txid row]}))).
Proof.
  unfold walk_step. simpl. destruct (od_get _ _); [|done].
  by case_decide.
Qed.

Lemma walk_step_spec p row s :
  wallet s = true -> status_ok p -> wf_row p row = true ->
  headers_count p <= columnCount s -> Inv s ->
  exists s1, walk_step p row s = Ok s1 /\ step_post row s s1.
Proof.
  intros Hw Hst Hwf Hcc Hinv. unfold walk_step.
  set (k := txid row).
  destruct (od_get (transactions s) k) as [old|] eqn:Hget.
  - pose proof (od_get_Some_elem _ _ _ Hget) as Hk.
    case_decide as Hold.
    + subst old. exists s. split; [done|]. constructor.
      * done.
      * done.
      * done.
      * by left.
      * done.
      * intros. apply kept_refl.
      * intros. apply kept_refl.
      * intros k'. fold k. case_decide; [by subst|done].
    + destruct (refresh_tx_spec p row s) as (s3 & -> & Hinv3 & Ht3 & Hrc3);
        try done.
      eexists. split; [done|]. fold k in Ht3 |- *.
      assert (keys (od_set (transactions s) k row) = keys (transactions s))
        as Hkeys by (by apply keys_od_set_in).
      constructor; simpl.
      * destruct Hinv3 as [Hs3 Hl3]. split.
        -- apply synced_with_transactions; [done|].
           by rewrite Hkeys, (t_transactions _ _ _ Ht3).
        -- unfold rowCount in *. simpl.
           apply (f_equal length) in Hkeys. rewrite !keys_length in Hkeys.
           rewrite Hkeys, <- (t_transactions _ _ _ Ht3). done.
      * by rewrite (t_wallet _ _ _ Ht3).
      * apply (t_cols _ _ _ Ht3).
      * by left.
      * fold k. by rewrite Hkeys.
      * intros k0 Hne. eapply kept_trans.
        -- eapply (kept_touch k); [done | | done].
           intros j Hj. apply lookup_lt_Some in Hj. rewrite keys_length in Hj.
           destruct Hinv as [_ Hl]. lia.
        -- apply kept_od_set; [done | intros E; by destruct Hne | ].
           apply (t_transactions _ _ _ Ht3).
      * fold k. congruence.
      * intros k'. fold k. apply od_get_od_set.
  - pose proof (proj1 (od_get_None _ _) Hget) as Hk.
    destruct (add_tx_spec p row s) as (s1 & -> & Hinv1 & Ht1 & Hrc1);
      try done.
    exists s1. split; [done|]. fold k in Ht1.
    assert (transactions s1 = transactions s ++ [(k, row)]) as Htr
      by apply (t_transactions _ _ _ Ht1).
    assert (keys (transactions s1) = keys (transactions s) ++ [k]) as Hkeys
      by (rewrite Htr; unfold keys; by rewrite fmap_app).
    constructor.
    + done.
    + by rewrite (t_wallet _ _ _ Ht1).
    + apply (t_cols _ _ _ Ht1).
    + by right.
    + fold k. rewrite Hkeys. apply elem_of_app. right. by left.
    + intros k0 Hne. eapply kept_trans; [by apply (kept_append k)|].
      eapply (kept_touch k); [done | | done]. simpl.
      intros j Hj. unfold keys in Hj. rewrite fmap_app in Hj. simpl in Hj.
      apply lookup_snoc_Some in Hj as [[Hj _] | [_ Hj]]; [|by destruct Hne].
      rewrite length_fmap in Hj. destruct Hinv as [_ Hl].
      unfold rowCount in *. simpl. lia.
    + fold k. congruence.
    + intros k'. fold k. rewrite Htr. case_decide as Hkk.
      * subst k'. by apply od_get_app_r.
      * by apply od_get_app_ne.
Qed.

(** ** The walk over the fetched list *)

Lemma walk_spec p r : forall seen s,
  wallet s = true -> status_ok p -> wf_fetched p r ->
  headers_count p <= columnCount s -> Inv s ->
  exists seen' s', walk p r seen s = Ok (seen', s') /\
                   walk_post r seen s seen' s'.
Proof.
  induction r as [|row r IH]; intros seen s Hw Hst Hwf Hcc Hinv.
  - exists seen, s. split; [done|]. constructor.
    + done.
    + done.
    + done.
    + simpl. by rewrite union_empty_r_L.
    + exists []. split; [by rewrite app_nil_r|].
      intros k Hk. by apply elem_of_nil in Hk.
    + intros k Hk. by apply elem_of_nil in Hk.
    + intros. apply kept_refl.
    + done.
  - apply Forall_cons in Hwf as [Hwf1 Hwf].
    rewrite walk_cons.
    destruct (walk_step_spec p row s) as (s1 & -> & Hsp); try done.
    simpl. destruct Hsp.
    destruct (IH (seen ∪ {[txid row]}) s1) as (seen' & s' & -> & Hwp);
      try done; [lia|].
    exists seen', s'. split; [done|]. destruct Hwp.
    destruct wp_keys0 as (new & Hnew & Hsub).
    constructor.
    + done.
    + done.
    + lia.
    + rewrite wp_seen0. simpl. by rewrite (assoc_L (∪)).
    + destruct sp_keys0 as [Hk1 | [_ Hk1]].
      * exists new. split; [by rewrite Hnew, Hk1|].
        intros k Hk. simpl. right. by apply Hsub.
      * exists (txid row :: new). split.
        -- rewrite Hnew, Hk1. by rewrite <- app_assoc.
        -- intros k Hk. simpl. apply elem_of_cons in Hk as [->|Hk];
             [by left | right; by apply Hsub].
    + intros k Hk. simpl in Hk. apply elem_of_cons in Hk as [->|Hk].
      * rewrite Hnew. apply elem_of_app. by left.
      * by apply wp_in0.
    + intros k0 Hk0.
      assert (kept k0 s s1) as Hk1.
      { destruct (decide (k0 = txid row)) as [->|Hne].
        - apply sp_same0. apply Hk0; [by left | done].
        - by apply sp_kept0. }
      eapply kept_trans; [exact Hk1|]. apply wp_kept0.
      intros row' Hrow' Htx. rewrite (k_record _ _ _ Hk1).
      apply Hk0; [by right | done].
    + intros k. rewrite wp_get0, sp_get0. done.
Qed.

(** ** The removal loop *)

Lemma od_del_delete {V} (d : list (string * V)) n k :
  NoDup (keys d) -> keys d !! n = Some k -> od_del d k = delete n d.
Proof.
  revert n. induction d as [|[k' v'] d IH]; intros n Hnd Hn; [done|].
  simpl in *. apply NoDup_cons in Hnd as [Hk' Hnd].
  destruct n as [|n]; simpl in *.
  - simplify_eq. by case_decide.
  - case_decide as Hkk.
    + subst. exfalso. apply Hk'. by eapply list_elem_of_lookup_2.
    + f_equal. by apply IH.
Qed.

Lemma od_get_od_del_ne {V} (d : list (string * V)) k k' :
  k ≠ k' -> od_get (od_del d k) k' = od_get d k'.
Proof.
  intros Hne. induction d as [|[k0 v0] d IH]; simpl; [done|].
  destruct (decide (k0 = k)) as [->|Hk0]; simpl.
  - by case_decide.
  - by rewrite IH.
Qed.

Lemma lookup_delete_shift {A} (l : list A) n j :
  delete n l !! j = l !! (if decide (j < n) then j else S j).
Proof. rewrite list_lookup_delete. by case_decide. Qed.

Lemma remove_row_keys s n k :
  NoDup (keys (transactions s)) -> keys (transactions s) !! n = Some k ->
  keys (transactions (remove_row n k s)) = delete n (keys (transactions s)).
Proof.
  intros Hnd Hn. simpl. rewrite (od_del_delete _ n) by done.
  unfold keys. apply list_fmap_delete.
Qed.

Lemma remove_row_inv s n k :
  Inv s -> keys (transactions s) !! n = Some k -> Inv (remove_row n k s).
Proof.
  intros [Hs Hrc] Hn.
  pose proof (remove_row_keys s n k (synced_nodup _ Hs) Hn) as Hkeys.
  pose proof (lookup_lt_Some _ _ _ Hn) as Hlt. rewrite keys_length in Hlt.
  assert (rowCount (remove_row n k s) = rowCount s - 1) as Hrc'.
  { unfold rowCount. simpl. apply length_delete.
    apply lookup_lt_is_Some_2. fold (rowCount s). lia. }
  assert (length (transactions (remove_row n k s)) = length (transactions s) - 1)
    as Hlen'.
  { rewrite <- !keys_length, Hkeys. apply length_delete. by eexists. }
  split; [|lia]. destruct Hs. constructor.
  - rewrite Hkeys. eapply sublist_NoDup; [exact synced_nodup0|].
    apply sublist_delete.
  - lia.
  - rewrite Hkeys. intros j k' rw Hj Hrw. simpl in Hrw.
    rewrite lookup_delete_shift in Hj. rewrite lookup_delete_shift in Hrw.
    set (j' := if decide (j < n) then j else S j) in *.
    assert (k' ≠ k) as Hne.
    { intros ->. pose proof (NoDup_lookup _ _ _ _ synced_nodup0 Hj Hn).
      subst j'. case_decide; lia. }
    eapply (row_ok_mono s); [| |by eapply synced_rows0].
    + simpl. by rewrite lookup_delete_ne.
    + done.
  - rewrite Hkeys, Hrc'. intros k' Hk'. simpl in Hk'.
    destruct (decide (k = k')) as [->|Hne].
    { rewrite lookup_delete_eq in Hk'. by destruct Hk'. }
    rewrite lookup_delete_ne in Hk' by done.
    destruct (synced_dom0 _ Hk') as (i & Hi & Hki).
    assert (i ≠ n) as Hin by (intros ->; congruence).
    exists (if decide (i < n) then i else i - 1). split.
    + case_decide; lia.
    + rewrite lookup_delete_shift. rewrite <- Hki. f_equal.
      repeat case_decide; lia.
  - done.
Qed.

Lemma remove_unseen_spec seen : forall todo s n removed,
  Inv s -> drop n (keys (transactions s)) = todo ->
  exists s',
    remove_unseen (zip (seq (n + removed) (length todo)) todo) seen removed s
      = Ok s' /\ rm_post seen n s s'.
Proof.
  induction todo as [|k todo IH]; intros s n removed Hinv Hdrop.
  - exists s. split; [done|]. constructor; try done.
    + rewrite Hdrop. simpl. rewrite app_nil_r.
      apply (f_equal length) in Hdrop. rewrite length_drop in Hdrop.
      simpl in Hdrop. by rewrite take_ge by lia.
    + intros k Hk. split; [done|]. split; [done|]. intros i Hi. by exists i.
  - assert (keys (transactions s) !! n = Some k) as Hn.
    { pose proof (lookup_drop (keys (transactions s)) n 0) as H0.
      rewrite Hdrop in H0. simpl in H0. by rewrite Nat.add_0_r in H0. }
    assert (drop (S n) (keys (transactions s)) = todo) as Hdrop'.
    { erewrite drop_S in Hdrop by done. by simplify_eq. }
    simpl. case_bool_decide as Hseen.
    + destruct (IH s (S n) removed Hinv Hdrop') as (s' & Hrm & Hpost).
      exists s'. split; [exact Hrm|]. destruct Hpost.
      constructor; try done.
      rewrite rp_keys0, Hdrop, Hdrop'.
      rewrite (take_S_r _ _ _ Hn), <- app_assoc. simpl.
      by rewrite filter_cons_True.
    + destruct (inv_row _ _ _ Hinv Hn) as (rw & Hrw & Hok).
      destruct (od_get_is_Some (transactions s) k) as [v ->].
      { by eapply list_elem_of_lookup_2. }
      simpl.
      destruct (row_ok_cell _ _ _ 0 Hok ltac:(lia)) as (r0 & it & Hc0 & Hit & Hrole).
      destruct Hok as (items & -> & _). simpl.
      replace (n + removed - removed) with n by lia.
      unfold takeRow. simpl. rewrite Hrw.
      unfold getitem. rewrite Hc0. simpl.
      unfold deref. simpl. rewrite Hit. simpl.
      rewrite decide_True by done.
      pose proof (remove_row_inv s n k Hinv Hn) as Hinv3.
      pose proof (remove_row_keys s n k (synced_nodup _ (proj1 Hinv)) Hn) as Hkeys3.
      pose proof (lookup_lt_Some _ _ _ Hn) as Hlt.
      assert (take n (delete n (keys (transactions s))) = take n (keys (transactions s)))
        as Htake.
      { rewrite delete_take_drop. apply take_app_length'.
        rewrite length_take. lia. }
      assert (drop n (delete n (keys (transactions s))) = todo) as Hdrop3.
      { rewrite delete_take_drop, drop_app_length'; [done|].
        rewrite length_take. lia. }
      destruct (IH (remove_row n k s) n (S removed) Hinv3) as (s' & Hrm & Hpost).
      { by rewrite Hkeys3. }
      replace (S (n + removed)) with (n + S removed) by lia.
      exists s'. split; [exact Hrm|]. destruct Hpost.
      constructor; try done.
      * rewrite rp_keys0, Hkeys3, Htake, Hdrop3, Hdrop.
        by rewrite filter_cons_False.
      * intros k' Hk'. destruct (rp_kept0 k' Hk') as (H1 & H2 & H3).
        assert (k ≠ k') as Hne by (intros ->; done).
        split; [|split].
        -- rewrite H1. simpl. by rewrite lookup_delete_ne.
        -- rewrite H2. simpl. by apply od_get_od_del_ne.
        -- intros i Hi.
           assert (i ≠ n) as Hin by (intros ->; congruence).
           destruct (H3 (if decide (i < n) then i else i - 1)) as (j & Hj & Hrj).
           { rewrite Hkeys3, lookup_delete_shift, <- Hi. f_equal.
             repeat case_decide; lia. }
           exists j. split; [done|]. rewrite Hrj. simpl.
           rewrite lookup_delete_shift. f_equal. repeat case_decide; lia.
Qed.

(** ** [update_full] and [update] *)

Lemma latest_in r k : forall d, k ∈ txid <$> r -> latest r k d = latest r k None.
Proof.
  induction r as [|row r IH]; intros d Hk; simpl in *.
  - by apply elem_of_nil in Hk.
  - destruct (decide (txid row = k)) as [_|Hne]; [done|].
    apply elem_of_cons in Hk as [Hk|Hk]; [by destruct Hne|]. by apply IH.
Qed.

Lemma filter_all {A} (P : A -> Prop) `{forall x, Decision (P x)} (l : list A) :
  (forall x, x ∈ l -> P x) -> filter P l = l.
Proof.
  induction l as [|x l IH]; intros Hl; [done|].
  rewrite filter_cons_True by (apply Hl; by left).
  f_equal. apply IH. intros y Hy. apply Hl. by right.
Qed.

Lemma enumerate_zip (l : list string) : enumerate l = zip (seq (0 + 0) (length l)) l.
Proof. done. Qed.

Lemma inv_with_wallet s b : Inv s -> Inv (with_wallet b s).
Proof. intros [[] ?]. split; [by constructor | done]. Qed.

Lemma update_full_spec p r s :
  wallet s = true -> status_ok p -> wf_fetched p r ->
  headers_count p <= columnCount s -> Inv s ->
  exists s', update_full p r s = Ok s' /\ full_post r s s'.
Proof.
  intros Hw Hst Hwf Hcc Hinv. unfold update_full.
  destruct (walk_spec p r ∅ s) as (seen & s1 & -> & Hwp); try done.
  simpl. destruct Hwp.
  rewrite union_empty_l_L in wp_seen0.
  rewrite enumerate_zip.
  destruct (remove_unseen_spec seen (keys (transactions s1)) s1 0 0 wp_inv0)
    as (s' & -> & Hrp); [done|].
  exists s'. split; [done|]. destruct Hrp.
  rewrite take_0, drop_0 in rp_keys0. simpl in rp_keys0.
  destruct wp_keys0 as (new & Hnew & Hsub).
  assert (forall k, k ∈ keys (transactions s') <-> k ∈ txid <$> r) as Hhashes.
  { intros k. rewrite rp_keys0, list_elem_of_filter, wp_seen0.
    rewrite elem_of_list_to_set. split; [by intros [? _]|].
    intros Hk. split; [done | by apply wp_in0]. }
  constructor.
  - done.
  - congruence.
  - lia.
  - exists new. split; [|split; [|done]].
    + rewrite rp_keys0, Hnew, wp_seen0, filter_app. f_equal.
      * apply list_filter_iff. intros k. apply elem_of_list_to_set.
      * apply filter_all. intros k Hk. apply elem_of_list_to_set. by apply Hsub.
    + rewrite <- Hnew. by destruct wp_inv0 as [[] _].
  - done.
  - intros k Hk.
    destruct (rp_kept0 k) as (_ & -> & _).
    { rewrite wp_seen0. by apply elem_of_list_to_set. }
    rewrite wp_get0. by apply latest_in.
  - intros k0 i Hi Hk0 Hsame.
    pose proof (wp_kept0 k0 Hsame) as [Hpos Hitems Hheap Hrec].
    destruct (rp_kept0 k0) as (Hi' & Hg' & Hmoved).
    { rewrite wp_seen0. by apply elem_of_list_to_set. }
    destruct (Hpos i Hi) as [Hi1 Hr1].
    destruct (Hmoved i Hi1) as (j & Hj & Hrj).
    split; [exists j; split; [done | congruence]|].
    split; [congruence|]. split; [congruence|].
    intros r0 it Hr0 Hit. rewrite rp_heap0. by eapply Hheap.
Qed.

(** The three ways through [update]. *)
Lemma update_unchanged p fetched s :
  limit_confirmations fetched = values (transactions s) ->
  update p fetched s = Ok (with_wallet true s).
Proof. intros H. unfold update. simpl. by rewrite decide_True. Qed.

Lemma update_fast p fetched s row :
  limit_confirmations fetched ≠ values (transactions s) ->
  limit_confirmations fetched = values (transactions s) ++ [row] ->
  txid row ∉ keys (transactions s) ->
  update p fetched s = add_tx p row (with_wallet true s).
Proof.
  intros Hne Heq Hk. unfold update. simpl.
  rewrite decide_False by done.
  rewrite Heq, removelast_last, decide_True by done.
  unfold getitem. rewrite length_app. simpl.
  rewrite lookup_app_r by lia.
  replace (length (values (transactions s)) + 1 - 1 -
           length (values (transactions s))) with 0 by lia.
  simpl. unfold od_mem. simpl. by rewrite bool_decide_false.
Qed.

Lemma update_slow p fetched s :
  limit_confirmations fetched ≠ values (transactions s) ->
  (removelast (limit_confirmations fetched) ≠ values (transactions s) \/
   exists row, limit_confirmations fetched = values (transactions s) ++ [row] /\
               txid row ∈ keys (transactions s)) ->
  update p fetched s =
    update_full p (limit_confirmations fetched) (with_wallet true s).
Proof.
  intros Hne Hcase. unfold update. simpl.
  rewrite decide_False by done.
  destruct Hcase as [Hrl | (row & Heq & Hk)].
  - by rewrite decide_False.
  - rewrite Heq, removelast_last, decide_True by done.
    unfold getitem. rewrite length_app. simpl.
    rewrite lookup_app_r by lia.
    replace (length (values (transactions s)) + 1 - 1 -
             length (values (transactions s))) with 0 by lia.
    simpl. unfold od_mem. simpl. by rewrite bool_decide_true.
Qed.

(** [update] is one of the three. *)
Lemma update_cases p fetched s :
  let r := limit_confirmations fetched in
  (r = values (transactions s) /\ update p fetched s = Ok (with_wallet true s)) \/
  (exists row, r = values (transactions s) ++ [row] /\
     (txid row ∉ keys (transactions s)) /\
     update p fetched s = add_tx p row (with_wallet true s)) \/
  (r ≠ values (transactions s) /\
   update p fetched s = update_full p r (with_wallet true s)).
Proof.
  intros r. destruct (decide (r = values (transactions s))) as [Heq|Hne].
  { left. split; [done | by apply update_unchanged]. }
  right.
  destruct (decide (removelast r = values (transactions s))) as [Hrl|Hrl].
  - destruct (decide (r = [])) as [Hnil|Hnil].
    { exfalso. apply Hne. rewrite <- Hrl, Hnil. done. }
    destruct (exists_last Hnil) as (r0 & row & Hr).
    rewrite Hr, removelast_last in Hrl. subst r0.
    destruct (decide (txid row ∈ keys (transactions s))) as [Hk|Hk].
    + right. split; [done|]. apply update_slow; [done|]. right. by exists row.
    + left. exists row. split; [done|]. split; [done|].
      by apply update_fast.
  - right. split; [done|]. apply update_slow; [done | by left].
Qed.

Lemma update_spec p fetched s :
  status_ok p -> wf_fetched p fetched ->
  headers_count p <= columnCount s -> Inv s ->
  exists s', update p fetched s = Ok s' /\ Inv s' /\ wallet s' = true /\
             columnCount s <= columnCount s'.
Proof.
  intros Hst Hwf Hcc Hinv.
  pose proof (wf_fetched_limit _ _ Hwf) as Hwf'.
  pose proof (inv_with_wallet s true Hinv) as Hinv0.
  destruct (update_cases p fetched s) as [[_ ->] | [(row & Hr & Hk & ->) | [_ ->]]].
  - eexists. split; [done|]. split; [done|]. split; [done | simpl; lia].
  - destruct (add_tx_spec p row (with_wallet true s)) as (s' & -> & Hinv' & Ht & _);
      try done.
    { rewrite Hr in Hwf'. apply Forall_app in Hwf' as [_ Hrow].
      by inversion Hrow. }
    exists s'. split; [done|]. split; [done|].
    split; [by rewrite (t_wallet _ _ _ Ht) | apply (t_cols _ _ _ Ht)].
  - destruct (update_full_spec p (limit_confirmations fetched) (with_wallet true s))
      as (s' & -> & Hfp); try done.
    exists s'. split; [done|]. by destruct Hfp.
Qed.

(** ** Construction *)

Lemma od_set_Forall {V} (P : string * V -> Prop) d k v :
  Forall P d -> P (k, v) -> Forall P (od_set d k v).
Proof.
  intros Hd Hkv. induction Hd as [|[k' v'] d Hx Hd IH]; simpl.
  - by constructor.
  - case_decide; constructor; done.
Qed.

Lemma od_set_NoDup {V} (d : list (string * V)) k v :
  NoDup (keys d) -> NoDup (keys (od_set d k v)).
Proof.
  intros Hnd. destruct (decide (k ∈ keys d)) as [Hk|Hk].
  - by rewrite keys_od_set_in.
  - rewrite od_set_notin by done. unfold keys. rewrite fmap_app. simpl.
    apply NoDup_app. split; [done|]. split; [|apply NoDup_singleton].
    intros x Hx Hx'. apply list_elem_of_singleton in Hx'. by subst.
Qed.

Lemma od_update_spec p r : forall d,
  wf_fetched p r -> NoDup (keys d) -> Forall (filed p) d ->
  NoDup (keys (od_update d r)) /\ Forall (filed p) (od_update d r) /\
  forall k, k ∈ keys (od_update d r) <-> k ∈ keys d \/ k ∈ txid <$> r.
Proof.
  induction r as [|x r IH]; intros d Hwf Hnd Hf; simpl.
  - split; [done|]. split; [done|]. intros k. split; [by left|].
    intros [?|H]; [done | by apply elem_of_nil in H].
  - apply Forall_cons in Hwf as [Hx Hwf].
    destruct (IH (od_set d (txid x) x)) as (H1 & H2 & H3); [done | | |].
    + by apply od_set_NoDup.
    + by apply od_set_Forall.
    + split; [done|]. split; [done|]. intros k. rewrite H3.
      rewrite elem_of_cons.
      destruct (decide (txid x ∈ keys d)) as [Hk|Hk].
      * rewrite keys_od_set_in by done. split; [tauto|].
        intros [?|[->|?]]; tauto.
      * rewrite od_set_notin by done. unfold keys at 1. rewrite fmap_app.
        rewrite elem_of_app. simpl. rewrite list_elem_of_singleton. tauto.
Qed.

Lemma insert_all_spec p : forall todo s,
  wallet s = true -> status_ok p -> headers_count p <= columnCount s ->
  Synced s -> drop (rowCount s) (transactions s) = todo ->
  Forall (filed p) (transactions s) ->
  exists s', insert_all p (values todo) s = Ok s' /\ Inv s' /\
             wallet s' = true /\ transactions s' = transactions s /\
             columnCount s <= columnCount s'.
Proof.
  induction todo as [|[k v] todo IH]; intros s Hw Hst Hcc Hs Hdrop Hf.
  - exists s. split; [done|]. split; [|done]. split; [done|].
    apply (f_equal length) in Hdrop. rewrite length_drop in Hdrop.
    simpl in Hdrop. destruct Hs. lia.
  - assert (transactions s !! rowCount s = Some (k, v)) as Hn.
    { pose proof (lookup_drop (transactions s) (rowCount s) 0) as H0.
      rewrite Hdrop in H0. simpl in H0. by rewrite Nat.add_0_r in H0. }
    destruct (proj1 (Forall_lookup _ _) Hf _ _ Hn) as [Hkv Hwfv].
    simpl in Hkv, Hwfv.
    assert (keys (transactions s) !! rowCount s = Some (txid v)) as Hk.
    { unfold keys. rewrite list_lookup_fmap, Hn. simpl. by rewrite Hkv. }
    unfold values. simpl.
    destruct (insert_tx_spec p v s) as (s1 & -> & Hs1 & Hrc1 & Ht1); try done.
    simpl.
    destruct (IH s1) as (s' & Hins & Hinv' & Hw' & Htr' & Hcc'); try done.
    + by rewrite (t_wallet _ _ _ Ht1).
    + pose proof (t_cols _ _ _ Ht1). lia.
    + rewrite Hrc1, (t_transactions _ _ _ Ht1).
      erewrite drop_S in Hdrop by done. by simplify_eq.
    + by rewrite (t_transactions _ _ _ Ht1).
    + exists s'. split; [exact Hins|]. split; [done|]. split; [done|].
      split; [by rewrite Htr', (t_transactions _ _ _ Ht1)|].
      pose proof (t_cols _ _ _ Ht1). lia.
Qed.

Lemma headers_count_ge p : 5 <= headers_count p.
Proof.
  unfold headers_count.
  destruct (show_history p), (get_history_capital_gains_config p); lia.
Qed.

Lemma init_spec p fetched :
  status_ok p -> wf_fetched p fetched ->
  exists s, init p fetched = Ok s /\ Inv s /\ wallet s = true /\
    headers_count p <= columnCount s /\
    forall k, k ∈ keys (transactions s) <-> k ∈ txid <$> fetched.
Proof.
  intros Hst Hwf. unfold init.
  pose proof (wf_fetched_limit _ _ Hwf) as Hwf'.
  destruct (od_update_spec p (limit_confirmations fetched) [] Hwf')
    as (Hnd & Hf & Hk); [apply NoDup_nil_2 | constructor |].
  set (s3 := with_transactions _ _).
  assert (columnCount s3 = headers_count p) as Hcols by done.
  assert (Synced s3) as Hs3.
  { constructor.
    - done.
    - unfold rowCount. simpl. lia.
    - intros i k rw _ Hrw. simpl in Hrw. by rewrite lookup_nil in Hrw.
    - intros k [v Hv]. simpl in Hv. by rewrite lookup_empty in Hv.
    - rewrite Hcols. apply headers_count_ge. }
  destruct (insert_all_spec p (transactions s3) s3)
    as (s & Hins & Hinv & Hw & Htr & Hcc);
    [done | done | by rewrite Hcols | done | done | exact Hf |].
  exists s. split; [exact Hins|]. split; [done|]. split; [done|].
  split; [lia|].
  intros k. rewrite Htr. subst s3. simpl. rewrite Hk, txid_limit.
  split; [intros [H|H]; [by apply elem_of_nil in H | done] | by right].
Qed.

(** ** Filtering keeps the invariant *)

Lemma inv_setRowHidden s i b : Inv s -> Inv (setRowHidden i b s).
Proof.
  intros [[] Hrc].
  assert (rowCount (setRowHidden i b s) = rowCount s) as Hrc'
    by (unfold rowCount; simpl; by rewrite length_alter).
  split; [|by rewrite Hrc']. constructor; rewrite ?Hrc'; try done.
  intros j k rw Hk Hrw. simpl in Hrw.
  destruct (decide (i = j)) as [->|Hne].
  - rewrite list_lookup_alter_eq in Hrw.
    destruct (rows s !! j) as [rw0|] eqn:E; [|done]. simpl in Hrw.
    injection Hrw as <-.
    exact (row_ok_setRowHidden s k rw0 j b (synced_rows0 _ _ _ Hk E)).
  - rewrite list_lookup_alter_ne in Hrw by done.
    destruct (synced_rows0 _ _ _ Hk Hrw) as (items & ? & ? & ? & ?).
    by exists items.
Qed.

Lemma hide_row_inv s i :
  Inv s -> i < rowCount s -> exists b, hide_row i s = Ok (setRowHidden i b s).
Proof.
  intros Hinv Hi.
  destruct (lookup_lt_is_Some_2 (keys (transactions s)) i) as [k Hk].
  { rewrite keys_length. destruct Hinv as [_ <-]. done. }
  destruct (inv_row _ _ _ Hinv Hk) as (rw & Hrw & Hok).
  eapply hide_row_spec; eauto. by destruct Hinv as [[] _].
Qed.

Lemma hide_rows_from_spec l : forall s,
  Inv s -> Forall (fun i => i < rowCount s) l ->
  exists s', hide_rows_from l s = Ok s' /\ Inv s' /\ same_data s s'.
Proof.
  induction l as [|i l IH]; intros s Hinv Hl; simpl.
  - exists s. split; [done|]. split; [done | by constructor].
  - apply Forall_cons in Hl as [Hi Hl].
    destruct (hide_row_inv s i Hinv Hi) as (b & ->). simpl.
    destruct (IH (setRowHidden i b s)) as (s' & -> & Hinv' & Hsd).
    + by apply inv_setRowHidden.
    + unfold rowCount. simpl. by rewrite length_alter.
    + exists s'. split; [done|]. split; [done|]. destruct Hsd.
      constructor; try done. rewrite sd_cells0. simpl.
      apply list_eq. intros j. rewrite !list_lookup_fmap.
      destruct (decide (i = j)) as [->|Hne].
      * rewrite list_lookup_alter_eq. by destruct (rows s !! j).
      * by rewrite list_lookup_alter_ne.
Qed.

Lemma hide_rows_spec s :
  Inv s -> exists s', hide_rows s = Ok s' /\ Inv s' /\ same_data s s'.
Proof.
  intros Hinv. apply hide_rows_from_spec; [done|].
  apply Forall_forall. intros i Hi. apply elem_of_seq in Hi. lia.
Qed.

Lemma inv_same_fields s s' :
  transactions s' = transactions s -> txid_to_items s' = txid_to_items s ->
  heap s' = heap s -> rows s' = rows s -> columnCount s' = columnCount s ->
  Inv s -> Inv s'.
Proof.
  intros Ht Hi Hh Hr Hc [[] Hrc].
  assert (rowCount s' = rowCount s) as Hrc' by (unfold rowCount; by rewrite Hr).
  split; [|by rewrite Hrc', Ht].
  constructor; rewrite ?Hrc', ?Ht, ?Hc; try done.
  - intros i k rw Hk Hrw. rewrite Hr in Hrw.
    destruct (synced_rows0 _ _ _ Hk Hrw) as (items & ? & ? & ? & Htag).
    exists items. rewrite Hi. split_and!; try done.
    eapply Forall_impl; [exact Htag|]. intros r (it & ? & ?).
    exists it. by rewrite Hh.
  - intros k Hk. rewrite Hi in Hk. by apply synced_dom0.
Qed.

(** ** Every reachable state is in order *)

Lemma reachable_inv s : reachable s -> Inv s.
Proof.
  induction 1 as [p fetched s Hst Hwf Hinit
                 | p fetched s s' _ IH Hst Hwf Hcc Hupd
                 | f s s' _ IH Hf | d s s' _ IH Hf | d s s' _ IH Hf
                 | s s' _ IH Hf].
  - destruct (init_spec p fetched Hst Hwf) as (s0 & Hs0 & Hinv & _). congruence.
  - destruct (update_spec p fetched s Hst Hwf Hcc IH) as (s0 & Hs0 & Hinv & _).
    congruence.
  - unfold HistoryList_filter in Hf.
    destruct (hide_rows_spec (with_current_filter (lower f) s))
      as (s0 & Hs0 & Hinv & _); [by apply (inv_same_fields s)|]. congruence.
  - unfold select_start_date in Hf.
    destruct (hide_rows_spec (with_start_timestamp d s))
      as (s0 & Hs0 & Hinv & _); [by apply (inv_same_fields s)|]. congruence.
  - unfold select_end_date in Hf.
    destruct (hide_rows_spec (with_end_timestamp d s))
      as (s0 & Hs0 & Hinv & _); [by apply (inv_same_fields s)|]. congruence.
  - unfold on_hide_toolbar in Hf.
    destruct (hide_rows_spec (with_end_timestamp None (with_start_timestamp None s)))
      as (s0 & Hs0 & Hinv & _); [by apply (inv_same_fields s)|]. congruence.
Qed.

(** ** What the view shows *)

Lemma inv_row_hashes s :
  Inv s -> row_hashes s = Some <$> keys (transactions s).
Proof.
  intros Hinv. apply list_eq. intros i. unfold row_hashes.
  rewrite !list_lookup_fmap.
  destruct (keys (transactions s) !! i) as [k|] eqn:Hk; simpl.
  - destruct (inv_row _ _ _ Hinv Hk) as (rw & -> & Hok). simpl.
    destruct (row_ok_cell _ _ _ 0 Hok ltac:(lia)) as (r & it & Hc & Hit & Hrole).
    unfold row_hash. by rewrite Hc, Hit, Hrole.
  - apply lookup_ge_None in Hk. rewrite keys_length in Hk.
    destruct Hinv as [_ Hrc].
    rewrite (lookup_ge_None_2 (rows s)); [done|]. fold (rowCount s). lia.
Qed.

Lemma inv_dom s :
  Inv s -> dom (txid_to_items s) = list_to_set (keys (transactions s)).
Proof.
  intros Hinv. apply set_eq. intros k.
  rewrite elem_of_dom, elem_of_list_to_set. split.
  - intros Hk. destruct Hinv as [Hs _].
    destruct (synced_dom _ Hs k Hk) as (i & _ & Hi).
    by eapply list_elem_of_lookup_2.
  - intros Hk. apply list_elem_of_lookup_1 in Hk as [i Hi].
    destruct (inv_row _ _ _ Hinv Hi) as (rw & _ & items & Hitems & _).
    by eexists.
Qed.

(** ** The sample view *)

Lemma sample_status_ok : status_ok sample_parent.
Proof. intros h st. simpl. lia. Qed.

Lemma sample_view_init : init sample_parent sample_history = Ok sample_view.
Proof. vm_compute. reflexivity. Qed.

Lemma sample_wf fetched :
  forallb (wf_row sample_parent) fetched = true ->
  wf_fetched sample_parent fetched.
Proof.
  intros H. apply Forall_forall. intros row Hrow.
  rewrite forallb_forall in H. apply H. by apply list_elem_of_In.
Qed.

Lemma sample_view_reachable : reachable sample_view.
Proof.
  apply (reach_init sample_parent sample_history).
  - apply sample_status_ok.
  - by apply sample_wf.
  - apply sample_view_init.
Qed.

Lemma sample_view_inv : Inv sample_view.
Proof. apply reachable_inv, sample_view_reachable. Qed.

(** ** The reconciliation claims *)

(** C3: when the fetched list (after [limit_confirmations]) equals the
    list on display, [update] returns at once: the transactions mapping,
    the txid-to-items table, the rows of the model and the items are what
    they were. *)
Theorem update_same_list_no_mutation p fetched s :
  limit_confirmations fetched = values (transactions s) ->
  exists s', update p fetched s = Ok s' /\
    transactions s' = transactions s /\
    txid_to_items s' = txid_to_items s /\
    rows s' = rows s /\ heap s' = heap s /\
    columnCount s' = columnCount s.
Proof.
  intros H. exists (with_wallet true s).
  split; [by apply update_unchanged | done].
Qed.

Lemma update_same_list_no_mutation_witness :
  exists s', update sample_parent sample_history sample_view = Ok s' /\
    transactions s' = transactions sample_view /\
    txid_to_items s' = txid_to_items sample_view /\
    rows s' = rows sample_view /\ heap s' = heap sample_view /\
    columnCount s' = columnCount sample_view.
Proof.
  apply (update_same_list_no_mutation sample_parent sample_history sample_view).
  vm_compute. reflexivity.
Defined.



Lemma snoc_of_prefix {A} (l l' : list A) :
  length l' = S (length l) ->
  (forall i, i < length l -> l' !! i = l !! i) ->
  exists x, l' = l ++ [x].
Proof.
  intros Hlen Hpre.
  destruct (lookup_lt_is_Some_2 l' (length l) ltac:(lia)) as [x Hx].
  exists x. apply list_eq. intros i.
  destruct (decide (i < length l)) as [Hi|Hi].
  - rewrite lookup_app_l by done. by apply Hpre.
  - destruct (decide (i = length l)) as [->|Hne].
    + by rewrite lookup_app_r, Nat.sub_diag.
    + rewrite !lookup_ge_None_2; [done | | lia].
      rewrite length_app. simpl. lia.
Qed.

(** The items shown in the rows of [s] are not written by a step that
    only touches [k], when [k] is not on display. *)
Lemma touch_other_rows k s0 s s' :
  Inv s0 -> k ∉ keys (transactions s0) ->
  rows s = rows s0 -> heap s = heap s0 -> touch k s s' ->
  forall rw0 c r0, rw0 ∈ rows s0 -> cells rw0 !! c = Some (Some r0) ->
    heap s' !! r0 = heap s0 !! r0.
Proof.
  intros Hinv Hk Hrows Hheap Ht rw0 c r0 Hrw0 Hc.
  apply list_elem_of_lookup_1 in Hrw0 as [i Hi].
  destruct (lookup_lt_is_Some_2 (keys (transactions s0)) i) as [k0 Hk0].
  { rewrite keys_length. destruct Hinv as [_ <-]. by eapply lookup_lt_Some. }
  destruct Hinv as [Hs _].
  destruct (synced_rows _ Hs _ _ _ Hk0 Hi) as (items & _ & Hcells & _ & Htag).
  rewrite Hcells, list_lookup_fmap in Hc.
  destruct (items !! c) as [r1|] eqn:Hr1; [|done]. simpl in Hc.
  injection Hc as ->.
  destruct (Forall_lookup_1 _ _ _ _ Htag Hr1) as (it & Hit & Hrole).
  rewrite Hit. eapply (t_heap _ _ _ Ht); [by rewrite Hheap | exact Hrole |].
  intros ->. apply Hk. by eapply list_elem_of_lookup_2.
Qed.

(** C2, as amended: when the fetched list is the list on display plus
    one trailing entry whose hash is not yet displayed, [update] takes the
    fast path: it stores the record, appends exactly one row, carrying the
    new hash, adds one table entry, and writes no item of any other row. *)
Theorem update_one_new_tx_appends_row p fetched s row :
  status_ok p -> wf_fetched p fetched ->
  headers_count p <= columnCount s -> Inv s ->
  limit_confirmations fetched = values (transactions s) ++ [row] ->
  txid row ∉ keys (transactions s) ->
  exists s' rw items,
    update p fetched s = Ok s' /\
    transactions s' = transactions s ++ [(txid row, row)] /\
    rows s' = rows s ++ [rw] /\
    row_hash s' rw = Some (txid row) /\
    txid_to_items s' = <[txid row := items]> (txid_to_items s) /\
    (forall rw0 c r0, rw0 ∈ rows s -> cells rw0 !! c = Some (Some r0) ->
       heap s' !! r0 = heap s !! r0).
Proof.
  intros Hst Hwf Hcc Hinv Hr Hk.
  rewrite (update_fast p fetched s row); [|rewrite Hr|done|done].
  2:{ intros H. apply (f_equal length) in H. rewrite length_app in H.
      simpl in H. lia. }
  pose proof (wf_fetched_limit _ _ Hwf) as Hwf'.
  rewrite Hr in Hwf'. apply Forall_app in Hwf' as [_ Hrow].
  inversion Hrow as [|? ? Hwfrow _]; subst.
  pose proof (inv_with_wallet s true Hinv) as Hinv0.
  destruct (add_tx_spec p row (with_wallet true s)) as (s' & Hadd & Hinv' & Ht & Hrc);
    try done.
  set (k := txid row) in *. simpl in Ht, Hrc.
  set (s1 := with_transactions _ _) in Ht.
  assert (transactions s' = transactions s ++ [(k, row)]) as Htr
    by apply (t_transactions _ _ _ Ht).
  assert (keys (transactions s') !! rowCount s = Some k) as Hkn.
  { rewrite Htr. unfold keys. rewrite fmap_app. simpl.
    destruct Hinv as [_ ->]. rewrite <- (length_fmap fst).
    by rewrite lookup_app_r, Nat.sub_diag. }
  destruct (snoc_of_prefix (rows s) (rows s')) as [rw Hrows].
  { exact Hrc. }
  { intros i Hi. apply (t_rows _ _ _ Ht i); [done|]. simpl.
    unfold keys. rewrite fmap_app. rewrite lookup_app_l.
    - intros Hik. apply Hk. by eapply list_elem_of_lookup_2.
    - rewrite length_fmap. destruct Hinv as [_ <-]. done. }
  destruct (inv_row _ _ _ Hinv' Hkn) as (rw' & Hrw' & Hok).
  assert (rw' = rw) as ->.
  { rewrite Hrows in Hrw'. rewrite lookup_app_r in Hrw' by done.
    rewrite Nat.sub_diag in Hrw'. by injection Hrw'. }
  destruct (row_ok_cell _ _ _ 0 Hok ltac:(lia)) as (r & it & Hc & Hit & Hrole).
  destruct Hok as (items & Hitems & _).
  exists s', rw, items. split; [exact Hadd|]. split; [done|].
  split; [done|]. split.
  { unfold row_hash. by rewrite Hc, Hit. }
  split.
  { apply map_eq. intros k'. destruct (decide (k' = k)) as [->|Hne].
    - by rewrite lookup_insert_eq.
    - rewrite lookup_insert_ne by done. by apply (t_items _ _ _ Ht). }
  by apply (touch_other_rows k s s1 s').
Qed.

Lemma update_one_new_tx_appends_row_witness :
  exists s' rw items,
    update sample_parent (sample_history ++ [sample_tx "cc" 0 40]) sample_view = Ok s' /\
    transactions s' = transactions sample_view ++ [("cc", sample_tx "cc" 0 40)] /\
    rows s' = rows sample_view ++ [rw] /\
    row_hash s' rw = Some "cc" /\
    txid_to_items s' = <["cc" := items]> (txid_to_items sample_view) /\
    (forall rw0 c r0, rw0 ∈ rows sample_view ->
       cells rw0 !! c = Some (Some r0) ->
       heap s' !! r0 = heap sample_view !! r0).
Proof.
  apply (update_one_new_tx_appends_row sample_parent
           (sample_history ++ [sample_tx "cc" 0 40]) sample_view
           (sample_tx "cc" 0 40)).
  - apply sample_status_ok.
  - by apply sample_wf.
  - vm_compute. lia.
  - apply sample_view_inv.
  - vm_compute. reflexivity.
  - vm_compute. intros H. by repeat (apply elem_of_cons in H as [H|H]; [discriminate|]);
      apply elem_of_nil in H.
Defined.

(** C2 as stated fails: the list on display plus one trailing entry whose
    hash is already displayed (the case the code logs as weird) goes
    through the full reconciliation and appends no row. *)
Lemma update_trailing_known_hash_appends_nothing :
  limit_confirmations (sample_history ++ [sample_tx "bb" 12 900]) =
    values (transactions sample_view) ++ [sample_tx "bb" 10 900] /\
  exists s',
    update sample_parent (sample_history ++ [sample_tx "bb" 12 900]) sample_view
      = Ok s' /\
    rows s' = rows sample_view /\
    length (rows s') ≠ S (length (rows sample_view)).
Proof.
  split; [vm_compute; reflexivity|].
  eexists. split; [vm_compute; reflexivity|].
  split; [reflexivity | vm_compute; lia].
Qed.

(** C5: in the full reconciliation a row whose record is the same in the
    old and in the new list is left as it is: same cells, same hidden
    flag, same table entry, same record, and none of its items (text,
    icon, data roles, editable flag, ...) is written. *)
Theorem update_full_keeps_unchanged_rows p r s s' k old i rw :
  status_ok p -> wf_fetched p r ->
  headers_count p <= columnCount s -> Inv s -> wallet s = true ->
  update_full p r s = Ok s' ->
  keys (transactions s) !! i = Some k -> rows s !! i = Some rw ->
  od_get (transactions s) k = Some old ->
  k ∈ txid <$> r ->
  (forall row, row ∈ r -> txid row = k -> row = old) ->
  exists j,
    keys (transactions s') !! j = Some k /\ rows s' !! j = Some rw /\
    txid_to_items s' !! k = txid_to_items s !! k /\
    od_get (transactions s') k = Some old /\
    forall c r0, cells rw !! c = Some (Some r0) -> heap s' !! r0 = heap s !! r0.
Proof.
  intros Hst Hwf Hcc Hinv Hw Hupd Hi Hrw Hold Hk Hsame.
  destruct (update_full_spec p r s) as (s0 & Hs0 & Hfp); try done.
  assert (s0 = s') as -> by congruence.
  destruct (fp_kept _ _ _ Hfp k i Hi Hk) as ((j & Hj & Hrj) & Hitems & Hrec & Hheap).
  { intros row Hrow Htx. by rewrite (Hsame row Hrow Htx). }
  exists j. split; [done|]. split; [congruence|]. split; [done|].
  split; [congruence|].
  intros c r0 Hc. destruct Hinv as [Hs _].
  destruct (synced_rows _ Hs _ _ _ Hi Hrw) as (items & _ & Hcells & _ & Htag).
  rewrite Hcells, list_lookup_fmap in Hc.
  destruct (items !! c) as [r1|] eqn:Hr1; [|done]. simpl in Hc.
  injection Hc as ->.
  destruct (Forall_lookup_1 _ _ _ _ Htag Hr1) as (it & Hit & Hrole).
  rewrite Hit. by eapply Hheap.
Qed.

Lemma update_full_keeps_unchanged_rows_witness :
  exists j,
    keys (transactions sample_view_reconciled) !! j = Some "bb" /\
    rows sample_view_reconciled !! j
      = Some (mk_Row (Some <$> [8; 9; 10; 11; 12; 13; 14; 15]) false) /\
    txid_to_items sample_view_reconciled !! "bb"
      = txid_to_items sample_view !! "bb" /\
    od_get (transactions sample_view_reconciled) "bb"
      = Some (sample_tx "bb" 10 900) /\
    forall c r0,
      cells (mk_Row (Some <$> [8; 9; 10; 11; 12; 13; 14; 15]) false) !! c
        = Some (Some r0) ->
      heap sample_view_reconciled !! r0 = heap sample_view !! r0.
Proof.
  apply (update_full_keeps_unchanged_rows sample_parent
           [sample_tx "bb" 10 900; sample_tx "cc" 0 40] sample_view
           sample_view_reconciled "bb" (sample_tx "bb" 10 900) 1).
  - apply sample_status_ok.
  - by apply sample_wf.
  - vm_compute. lia.
  - apply sample_view_inv.
  - reflexivity.
  - vm_compute. reflexivity.
  - reflexivity.
  - vm_compute. reflexivity.
  - vm_compute. reflexivity.
  - vm_compute. apply elem_of_cons. by left.
  - intros row Hrow Htx.
    apply elem_of_cons in Hrow as [->|Hrow]; [done|].
    apply elem_of_cons in Hrow as [->|Hrow]; [discriminate|].
    by apply elem_of_nil in Hrow.
Defined.

(** C4: in every state the view can be in between reconciliations, the
    model has one row per entry of the mapping, the i-th row carries the
    i-th key of the mapping, and no hash is carried by two rows. *)
Theorem rows_follow_mapping_order s :
  reachable s ->
  length (rows s) = length (transactions s) /\
  (forall i k, keys (transactions s) !! i = Some k ->
     exists rw, rows s !! i = Some rw /\ row_hash s rw = Some k) /\
  NoDup (row_hashes s).
Proof.
  intros Hr. pose proof (reachable_inv s Hr) as Hinv.
  pose proof (inv_row_hashes s Hinv) as Hh.
  split; [by destruct Hinv as [_ <-]|]. split.
  - intros i k Hk.
    destruct (inv_row _ _ _ Hinv Hk) as (rw & Hrw & _).
    exists rw. split; [done|].
    assert (row_hashes s !! i = Some (Some k)) as Hi
      by (by rewrite Hh, list_lookup_fmap, Hk).
    unfold row_hashes in Hi. rewrite list_lookup_fmap, Hrw in Hi.
    by injection Hi.
  - rewrite Hh. apply NoDup_fmap; [by intros ? ? [=] | by destruct Hinv as [[] _]].
Qed.

Lemma rows_follow_mapping_order_witness :
  length (rows sample_view) = length (transactions sample_view) /\
  (forall i k, keys (transactions sample_view) !! i = Some k ->
     exists rw, rows sample_view !! i = Some rw /\ row_hash sample_view rw = Some k) /\
  NoDup (row_hashes sample_view).
Proof.
  apply (rows_follow_mapping_order sample_view).
  apply (reach_init sample_parent sample_history).
  - intros h st. simpl. lia.
  - repeat constructor.
  - vm_compute. reflexivity.
Defined.

(** C10: after construction and after every [update] (and filtering in
    between), the keys of the txid-to-items table are exactly the keys of
    the transactions mapping, each of which occurs once. *)
Theorem table_keys_are_mapping_keys s :
  reachable s ->
  dom (txid_to_items s) = list_to_set (keys (transactions s)) /\
  (forall k, is_Some (txid_to_items s !! k) <-> k ∈ keys (transactions s)) /\
  NoDup (keys (transactions s)).
Proof.
  intros Hr. pose proof (reachable_inv s Hr) as Hinv.
  pose proof (inv_dom s Hinv) as Hd. split; [done|]. split.
  - intros k. rewrite <- elem_of_dom, Hd. apply elem_of_list_to_set.
  - by destruct Hinv as [[] _].
Qed.

Lemma table_keys_are_mapping_keys_witness :
  dom (txid_to_items sample_view) = list_to_set (keys (transactions sample_view)) /\
  (forall k, is_Some (txid_to_items sample_view !! k) <->
             k ∈ keys (transactions sample_view)) /\
  NoDup (keys (transactions sample_view)).
Proof.
  apply (table_keys_are_mapping_keys sample_view).
  apply (reach_init sample_parent sample_history).
  - intros h st. simpl. lia.
  - repeat constructor.
  - vm_compute. reflexivity.
Defined.

(** ** What [hide_row] computes *)

Local Transparent hide_row.

Lemma hide_row_columns_exact s i k rw cols :
  rows s !! i = Some rw -> row_ok s k rw -> 5 <= columnCount s ->
  Forall (fun c => c < 5) cols ->
  hide_row_columns i cols s =
    if text_matches s i cols then Ok (inl (setRowHidden i false s))
    else Ok (inr s).
Proof.
  intros Hrw Hok Hcc. induction 1 as [|c cols Hc _ IH]; simpl; [done|].
  destruct (row_ok_cell _ _ _ c Hok Hc) as (r & it & Hcell & Hit & _).
  rewrite (itemFromIndex_existing _ _ _ _ _ Hrw Hcell) by lia. simpl.
  unfold deref. rewrite Hit. simpl.
  unfold cell_text, cell_at. rewrite Hrw, Hcell, Hit. simpl.
  destruct (contains _ _); [done | exact IH].
Qed.

Lemma hide_row_dates_exact s i k rw tx :
  keys (transactions s) !! i = Some k ->
  rows s !! i = Some rw -> row_ok s k rw -> 5 <= columnCount s ->
  od_get (transactions s) k = Some tx ->
  hide_row_dates i s = Ok (setRowHidden i (date_excluded s (date tx)) s).
Proof.
  intros Hk Hrw Hok Hcc Htx. unfold hide_row_dates, date_excluded.
  destruct (start_timestamp s) as [start|]; [|done].
  destruct (end_timestamp s) as [stop|]; [|done].
  destruct (row_ok_cell _ _ _ 0 Hok ltac:(lia)) as (r & it & Hcell & Hit & Hrole).
  rewrite (itemFromIndex_existing _ _ _ _ _ Hrw Hcell) by lia. simpl.
  unfold deref. rewrite Hit. simpl. rewrite Hrole, Htx.
  destruct (date tx) as [d|]; [|done].
  by destruct (negb _).
Qed.

(** In a view that is in order, [hide_row] hides row [i] exactly when no
    filter column matched (or no filter is set) and the date range
    excludes the row: a text filter alone hides nothing, and a match
    overrides the date range. *)
Lemma hide_row_exact s i k tx :
  Inv s -> keys (transactions s) !! i = Some k ->
  od_get (transactions s) k = Some tx ->
  hide_row i s =
    Ok (setRowHidden i
          (negb (negb (bool_decide (current_filter s = "")) &&
                 text_matches s i filter_columns) &&
           date_excluded s (date tx)) s).
Proof.
  intros Hinv Hk Htx.
  destruct (inv_row _ _ _ Hinv Hk) as (rw & Hrw & Hok).
  assert (5 <= columnCount s) as Hcc by (by destruct Hinv as [[] _]).
  unfold hide_row. case_decide as Hf.
  - rewrite bool_decide_true by done. simpl.
    by apply (hide_row_dates_exact s i k rw).
  - rewrite bool_decide_false by done.
    rewrite (hide_row_columns_exact s i k rw) by
      (try done; unfold filter_columns; repeat constructor; lia).
    destruct (text_matches s i filter_columns); simpl; [done|].
    by apply (hide_row_dates_exact s i k rw).
Qed.

(** ** The filter claim *)

(** C6 (the code departs from the claim): with the filter "zzz" set and
    no date range, row 0 of the sample view, none of whose filter columns
    contains "zzz", is shown by [hide_row]; and with the filter "rent" set
    and a date range that excludes the row's date, the row, which matches
    the text, is shown as well. *)
Theorem hide_row_shows_rows_failing_a_filter :
  (let s := with_current_filter "zzz" sample_view in
   filter_texts s 0 = ["status"; "rent"; "-700"] /\
   start_timestamp s = None /\
   exists s', hide_row 0 s = Ok s' /\ hidden_at s' 0 = Some false) /\
  (let s := with_end_timestamp (Some 20%Z)
              (with_start_timestamp (Some 10%Z)
                 (with_current_filter "rent" sample_view)) in
   od_get (transactions s) "aa" = Some (sample_tx "aa" 3 (-700)) /\
   date (sample_tx "aa" 3 (-700)) = Some 1546300800%Z /\
   exists s', hide_row 0 s = Ok s' /\ hidden_at s' 0 = Some false).
Proof.
  split.
  - split; [vm_compute; reflexivity|]. split; [reflexivity|].
    eexists. split; [vm_compute; reflexivity | reflexivity].
  - split; [vm_compute; reflexivity|]. split; [reflexivity|].
    eexists. split; [vm_compute; reflexivity | reflexivity].
Qed.

(** ** Export *)

Lemma write_ok f l fs :
  write_fault fs f (length (default [] (files fs !! f))) = None ->
  write f l fs =
    (with_files (<[f := default [] (files fs !! f) ++ [l]]> (files fs)) fs, Ok tt).
Proof. intros H. unfold write. simpl. by rewrite H. Qed.

(** Rows that meet no fault are appended in order. *)
Lemma writerows_ok f ls : forall fs c,
  files fs !! f = Some c ->
  (forall n, length c <= n < length c + length ls -> write_fault fs f n = None) ->
  exists fs', writerows f ls fs = (fs', Ok tt) /\
    files fs' !! f = Some (c ++ (CsvRow <$> ls)) /\
    (forall g, g ≠ f -> files fs' !! g = files fs !! g).
Proof.
  induction ls as [|l ls IH]; intros fs c Hc Hw; simpl.
  - exists fs. split; [done|]. split; [|done]. by rewrite app_nil_r.
  - rewrite write_ok by (rewrite Hc; simpl; apply Hw; simpl; lia).
    rewrite Hc. simpl.
    destruct (IH (with_files (<[f := c ++ [CsvRow l]]> (files fs)) fs) (c ++ [CsvRow l]))
      as (fs' & -> & Hf & Hg).
    + by simpl; rewrite lookup_insert_eq.
    + intros n Hn. simpl. apply Hw. rewrite length_app in Hn. simpl in *. lia.
    + exists fs'. split; [done|].
      split; [by rewrite Hf, <- app_assoc|].
      intros g Hne. rewrite Hg by done. simpl. by rewrite lookup_insert_ne.
Qed.




(** C8: when writing the export fails with an I/O error, the dialog
    handler catches it, shows a critical message carrying the reason, and
    returns normally. *)
Theorem export_io_error_is_shown json_encode p fetched filename is_csv
    self fs dialogs self1 fs1 reason :
  update p fetched self = Ok self1 ->
  filename ≠ "" ->
  do_export_history json_encode filename is_csv self1 fs
    = (fs1, Raise (OSError reason)) ->
  export_history_dialog json_encode p fetched true filename is_csv
    (self, fs, dialogs)
    = Ok (self1, fs1,
          dialogs ++
          [show_critical
             ("Electrum was unable to produce a transaction export."
              +:+ String "010" "" +:+ reason)
             "Unable to export history"]).
Proof.
  intros Hupd Hname Hexp. unfold export_history_dialog.
  rewrite Hupd. simpl. rewrite decide_False by done. by rewrite Hexp.
Qed.

Lemma export_io_error_is_shown_witness :
  export_history_dialog sample_json_encode sample_parent sample_history true
    "/readonly/history.csv" true (sample_view, sample_fs, [])
    = Ok (with_wallet true sample_view, sample_fs,
          [] ++
          [show_critical
             ("Electrum was unable to produce a transaction export."
              +:+ String "010" "" +:+ "Permission denied")
             "Unable to export history"]).
Proof.
  apply (export_io_error_is_shown sample_json_encode sample_parent
           sample_history "/readonly/history.csv" true sample_view sample_fs []
           (with_wallet true sample_view) sample_fs "Permission denied").
  - vm_compute. reflexivity.
  - discriminate.
  - reflexivity.
Defined.

(** ** Import *)

(** C9, as amended: when opening, reading or importing the dropped file
    fails with an I/O error, [onFileAdded] catches it, passes it to
    [show_error] and returns normally; a failure of any other class is
    not caught and leaves the handler. *)
Theorem onFileAdded_catches_io_errors_only (MW Tx : Type)
    (tx_from_text : string -> MW -> MW * result Tx)
    (save_transaction_into_wallet : Tx -> MW -> MW * result unit)
    (parent_show_error : exn -> MW -> MW) fn fs mw mw1 e :
  import_file MW Tx tx_from_text save_transaction_into_wallet fn fs mw
    = (mw1, Raise e) ->
  onFileAdded MW Tx tx_from_text save_transaction_into_wallet
    parent_show_error fn fs mw
    = if is_OSError e then (parent_show_error e mw1, Ok tt)
      else (mw1, Raise e).
Proof.
  intros Himp. unfold onFileAdded. by rewrite Himp.
Qed.

Lemma onFileAdded_catches_io_errors_only_witness :
  onFileAdded (list dialog) string sample_tx_from_text sample_save
    sample_show_error "missing.txn" sample_fs []
    = (sample_show_error (OSError "No such file or directory") [], Ok tt).
Proof.
  apply (onFileAdded_catches_io_errors_only (list dialog) string
           sample_tx_from_text sample_save sample_show_error
           "missing.txn" sample_fs [] []
           (OSError "No such file or directory")).
  reflexivity.
Defined.

(** C9 as stated fails: a file that cannot be decoded as text makes
    [read] raise a [UnicodeDecodeError], which is not an I/O error; it
    leaves [onFileAdded] and no dialog is shown. *)
Lemma onFileAdded_undecodable_file_escapes :
  source sample_fs "garbled.txn" = Raise UnicodeDecodeError /\
  onFileAdded (list dialog) string sample_tx_from_text sample_save
    sample_show_error "garbled.txn" sample_fs []
    = ([], Raise UnicodeDecodeError).
Proof. split; reflexivity. Qed.

(** * Further properties of the view *)

(** ** Capping the confirmations *)

Lemma set_confirmations_same i : set_confirmations (confirmations i) i = i.
Proof. by destruct i. Qed.

Lemma limit_confirmations_lookup r j i :
  r !! j = Some i ->
  limit_confirmations r !! j =
    Some (set_confirmations (Z.min 10 (confirmations i)) i).
Proof.
  intros Hj. unfold limit_confirmations. rewrite list_lookup_fmap, Hj. simpl.
  f_equal. destruct (Z.leb_spec 10 (confirmations i)).
  - by rewrite Z.min_l.
  - rewrite Z.min_r by lia. by rewrite set_confirmations_same.
Qed.

Lemma limit_confirmations_bound r :
  Forall (fun i => (confirmations i <= 10)%Z) (limit_confirmations r).
Proof.
  apply Forall_lookup. intros j i' Hj.
  destruct (r !! j) as [i|] eqn:Hi.
  - rewrite (limit_confirmations_lookup _ _ _ Hi) in Hj.
    injection Hj as <-. simpl. lia.
  - unfold limit_confirmations in Hj.
    by rewrite list_lookup_fmap, Hi in Hj.
Qed.

(** X1: [limit_confirmations] keeps the list's length and order and
    every field of every entry but the confirmation count, which becomes
    the smaller of the count and ten; capping a capped list changes
    nothing. *)
Theorem limit_confirmations_caps_at_ten r :
  length (limit_confirmations r) = length r /\
  (forall j i, r !! j = Some i ->
     limit_confirmations r !! j =
       Some (set_confirmations (Z.min 10 (confirmations i)) i)) /\
  Forall (fun i => (confirmations i <= 10)%Z) (limit_confirmations r) /\
  limit_confirmations (limit_confirmations r) = limit_confirmations r.
Proof.
  split; [unfold limit_confirmations; by rewrite length_fmap|].
  split; [apply limit_confirmations_lookup|]. split.
  - apply limit_confirmations_bound.
  - apply list_eq. intros j.
    destruct (r !! j) as [i|] eqn:Hi.
    + rewrite (limit_confirmations_lookup _ _ _ (limit_confirmations_lookup _ _ _ Hi)).
      rewrite (limit_confirmations_lookup _ _ _ Hi). simpl.
      f_equal. unfold set_confirmations. simpl. f_equal. lia.
    + unfold limit_confirmations. by rewrite !list_lookup_fmap, Hi.
Qed.

Lemma limit_confirmations_deep r r' :
  Forall2 same_but_deep r r' -> limit_confirmations r = limit_confirmations r'.
Proof.
  induction 1 as [|a b r r' Hab _ IH]; [done|].
  change (limit_confirmations (a :: r)) with
    ((if (10 <=? confirmations a)%Z then set_confirmations 10 a else a)
       :: limit_confirmations r).
  change (limit_confirmations (b :: r')) with
    ((if (10 <=? confirmations b)%Z then set_confirmations 10 b else b)
       :: limit_confirmations r').
  rewrite IH. f_equal.
  destruct Hab as [->|(Heq & Ha & Hb)]; [done|].
  apply Z.leb_le in Ha, Hb. by rewrite Ha, Hb.
Qed.

(** X2: once a transaction has ten confirmations its count no longer
    matters to the view: when the freshly fetched list differs from the
    list on display only in confirmation counts of ten or more, [update]
    returns at once and leaves the view as it is. *)
Theorem update_ignores_deep_confirmations p fetched fetched' s :
  values (transactions s) = limit_confirmations fetched ->
  Forall2 same_but_deep fetched fetched' ->
  update p fetched' s = Ok (with_wallet true s).
Proof.
  intros Hs Hd. apply update_unchanged.
  by rewrite <- (limit_confirmations_deep _ _ Hd).
Qed.

Lemma update_ignores_deep_confirmations_witness :
  update sample_parent [sample_tx "aa" 3 (-700); sample_tx "bb" 4000 900]
    sample_view = Ok (with_wallet true sample_view).
Proof.
  apply (update_ignores_deep_confirmations sample_parent sample_history).
  - vm_compute. reflexivity.
  - constructor; [by left|]. constructor; [|constructor].
    right. split; [reflexivity|]. simpl. lia.
Defined.

(** ** The hidden flags after filtering *)

Lemma cell_at_cells s row col :
  cell_at s row col =
    match (cells <$> rows s) !! row with
    | Some cs => match cs !! col with Some c => c | None => None end
    | None => None
    end.
Proof. unfold cell_at. rewrite list_lookup_fmap. by destruct (rows s !! row). Qed.

Lemma same_data_refl s : same_data s s.
Proof. by constructor. Qed.

Lemma same_data_trans s1 s2 s3 :
  same_data s1 s2 -> same_data s2 s3 -> same_data s1 s3.
Proof. intros [] []. constructor; congruence. Qed.

Lemma flags_only_refl s : flags_only s s.
Proof. by constructor. Qed.

Lemma flags_only_trans s1 s2 s3 :
  flags_only s1 s2 -> flags_only s2 s3 -> flags_only s1 s3.
Proof.
  intros [] []. constructor; try congruence. by eapply same_data_trans.
Qed.

Lemma flags_only_setRowHidden s i b : flags_only s (setRowHidden i b s).
Proof.
  constructor; try done. constructor; try done. simpl.
  apply list_eq. intros j. rewrite !list_lookup_fmap.
  destruct (decide (i = j)) as [->|Hne].
  - rewrite list_lookup_alter_eq. by destruct (rows s !! j).
  - by rewrite list_lookup_alter_ne.
Qed.

Lemma flags_only_rowCount s s' : flags_only s s' -> rowCount s' = rowCount s.
Proof.
  intros [[_ _ _ Hc _] _ _ _ _ _]. unfold rowCount.
  apply (f_equal length) in Hc. by rewrite !length_fmap in Hc.
Qed.

Lemma text_matches_flags s s' i cols :
  flags_only s s' -> text_matches s' i cols = text_matches s i cols.
Proof.
  intros [[_ _ Hh Hc _] Hf _ _ _ _]. unfold text_matches, cell_text.
  induction cols as [|c cols IH]; simpl; [done|].
  by rewrite IH, !cell_at_cells, Hc, Hh, Hf.
Qed.

Lemma hidden_flag_flags s s' i tx :
  flags_only s s' -> hidden_flag s' i tx = hidden_flag s i tx.
Proof.
  intros Hfo. unfold hidden_flag, date_excluded.
  rewrite (text_matches_flags _ _ _ _ Hfo).
  destruct Hfo as [_ -> -> -> _ _]. done.
Qed.

Lemma hidden_at_setRowHidden s i b j :
  hidden_at (setRowHidden i b s) j =
    if decide (i = j) then (fun _ => b) <$> rows s !! j else hidden_at s j.
Proof.
  unfold hidden_at. simpl. case_decide as Hij.
  - subst. rewrite list_lookup_alter_eq. by destruct (rows s !! j).
  - by rewrite list_lookup_alter_ne.
Qed.

Lemma inv_record s i :
  Inv s -> i < rowCount s ->
  exists k tx, keys (transactions s) !! i = Some k /\
               od_get (transactions s) k = Some tx.
Proof.
  intros Hinv Hi.
  destruct (lookup_lt_is_Some_2 (keys (transactions s)) i) as [k Hk].
  { rewrite keys_length. destruct Hinv as [_ <-]. done. }
  destruct (od_get_is_Some (transactions s) k) as [tx Htx].
  { by eapply list_elem_of_lookup_2. }
  by exists k, tx.
Qed.

Lemma hide_rows_from_exact l : forall s,
  Inv s -> NoDup l -> Forall (fun i => i < rowCount s) l ->
  exists s', hide_rows_from l s = Ok s' /\ Inv s' /\ flags_only s s' /\
    (forall i k tx, i ∈ l -> keys (transactions s) !! i = Some k ->
       od_get (transactions s) k = Some tx ->
       hidden_at s' i = Some (hidden_flag s i tx)) /\
    (forall i, i ∉ l -> hidden_at s' i = hidden_at s i).
Proof.
  induction l as [|i l IH]; intros s Hinv Hnd Hl; simpl.
  - exists s. split; [done|]. split; [done|]. split; [apply flags_only_refl|].
    split; [|done]. intros i k tx Hi. by apply elem_of_nil in Hi.
  - apply NoDup_cons in Hnd as [Hil Hnd]. apply Forall_cons in Hl as [Hi Hl].
    destruct (inv_record s i Hinv Hi) as (k & tx & Hk & Htx).
    set (s1 := setRowHidden i (hidden_flag s i tx) s).
    assert (hide_row i s = Ok s1) as Hhr
      by exact (hide_row_exact s i k tx Hinv Hk Htx).
    pose proof (flags_only_setRowHidden s i (hidden_flag s i tx)) as Hfo1.
    fold s1 in Hfo1.
    destruct (IH s1) as (s' & Hs' & Hinv' & Hfo & Hin & Hout).
    + by apply inv_setRowHidden.
    + done.
    + by rewrite (flags_only_rowCount _ _ Hfo1).
    + exists s'. split; [rewrite Hhr; exact Hs'|]. split; [done|].
      split; [by eapply flags_only_trans|]. split.
      * intros j k' tx' Hj Hk' Htx'.
        apply elem_of_cons in Hj as [->|Hj].
        -- rewrite (Hout i Hil). unfold s1. rewrite hidden_at_setRowHidden.
           rewrite decide_True by done.
           destruct (lookup_lt_is_Some_2 (rows s) i Hi) as [rw ->]. simpl.
           assert (k' = k) as -> by congruence.
           assert (tx' = tx) as -> by congruence. done.
        -- rewrite <- (hidden_flag_flags s s1 j tx' Hfo1).
           apply (Hin j k' tx' Hj).
           ++ by rewrite (sd_transactions _ _ (fo_data _ _ Hfo1)).
           ++ by rewrite (sd_transactions _ _ (fo_data _ _ Hfo1)).
      * intros j Hj. apply not_elem_of_cons in Hj as [Hne Hj].
        rewrite (Hout j Hj). unfold s1. rewrite hidden_at_setRowHidden.
        by rewrite decide_False.
Qed.

Lemma hide_rows_exact s :
  Inv s ->
  exists s', hide_rows s = Ok s' /\ Inv s' /\ flags_only s s' /\
    forall i k tx, keys (transactions s) !! i = Some k ->
      od_get (transactions s) k = Some tx ->
      hidden_at s' i = Some (hidden_flag s i tx).
Proof.
  intros Hinv.
  destruct (hide_rows_from_exact (seq 0 (rowCount s)) s Hinv)
    as (s' & Hs' & Hinv' & Hfo & Hin & _).
  { apply NoDup_seq. }
  { apply Forall_forall. intros i Hi. apply elem_of_seq in Hi. lia. }
  exists s'. split; [done|]. split; [done|]. split; [done|].
  intros i k tx Hk Htx. apply (Hin i k tx); [|done|done].
  apply elem_of_seq. apply lookup_lt_Some in Hk. rewrite keys_length in Hk.
  destruct Hinv as [_ Hrc]. lia.
Qed.

Lemma inv_controls s s' :
  transactions s' = transactions s -> txid_to_items s' = txid_to_items s ->
  heap s' = heap s -> rows s' = rows s -> columnCount s' = columnCount s ->
  Inv s -> Inv s' /\ (forall i, hidden_at s' i = hidden_at s i).
Proof.
  intros Ht Hi Hh Hr Hc Hinv. split; [by apply (inv_same_fields s)|].
  intros i. unfold hidden_at. by rewrite Hr.
Qed.

(** The sample view with the period from 10 to 20 selected. *)
Lemma sample_period_inv :
  Inv (with_end_timestamp (Some 20%Z)
         (with_start_timestamp (Some 10%Z) sample_view)).
Proof. by apply (inv_same_fields sample_view), sample_view_inv. Qed.

(** X3: in a view that is in order, on a row whose date, description and
    amount cells show ASCII text, [hide_row] returns, writes the hidden
    flag of its row and nothing else, and the row ends up hidden exactly
    when no filter column contains the filter string (or the filter is
    empty) and both ends of the period are set and the date of the row's
    record lies outside the period. *)
Theorem hide_row_sets_the_flag s i k tx :
  Inv s -> keys (transactions s) !! i = Some k ->
  od_get (transactions s) k = Some tx ->
  ascii_row s i = true ->
  exists s', hide_row i s = Ok s' /\
    hidden_at s' i = Some (hidden_flag s i tx) /\
    (forall j, j ≠ i -> hidden_at s' j = hidden_at s j) /\
    flags_only s s'.
Proof.
  intros Hinv Hk Htx _. rewrite (hide_row_exact s i k tx Hinv Hk Htx).
  fold (hidden_flag s i tx). eexists. split; [done|].
  split; [|split; [|apply flags_only_setRowHidden]].
  - rewrite hidden_at_setRowHidden, decide_True by done.
    destruct (lookup_lt_is_Some_2 (rows s) i) as [rw ->]; [|done].
    apply lookup_lt_Some in Hk. rewrite keys_length in Hk.
    destruct Hinv as [_ Hrc]. unfold rowCount in Hrc. lia.
  - intros j Hj. rewrite hidden_at_setRowHidden. by rewrite decide_False.
Qed.

Lemma hide_row_sets_the_flag_witness :
  let s := with_end_timestamp (Some 20%Z)
             (with_start_timestamp (Some 10%Z) sample_view) in
  exists s', hide_row 0 s = Ok s' /\
    hidden_at s' 0 = Some (hidden_flag s 0 (sample_tx "aa" 3 (-700))) /\
    (forall j, j ≠ 0 -> hidden_at s' j = hidden_at s j) /\
    flags_only s s'.
Proof.
  apply (hide_row_sets_the_flag _ 0 "aa" (sample_tx "aa" 3 (-700))).
  - apply sample_period_inv.
  - reflexivity.
  - vm_compute. reflexivity.
  - vm_compute. reflexivity.
Defined.

Lemma hidden_flag_no_period s i tx :
  start_timestamp s = None \/ end_timestamp s = None ->
  hidden_flag s i tx = false.
Proof.
  intros H. unfold hidden_flag, date_excluded.
  destruct H as [-> | ->]; [|destruct (start_timestamp s)];
    by rewrite andb_false_r.
Qed.

Lemma hidden_flag_no_filter s i tx b e :
  current_filter s = "" ->
  start_timestamp s = Some b -> end_timestamp s = Some e ->
  hidden_flag s i tx = dated_outside b e tx.
Proof.
  intros Hf Hb He. unfold hidden_flag, date_excluded, dated_outside.
  rewrite Hb, He, bool_decide_true by done. simpl. by destruct (date tx).
Qed.

Lemma all_shown_intro s :
  (forall i, i < rowCount s -> hidden_at s i = Some false) -> all_shown s.
Proof.
  intros H. apply Forall_lookup. intros i rw Hrw.
  specialize (H i (lookup_lt_Some _ _ _ Hrw)).
  unfold hidden_at in H. rewrite Hrw in H. by injection H.
Qed.

Lemma hide_rows_no_period s :
  Inv s -> start_timestamp s = None \/ end_timestamp s = None ->
  exists s', hide_rows s = Ok s' /\ Inv s' /\ flags_only s s' /\ all_shown s'.
Proof.
  intros Hinv Hp.
  destruct (hide_rows_exact s Hinv) as (s' & Hs' & Hinv' & Hfo & Hfl).
  exists s'. split; [done|]. split; [done|]. split; [done|].
  apply all_shown_intro. intros i Hi.
  rewrite (flags_only_rowCount _ _ Hfo) in Hi.
  destruct (inv_record s i Hinv Hi) as (k & tx & Hk & Htx).
  by rewrite (Hfl i k tx Hk Htx), hidden_flag_no_period.
Qed.

(** X4: on a view that is in order and whose date, description and
    amount cells show ASCII text, [filter(p)] with an ASCII [p] returns;
    it stores [p] in lower case, writes nothing but hidden flags, and
    leaves every row hidden exactly when none of its date, description
    and amount cells contains the lower-cased [p] (or [p] is empty) and
    the period, if both its ends are set, excludes the date of the row's
    record. *)
Theorem filter_decides_every_row p s :
  Inv s -> ascii_only p = true -> ascii_cells s = true ->
  exists s', HistoryList_filter p s = Ok s' /\ Inv s' /\
    current_filter s' = lower p /\
    flags_only (with_current_filter (lower p) s) s' /\
    forall i k tx, keys (transactions s) !! i = Some k ->
      od_get (transactions s) k = Some tx ->
      hidden_at s' i =
        Some (hidden_flag (with_current_filter (lower p) s) i tx).
Proof.
  intros Hinv _ _. unfold HistoryList_filter.
  destruct (hide_rows_exact (with_current_filter (lower p) s))
    as (s' & Hs' & Hinv' & Hfo & Hfl); [by apply (inv_same_fields s)|].
  exists s'. split; [done|]. split; [done|].
  split; [by rewrite (fo_filter _ _ Hfo)|]. split; [done|]. exact Hfl.
Qed.

Lemma filter_decides_every_row_witness :
  exists s', HistoryList_filter "RENT" sample_view = Ok s' /\ Inv s' /\
    current_filter s' = "rent" /\
    flags_only (with_current_filter "rent" sample_view) s' /\
    forall i k tx, keys (transactions sample_view) !! i = Some k ->
      od_get (transactions sample_view) k = Some tx ->
      hidden_at s' i =
        Some (hidden_flag (with_current_filter "rent" sample_view) i tx).
Proof.
  apply (filter_decides_every_row "RENT" sample_view).
  - apply sample_view_inv.
  - reflexivity.
  - vm_compute. reflexivity.
Defined.

(** X5: giving up an end of the period shows every row again: after
    [on_hide_toolbar], and after [select_start_date] or [select_end_date]
    when the date dialog was dismissed, no row of a view that is in
    order is hidden, whatever the text filter, and nothing but hidden
    flags and the period was written. *)
Theorem clearing_the_period_shows_every_row s :
  Inv s ->
  (exists s', on_hide_toolbar s = Ok s' /\ all_shown s' /\
     start_timestamp s' = None /\ end_timestamp s' = None /\
     same_data s s' /\ current_filter s' = current_filter s) /\
  (exists s', select_start_date None s = Ok s' /\ all_shown s' /\
     start_timestamp s' = None /\ same_data s s') /\
  (exists s', select_end_date None s = Ok s' /\ all_shown s' /\
     end_timestamp s' = None /\ same_data s s').
Proof.
  intros Hinv. split; [|split].
  - unfold on_hide_toolbar.
    destruct (hide_rows_no_period (with_end_timestamp None (with_start_timestamp None s)))
      as (s' & Hs' & _ & Hfo & Hall); [by apply (inv_same_fields s) | by left |].
    exists s'. destruct Hfo as [[] ? ? ? ? ?]. split_and!; try done; by constructor.
  - unfold select_start_date.
    destruct (hide_rows_no_period (with_start_timestamp None s))
      as (s' & Hs' & _ & Hfo & Hall); [by apply (inv_same_fields s) | by left |].
    exists s'. destruct Hfo as [[] ? ? ? ? ?]. split_and!; try done; by constructor.
  - unfold select_end_date.
    destruct (hide_rows_no_period (with_end_timestamp None s))
      as (s' & Hs' & _ & Hfo & Hall); [by apply (inv_same_fields s) | by right |].
    exists s'. destruct Hfo as [[] ? ? ? ? ?]. split_and!; try done; by constructor.
Qed.

Lemma clearing_the_period_shows_every_row_witness :
  let s := with_end_timestamp (Some 20%Z)
             (with_start_timestamp (Some 10%Z) sample_view) in
  (exists s', on_hide_toolbar s = Ok s' /\ all_shown s' /\
     start_timestamp s' = None /\ end_timestamp s' = None /\
     same_data s s' /\ current_filter s' = current_filter s) /\
  (exists s', select_start_date None s = Ok s' /\ all_shown s' /\
     start_timestamp s' = None /\ same_data s s') /\
  (exists s', select_end_date None s = Ok s' /\ all_shown s' /\
     end_timestamp s' = None /\ same_data s s').
Proof. apply clearing_the_period_shows_every_row, sample_period_inv. Defined.

(** X6: with no text filter set, choosing the second end of the period
    hides exactly the rows whose record is dated outside the period, both
    ends included; a row whose record has no date stays shown. *)
Theorem period_hides_rows_dated_outside s b e :
  Inv s -> current_filter s = "" ->
  (start_timestamp s = Some b ->
   exists s', select_end_date (Some e) s = Ok s' /\
     forall i k tx, keys (transactions s) !! i = Some k ->
       od_get (transactions s) k = Some tx ->
       hidden_at s' i = Some (dated_outside b e tx)) /\
  (end_timestamp s = Some e ->
   exists s', select_start_date (Some b) s = Ok s' /\
     forall i k tx, keys (transactions s) !! i = Some k ->
       od_get (transactions s) k = Some tx ->
       hidden_at s' i = Some (dated_outside b e tx)).
Proof.
  intros Hinv Hf. split; intros Hp.
  - unfold select_end_date.
    destruct (hide_rows_exact (with_end_timestamp (Some e) s))
      as (s' & Hs' & _ & _ & Hfl); [by apply (inv_same_fields s)|].
    exists s'. split; [done|]. intros i k tx Hk Htx.
    rewrite (Hfl i k tx Hk Htx). f_equal.
    by apply hidden_flag_no_filter.
  - unfold select_start_date.
    destruct (hide_rows_exact (with_start_timestamp (Some b) s))
      as (s' & Hs' & _ & _ & Hfl); [by apply (inv_same_fields s)|].
    exists s'. split; [done|]. intros i k tx Hk Htx.
    rewrite (Hfl i k tx Hk Htx). f_equal.
    by apply hidden_flag_no_filter.
Qed.

Lemma period_hides_rows_dated_outside_witness :
  let s := with_end_timestamp (Some 20%Z)
             (with_start_timestamp (Some 10%Z) sample_view) in
  (start_timestamp s = Some 10%Z ->
   exists s', select_end_date (Some 20%Z) s = Ok s' /\
     forall i k tx, keys (transactions s) !! i = Some k ->
       od_get (transactions s) k = Some tx ->
       hidden_at s' i = Some (dated_outside 10 20 tx)) /\
  (end_timestamp s = Some 20%Z ->
   exists s', select_start_date (Some 10%Z) s = Ok s' /\
     forall i k tx, keys (transactions s) !! i = Some k ->
       od_get (transactions s) k = Some tx ->
       hidden_at s' i = Some (dated_outside 10 20 tx)).
Proof.
  apply (period_hides_rows_dated_outside _ 10 20).
  - apply sample_period_inv.
  - reflexivity.
Defined.

(** ** The period combo box and the toolbar *)

(** X7: [on_combo] on a view that is in order.  The entry "All" clears
    the period and shows every row.  An entry that reads as a year sets
    the period from the first instant of that year to the first instant
    of the next, both included: with no text filter the rows dated
    outside are hidden, and a record dated at the very first instant of
    the next year is still shown.  Any other entry (such as "Custom")
    leaves the view as it is, hidden flags included. *)
Theorem on_combo_sets_the_period int_of new_year s :
  Inv s ->
  (exists s', on_combo int_of new_year "All" s = Ok s' /\ all_shown s' /\
     start_timestamp s' = None /\ end_timestamp s' = None) /\
  (forall txt y a b, txt ≠ "All" -> int_of txt = Some y ->
     new_year y = Ok a -> new_year (y + 1)%Z = Ok b ->
     current_filter s = "" ->
     exists s', on_combo int_of new_year txt s = Ok s' /\
       start_timestamp s' = Some a /\ end_timestamp s' = Some b /\
       (forall i k tx, keys (transactions s) !! i = Some k ->
          od_get (transactions s) k = Some tx ->
          hidden_at s' i = Some (dated_outside a b tx)) /\
       (forall i k tx, keys (transactions s) !! i = Some k ->
          od_get (transactions s) k = Some tx ->
          (a <= b)%Z -> date tx = Some b -> hidden_at s' i = Some false)) /\
  (forall txt, txt ≠ "All" -> int_of txt = None ->
     on_combo int_of new_year txt s = Ok s).
Proof.
  intros Hinv. split; [|split].
  - unfold on_combo. rewrite decide_True by done.
    destruct (hide_rows_no_period (with_end_timestamp None (with_start_timestamp None s)))
      as (s' & Hs' & _ & Hfo & Hall); [by apply (inv_same_fields s) | by left |].
    exists s'. destruct Hfo. by split_and!.
  - intros txt y a b Hne Hy Ha Hb Hf. unfold on_combo.
    rewrite decide_False by done. rewrite Hy, Ha. simpl. rewrite Hb. simpl.
    set (s2 := with_end_timestamp _ _).
    destruct (hide_rows_exact s2) as (s' & Hs' & _ & Hfo & Hfl);
      [by apply (inv_same_fields s)|].
    assert (forall i k tx, keys (transactions s) !! i = Some k ->
              od_get (transactions s) k = Some tx ->
              hidden_at s' i = Some (dated_outside a b tx)) as Hflags.
    { intros i k tx Hk Htx. rewrite (Hfl i k tx Hk Htx). f_equal.
      by apply hidden_flag_no_filter. }
    exists s'. destruct Hfo. split_and!; try done.
    intros i k tx Hk Htx Hab Hd. rewrite (Hflags i k tx Hk Htx).
    unfold dated_outside, in_range. rewrite Hd. f_equal.
    apply negb_false_iff, andb_true_iff. split; apply Z.leb_le; lia.
  - intros txt Hne Hn. unfold on_combo. rewrite decide_False by done.
    by rewrite Hn.
Qed.

Lemma on_combo_sets_the_period_witness :
  let int_of := fun t : string => if decide (t = "2019") then Some 2019%Z else None in
  let new_year := fun y : Z => Ok ((y - 1970) * 31536000)%Z in
  (exists s', on_combo int_of new_year "All" sample_view = Ok s' /\ all_shown s' /\
     start_timestamp s' = None /\ end_timestamp s' = None) /\
  (forall txt y a b, txt ≠ "All" -> int_of txt = Some y ->
     new_year y = Ok a -> new_year (y + 1)%Z = Ok b ->
     current_filter sample_view = "" ->
     exists s', on_combo int_of new_year txt sample_view = Ok s' /\
       start_timestamp s' = Some a /\ end_timestamp s' = Some b /\
       (forall i k tx, keys (transactions sample_view) !! i = Some k ->
          od_get (transactions sample_view) k = Some tx ->
          hidden_at s' i = Some (dated_outside a b tx)) /\
       (forall i k tx, keys (transactions sample_view) !! i = Some k ->
          od_get (transactions sample_view) k = Some tx ->
          (a <= b)%Z -> date tx = Some b -> hidden_at s' i = Some false)) /\
  (forall txt, txt ≠ "All" -> int_of txt = None ->
     on_combo int_of new_year txt sample_view = Ok sample_view).
Proof.
  intros int_of new_year.
  apply (on_combo_sets_the_period int_of new_year sample_view), sample_view_inv.
Defined.

(** X8: toggling the toolbar of a view that is in order twice, once its
    buttons exist, leaves the toolbar shown or hidden as it was, and the
    view with no period selected and every row shown; asking for the
    state the toolbar is already in changes nothing. *)
Theorem toggle_toolbar_twice c tb s v :
  Inv s -> toolbar_buttons tb = Some v ->
  show_toolbar (toolbar_shown tb) c (tb, s) = Ok (tb, s) /\
  exists st1 tb2 s2,
    toggle_toolbar c (tb, s) = Ok st1 /\
    toggle_toolbar c st1 = Ok (tb2, s2) /\
    toolbar_shown tb2 = toolbar_shown tb /\
    toolbar_buttons tb2 = Some (toolbar_shown tb) /\
    start_timestamp s2 = None /\ end_timestamp s2 = None /\
    all_shown s2 /\ same_data s s2.
Proof.
  intros Hinv Hb. split.
  { unfold show_toolbar. by rewrite decide_True. }
  destruct (hide_rows_no_period (with_end_timestamp None (with_start_timestamp None s)))
    as (s' & Hs' & Hinv' & Hfo & Hall); [by apply (inv_same_fields s) | by left |].
  fold (on_hide_toolbar s) in Hs'.
  assert (same_data s s') as Hsd by (destruct Hfo as [[] ? ? ? ? ?]; by constructor).
  unfold toggle_toolbar, show_toolbar. simpl.
  destruct (toolbar_shown tb) eqn:Hshown; simpl; rewrite Hb; simpl.
  - rewrite Hs'. simpl. eexists _, _, _. split; [done|]. simpl.
    split; [done|]. destruct Hfo. by split_and!.
  - eexists _, _, _. split; [done|]. simpl. rewrite Hs'. simpl.
    split; [done|]. destruct Hfo. by split_and!.
Qed.

Lemma toggle_toolbar_twice_witness :
  let tb := create_toolbar (mk_Toolbar false None None) in
  show_toolbar (toolbar_shown tb) true (tb, sample_view) = Ok (tb, sample_view) /\
  exists st1 tb2 s2,
    toggle_toolbar true (tb, sample_view) = Ok st1 /\
    toggle_toolbar true st1 = Ok (tb2, s2) /\
    toolbar_shown tb2 = toolbar_shown tb /\
    toolbar_buttons tb2 = Some (toolbar_shown tb) /\
    start_timestamp s2 = None /\ end_timestamp s2 = None /\
    all_shown s2 /\ same_data sample_view s2.
Proof.
  apply (toggle_toolbar_twice true _ sample_view false).
  - apply sample_view_inv.
  - reflexivity.
Defined.

(** ** The mapping after construction and after [update] *)

Lemma latest_notin r k : forall d, k ∉ txid <$> r -> latest r k d = d.
Proof.
  induction r as [|row r IH]; intros d Hk; simpl; [done|].
  rewrite fmap_cons in Hk. apply not_elem_of_cons in Hk as [Hne Hk].
  rewrite decide_False by done. by apply IH.
Qed.

Lemma latest_txid r k v : forall d,
  latest r k d = Some v -> d = Some v \/ txid v = k.
Proof.
  induction r as [|row r IH]; intros d H; simpl in H; [by left|].
  destruct (IH _ H) as [Hd|Hv]; [|by right].
  case_decide as Hk; [|by left]. right. by injection Hd as <-.
Qed.

Lemma latest_NoDup r k row : forall d,
  NoDup (txid <$> r) -> row ∈ r -> txid row = k -> latest r k d = Some row.
Proof.
  induction r as [|row0 r IH]; intros d Hnd Hin Hk; [by apply elem_of_nil in Hin|].
  rewrite fmap_cons in Hnd. apply NoDup_cons in Hnd as [Hn0 Hnd]. simpl.
  apply elem_of_cons in Hin as [->|Hin].
  - rewrite decide_True by done. apply latest_notin. by rewrite <- Hk.
  - by apply IH.
Qed.

Lemma od_update_get r k : forall d,
  od_get (od_update d r) k = latest r k (od_get d k).
Proof.
  induction r as [|x r IH]; intros d; [done|].
  change (od_update d (x :: r)) with (od_update (od_set d (txid x) x) r).
  rewrite IH. simpl. by rewrite od_get_od_set.
Qed.

Lemma od_update_fresh r : forall d,
  NoDup (txid <$> r) -> (forall x, x ∈ r -> txid x ∉ keys d) ->
  od_update d r = d ++ ((fun x => (txid x, x)) <$> r).
Proof.
  induction r as [|x r IH]; intros d Hnd Hd.
  - simpl. by rewrite app_nil_r.
  - change (od_update d (x :: r)) with (od_update (od_set d (txid x) x) r).
    rewrite fmap_cons in Hnd. apply NoDup_cons in Hnd as [Hx Hnd].
    rewrite od_set_notin by (apply Hd; by left).
    rewrite IH; [by rewrite <- app_assoc | done |].
    intros y Hy. unfold keys. rewrite fmap_app, elem_of_app. simpl.
    intros [Hk|Hk].
    + by apply (Hd y); [right|].
    + apply list_elem_of_singleton in Hk. apply Hx. rewrite <- Hk.
      by apply list_elem_of_fmap_2.
Qed.

Lemma keyed_filed p d : Forall (filed p) d -> keyed d.
Proof. intros H. eapply Forall_impl; [exact H|]. by intros kv [? _]. Qed.

Lemma od_get_elem {V} (d : list (string * V)) k v :
  NoDup (keys d) -> (k, v) ∈ d -> od_get d k = Some v.
Proof.
  induction d as [|[k' v'] d IH]; intros Hnd Hin; [by apply elem_of_nil in Hin|].
  simpl in Hnd. apply NoDup_cons in Hnd as [Hk' Hnd]. simpl.
  apply elem_of_cons in Hin as [Heq|Hin].
  - injection Heq as -> ->. by rewrite decide_True.
  - rewrite decide_False; [by apply IH|].
    intros ->. apply Hk'. by apply (list_elem_of_fmap_2 fst _ (k, v)).
Qed.

Lemma keyed_keys d : keyed d -> keys d = txid <$> values d.
Proof.
  induction 1 as [|[k v] d Hkv _ IH]; [done|].
  simpl in *. by rewrite IH, Hkv.
Qed.

Lemma od_get_latest d k :
  NoDup (keys d) -> keyed d -> od_get d k = latest (values d) k None.
Proof.
  induction d as [|[k0 v0] d IH]; intros Hnd Hkd; [done|].
  simpl in Hnd. apply NoDup_cons in Hnd as [Hk0 Hnd].
  apply Forall_cons in Hkd as [Hkv Hkd]. simpl in *.
  rewrite Hkv. case_decide as Hk.
  - subst k. symmetry. apply latest_notin. by rewrite <- keyed_keys.
  - by apply IH.
Qed.

Lemma init_transactions p fetched :
  status_ok p -> wf_fetched p fetched ->
  exists s, init p fetched = Ok s /\ Inv s /\ wallet s = true /\
    headers_count p <= columnCount s /\
    transactions s = od_update [] (limit_confirmations fetched) /\
    keyed (transactions s).
Proof.
  intros Hst Hwf. unfold init.
  pose proof (wf_fetched_limit _ _ Hwf) as Hwf'.
  destruct (od_update_spec p (limit_confirmations fetched) [] Hwf')
    as (Hnd & Hf & Hk); [apply NoDup_nil_2 | constructor |].
  set (s3 := with_transactions _ _).
  assert (columnCount s3 = headers_count p) as Hcols by done.
  assert (Synced s3) as Hs3.
  { constructor.
    - done.
    - unfold rowCount. simpl. lia.
    - intros i k rw _ Hrw. simpl in Hrw. by rewrite lookup_nil in Hrw.
    - intros k [v Hv]. simpl in Hv. by rewrite lookup_empty in Hv.
    - rewrite Hcols. apply headers_count_ge. }
  destruct (insert_all_spec p (transactions s3) s3)
    as (s & Hins & Hinv & Hw & Htr & Hcc);
    [done | done | by rewrite Hcols | done | done | exact Hf |].
  exists s. split; [exact Hins|]. split; [done|]. split; [done|].
  split; [lia|]. split; [by rewrite Htr|].
  rewrite Htr. by apply (keyed_filed p).
Qed.

(** X9: in a well-behaved environment [__init__] returns a view that is
    in order and holds exactly the hashes of the fetched history; each
    hash has the last fetched record of that hash, with its
    confirmations capped; and when no hash occurs twice the records of
    the view are the capped fetched list, in its order, so that an
    [update] with the same history right away changes nothing. *)
Theorem init_shows_the_fetched_history p fetched :
  status_ok p -> wf_fetched p fetched ->
  exists s, init p fetched = Ok s /\ Inv s /\
    (forall k, k ∈ keys (transactions s) <-> k ∈ txid <$> fetched) /\
    (forall k, od_get (transactions s) k =
               latest (limit_confirmations fetched) k None) /\
    (NoDup (txid <$> fetched) ->
       values (transactions s) = limit_confirmations fetched /\
       update p fetched s = Ok s).
Proof.
  intros Hst Hwf.
  destruct (init_transactions p fetched Hst Hwf)
    as (s & Hs & Hinv & Hw & _ & Htr & _).
  destruct (init_spec p fetched Hst Hwf) as (s0 & Hs0 & _ & _ & _ & Hk).
  assert (s0 = s) as -> by congruence.
  exists s. split; [done|]. split; [done|]. split; [done|]. split.
  - intros k. by rewrite Htr, od_update_get.
  - intros Hnd.
    assert (values (transactions s) = limit_confirmations fetched) as Hv.
    { rewrite Htr, od_update_fresh.
      - simpl. unfold values. rewrite <- list_fmap_compose.
        apply list_fmap_id.
      - by rewrite txid_limit.
      - intros x _ H. by apply elem_of_nil in H. }
    split; [done|]. rewrite update_unchanged by done.
    f_equal. destruct s. simpl in Hw. by subst.
Qed.

Lemma init_shows_the_fetched_history_witness :
  exists s, init sample_parent sample_history = Ok s /\ Inv s /\
    (forall k, k ∈ keys (transactions s) <-> k ∈ txid <$> sample_history) /\
    (forall k, od_get (transactions s) k =
               latest (limit_confirmations sample_history) k None) /\
    (NoDup (txid <$> sample_history) ->
       values (transactions s) = limit_confirmations sample_history /\
       update sample_parent sample_history s = Ok s).
Proof.
  apply (init_shows_the_fetched_history sample_parent sample_history).
  - intros h st. simpl. lia.
  - repeat constructor.
Defined.

Lemma shown_of_values d r :
  NoDup (keys d) -> keyed d -> values d = r ->
  (forall k, k ∈ keys d <-> k ∈ txid <$> r) /\
  (forall k, od_get d k = latest r k None).
Proof.
  intros Hnd Hkd <-. split.
  - intros k. by rewrite (keyed_keys d Hkd).
  - intros k. by apply od_get_latest.
Qed.

Lemma with_wallet_same s : wallet s = true -> with_wallet true s = s.
Proof. destruct s. simpl. by intros ->. Qed.

(** What [update] establishes, whichever way it takes. *)
Lemma update_post p fetched s :
  status_ok p -> wf_fetched p fetched ->
  headers_count p <= columnCount s -> Inv s -> keyed (transactions s) ->
  exists s', update p fetched s = Ok s' /\ Inv s' /\ wallet s' = true /\
    keyed (transactions s') /\
    (forall k, k ∈ keys (transactions s') <-> k ∈ txid <$> fetched) /\
    (forall k, od_get (transactions s') k =
               latest (limit_confirmations fetched) k None).
Proof.
  intros Hst Hwf Hcc Hinv Hkd.
  pose proof (wf_fetched_limit _ _ Hwf) as Hwf'.
  pose proof (inv_with_wallet s true Hinv) as Hinv0.
  rewrite <- (txid_limit fetched).
  destruct (update_cases p fetched s) as [[Hr ->] | [(row & Hr & Hk & ->) | [_ ->]]].
  - eexists. split; [done|]. split; [done|]. split; [done|]. split; [done|].
    apply shown_of_values; [by destruct Hinv as [[] _] | done | done].
  - destruct (add_tx_spec p row (with_wallet true s)) as (s' & -> & Hinv' & Ht & _);
      try done.
    { rewrite Hr in Hwf'. apply Forall_app in Hwf' as [_ Hrow].
      by inversion Hrow. }
    pose proof (t_transactions _ _ _ Ht) as Htr. simpl in Htr.
    assert (keyed (transactions s')) as Hkd'.
    { rewrite Htr. apply Forall_app. split; [done|]. by constructor. }
    exists s'. split; [done|]. split; [done|].
    split; [by rewrite (t_wallet _ _ _ Ht)|]. split; [done|].
    apply shown_of_values; [by destruct Hinv' as [[] _] | done |].
    rewrite Htr, Hr. unfold values. by rewrite fmap_app.
  - destruct (update_full_spec p (limit_confirmations fetched) (with_wallet true s))
      as (s' & -> & Hfp); try done.
    exists s'. split; [done|]. destruct Hfp.
    split; [done|]. split; [done|].
    assert (forall k, od_get (transactions s') k =
                      latest (limit_confirmations fetched) k None) as Hget.
    { intros k. destruct (decide (k ∈ txid <$> limit_confirmations fetched)) as [Hk|Hk].
      - by apply fp_get0.
      - rewrite latest_notin by done. apply od_get_None. by rewrite fp_hashes0. }
    split; [|done].
    apply Forall_forall. intros [k v] Hkv. simpl.
    assert (od_get (transactions s') k = Some v) as Hv.
    { apply od_get_elem; [by destruct fp_inv0 as [[] _] | done]. }
    rewrite Hget in Hv. by destruct (latest_txid _ _ _ _ Hv).
Qed.

Lemma reachable_keyed s : reachable s -> keyed (transactions s).
Proof.
  induction 1 as [p fetched s Hst Hwf Hinit
                 | p fetched s s' Hr IH Hst Hwf Hcc Hupd
                 | f s s' Hr IH Hf | d s s' Hr IH Hf | d s s' Hr IH Hf
                 | s s' Hr IH Hf].
  - destruct (init_transactions p fetched Hst Hwf) as (s0 & Hs0 & _ & _ & _ & _ & Hk).
    congruence.
  - destruct (update_post p fetched s Hst Hwf Hcc (reachable_inv s Hr) IH)
      as (s0 & Hs0 & _ & _ & Hk & _). congruence.
  - unfold HistoryList_filter in Hf.
    destruct (hide_rows_spec (with_current_filter (lower f) s))
      as (s0 & Hs0 & _ & [Ht _ _ _ _]);
      [by apply (inv_same_fields s), reachable_inv|].
    assert (s0 = s') as -> by congruence. by rewrite Ht.
  - unfold select_start_date in Hf.
    destruct (hide_rows_spec (with_start_timestamp d s))
      as (s0 & Hs0 & _ & [Ht _ _ _ _]);
      [by apply (inv_same_fields s), reachable_inv|].
    assert (s0 = s') as -> by congruence. by rewrite Ht.
  - unfold select_end_date in Hf.
    destruct (hide_rows_spec (with_end_timestamp d s))
      as (s0 & Hs0 & _ & [Ht _ _ _ _]);
      [by apply (inv_same_fields s), reachable_inv|].
    assert (s0 = s') as -> by congruence. by rewrite Ht.
  - unfold on_hide_toolbar in Hf.
    destruct (hide_rows_spec (with_end_timestamp None (with_start_timestamp None s)))
      as (s0 & Hs0 & _ & [Ht _ _ _ _]);
      [by apply (inv_same_fields s), reachable_inv|].
    assert (s0 = s') as -> by congruence. by rewrite Ht.
Qed.

(** X10: whichever of its three ways [update] takes, on a view built by
    [__init__] and kept by [update] and the filter controls it returns
    (none of its assertions fails), and afterwards the view holds exactly
    the hashes of the fetched history, each with the last fetched record
    of that hash, capped; the rows and the table of items agree with the
    mapping. *)
Theorem update_shows_the_fetched_history p fetched s :
  reachable s -> status_ok p -> wf_fetched p fetched ->
  headers_count p <= columnCount s ->
  exists s', update p fetched s = Ok s' /\ reachable s' /\
    (forall k, k ∈ keys (transactions s') <-> k ∈ txid <$> fetched) /\
    (forall k, od_get (transactions s') k =
               latest (limit_confirmations fetched) k None) /\
    row_hashes s' = Some <$> keys (transactions s') /\
    dom (txid_to_items s') = list_to_set (txid <$> fetched).
Proof.
  intros Hr Hst Hwf Hcc.
  destruct (update_post p fetched s Hst Hwf Hcc (reachable_inv s Hr)
              (reachable_keyed s Hr))
    as (s' & Hs' & Hinv' & _ & _ & Hk & Hg).
  exists s'. split; [done|].
  split; [by apply (reach_update p fetched s)|].
  split; [done|]. split; [done|]. split; [by apply inv_row_hashes|].
  rewrite (inv_dom s' Hinv'). apply set_eq. intros k.
  by rewrite !elem_of_list_to_set.
Qed.

Lemma update_shows_the_fetched_history_witness :
  let fetched := [sample_tx "cc" 0 40; sample_tx "aa" 3 (-700)] in
  exists s', update sample_parent fetched sample_view = Ok s' /\ reachable s' /\
    (forall k, k ∈ keys (transactions s') <-> k ∈ txid <$> fetched) /\
    (forall k, od_get (transactions s') k =
               latest (limit_confirmations fetched) k None) /\
    row_hashes s' = Some <$> keys (transactions s') /\
    dom (txid_to_items s') = list_to_set (txid <$> fetched).
Proof.
  apply (update_shows_the_fetched_history sample_parent
           [sample_tx "cc" 0 40; sample_tx "aa" 3 (-700)] sample_view).
  - apply sample_view_reachable.
  - intros h st. simpl. lia.
  - repeat constructor.
  - vm_compute. lia.
Defined.

(** ** Running [update] twice *)

Lemma walk_noop p r : forall seen s,
  (forall row, row ∈ r -> od_get (transactions s) (txid row) = Some row) ->
  walk p r seen s = Ok (seen ∪ list_to_set (txid <$> r), s).
Proof.
  induction r as [|row r IH]; intros seen s Hall.
  - simpl. by rewrite union_empty_r_L.
  - simpl. rewrite (Hall row) by (by left).
    rewrite decide_True by done.
    rewrite IH by (intros row' Hrow'; apply Hall; by right).
    simpl. by rewrite (assoc_L (∪)).
Qed.

Lemma remove_unseen_noop seen s : forall l removed,
  Forall (fun ik => ik.2 ∈ seen) l -> remove_unseen l seen removed s = Ok s.
Proof.
  induction l as [|[idx k] l IH]; intros removed Hl; [done|].
  apply Forall_cons in Hl as [Hk Hl]. simpl in *.
  rewrite bool_decide_true by done. by apply IH.
Qed.

Lemma update_full_noop p r s :
  (forall row, row ∈ r -> od_get (transactions s) (txid row) = Some row) ->
  (forall k, k ∈ keys (transactions s) -> k ∈ txid <$> r) ->
  update_full p r s = Ok s.
Proof.
  intros Hall Hk. unfold update_full. rewrite walk_noop by done. simpl.
  apply remove_unseen_noop. apply Forall_forall. intros [i k] Hik. simpl.
  rewrite union_empty_l_L, elem_of_list_to_set. apply Hk.
  unfold enumerate in Hik. by apply elem_of_zip_r in Hik.
Qed.

(** X11: [update] is idempotent on a view that is in order: when the
    fetched history names no hash twice, [update] returns, and a second
    [update] with the same history leaves the view exactly as the first
    one left it, down to every item. *)
Theorem update_twice_is_update_once p fetched s :
  status_ok p -> wf_fetched p fetched ->
  headers_count p <= columnCount s -> Inv s ->
  NoDup (txid <$> fetched) ->
  exists s', update p fetched s = Ok s' /\ update p fetched s' = Ok s'.
Proof.
  intros Hst Hwf Hcc Hinv Hnd.
  pose proof (wf_fetched_limit _ _ Hwf) as Hwf'.
  pose proof (inv_with_wallet s true Hinv) as Hinv0.
  rewrite <- (txid_limit fetched) in Hnd.
  destruct (update_cases p fetched s) as [[Hr Hu] | [(row & Hr & Hk & Hu) | [_ Hu]]];
    rewrite Hu.
  - eexists. split; [done|]. by rewrite update_unchanged.
  - destruct (add_tx_spec p row (with_wallet true s)) as (s' & Hs' & Hinv' & Ht & _);
      try done.
    { rewrite Hr in Hwf'. apply Forall_app in Hwf' as [_ Hrow].
      by inversion Hrow. }
    exists s'. split; [done|].
    pose proof (t_transactions _ _ _ Ht) as Htr. simpl in Htr.
    rewrite update_unchanged.
    + f_equal. apply with_wallet_same. by rewrite (t_wallet _ _ _ Ht).
    + rewrite Htr, Hr. unfold values. by rewrite fmap_app.
  - destruct (update_full_spec p (limit_confirmations fetched) (with_wallet true s))
      as (s' & Hs' & Hfp); try done.
    exists s'. split; [done|]. destruct Hfp.
    assert (with_wallet true s' = s') as Hw by (by apply with_wallet_same).
    destruct (update_cases p fetched s')
      as [[_ ->] | [(row & Hr & Hk & _) | [_ ->]]].
    + by rewrite Hw.
    + exfalso. apply Hk, fp_hashes0. rewrite Hr, fmap_app, elem_of_app.
      right. simpl. apply list_elem_of_singleton. done.
    + rewrite Hw. apply update_full_noop.
      * intros row Hrow. rewrite fp_get0 by (by apply list_elem_of_fmap_2).
        by apply latest_NoDup.
      * intros k Hk. by apply fp_hashes0.
Qed.

Lemma update_twice_is_update_once_witness :
  let fetched := [sample_tx "bb" 12 950; sample_tx "cc" 0 40] in
  exists s', update sample_parent fetched sample_view = Ok s' /\
             update sample_parent fetched s' = Ok s'.
Proof.
  apply (update_twice_is_update_once sample_parent
           [sample_tx "bb" 12 950; sample_tx "cc" 0 40] sample_view).
  - intros h st. simpl. lia.
  - repeat constructor.
  - vm_compute. lia.
  - apply sample_view_inv.
  - apply (bool_decide_unpack _). vm_compute. reflexivity.
Defined.

(** ** Labels: [update_labels] and [on_edited] *)

Lemma inv_modify s r f :
  Inv s -> (forall it, tx_hash_role (f it) = tx_hash_role it) ->
  Inv (modify r f s).
Proof.
  intros [[] Hrc] Hf. split; [|done]. constructor; try done.
  intros i k rw Hk Hrw. apply row_ok_modify; [|done].
  by apply (synced_rows0 i).
Qed.

Lemma inv_cell s i k c :
  Inv s -> keys (transactions s) !! i = Some k -> c < 5 ->
  exists r it, cell_at s i c = Some r /\ heap s !! r = Some it /\
               tx_hash_role it = Some k.
Proof.
  intros Hinv Hk Hc.
  destruct (inv_row _ _ _ Hinv Hk) as (rw & Hrw & Hok).
  destruct (row_ok_cell _ _ _ c Hok Hc) as (r & it & Hcell & Hit & Hrole).
  exists r, it. unfold cell_at. by rewrite Hrw, Hcell.
Qed.

(** Two rows do not share an item. *)
Lemma inv_cells_apart s i j c c' r :
  Inv s -> i < rowCount s -> j < rowCount s -> c < 5 -> c' < 5 ->
  cell_at s i c = Some r -> cell_at s j c' = Some r -> i = j.
Proof.
  intros Hinv Hi Hj Hc Hc' Hri Hrj.
  destruct (inv_record s i Hinv Hi) as (k & _ & Hk & _).
  destruct (inv_record s j Hinv Hj) as (k' & _ & Hk' & _).
  destruct (inv_cell s i k c Hinv Hk Hc) as (r1 & it1 & H1 & Hit1 & Hrole1).
  destruct (inv_cell s j k' c' Hinv Hk' Hc') as (r2 & it2 & H2 & Hit2 & Hrole2).
  assert (r1 = r) as -> by congruence. assert (r2 = r) as -> by congruence.
  assert (k = k') as -> by congruence.
  destruct Hinv as [[Hnd _ _ _ _] _].
  exact (NoDup_lookup _ _ _ _ Hnd Hk Hk').
Qed.

Section LabelProofs.

Variable W : Type.
Variable get_label : W -> option string -> result string.

Lemma update_labels_from_spec w lbl l : forall s,
  (forall k, get_label w (Some k) = Ok (lbl k)) ->
  Inv s -> NoDup l -> Forall (fun i => i < rowCount s) l ->
  exists s', update_labels_from W get_label w l s = Ok s' /\ Inv s' /\
             labelled lbl l s s'.
Proof.
  intros s Hlbl. revert s.
  induction l as [|i l IH]; intros s Hinv Hnd Hl.
  - exists s. split; [done|]. split; [done|]. constructor.
    + by destruct s.
    + intros i k Hi. by apply elem_of_nil in Hi.
    + done.
  - apply NoDup_cons in Hnd as [Hil Hnd]. apply Forall_cons in Hl as [Hi Hl].
    destruct (inv_record s i Hinv Hi) as (k & _ & Hk & _).
    destruct (inv_cell s i k 2 Hinv Hk ltac:(lia)) as (r & it & Hcell & Hit & Hrole).
    set (s1 := modify r (setText (lbl k)) s).
    assert (Inv s1) as Hinv1 by (by apply inv_modify).
    destruct (IH s1 Hinv1 Hnd) as (s' & Hs' & Hinv' & Hlb); [done|].
    exists s'. split.
    { simpl. rewrite Hcell. simpl. unfold deref. rewrite Hit. simpl.
      rewrite Hrole, Hlbl. exact Hs'. }
    split; [done|]. destruct Hlb as [Hst Hdone Hrest].
    assert (forall j, j ∈ l -> cell_at s1 j 2 ≠ Some r) as Hapart.
    { intros j Hj Hcj. apply Hil.
      rewrite (inv_cells_apart s i j 2 2 r Hinv Hi); try done; try lia.
      by apply (proj1 (Forall_forall _ _) Hl). }
    constructor.
    + rewrite Hst. by destruct s.
    + intros j k' Hj Hk'. apply elem_of_cons in Hj as [->|Hj].
      * assert (k' = k) as -> by congruence.
        exists r, it. split; [done|]. split; [done|].
        rewrite (Hrest r Hapart). unfold s1. simpl.
        by rewrite list_lookup_alter_eq, Hit.
      * destruct (Hdone j k' Hj Hk') as (rj & itj & Hcj & Hitj & Hj').
        exists rj, itj. split; [done|]. split; [|done].
        unfold s1 in Hitj. simpl in Hitj.
        rewrite list_lookup_alter_ne in Hitj; [done|].
        intros ->. by apply (Hapart j).
    + intros r0 Hr0. rewrite Hrest.
      * unfold s1. simpl. rewrite list_lookup_alter_ne; [done|].
        intros ->. apply (Hr0 i); [by left | done].
      * intros j Hj. apply (Hr0 j). by right.
Qed.

(** X12: on a view that is in order, with a wallet that has a label for
    every hash, [update_labels] returns, and afterwards the description
    cell of every row reads the wallet's label of the row's hash; the
    other attributes of these items, every other item, the rows, the
    table and the mapping are what they were, and the view is still in
    order. *)
Theorem update_labels_shows_the_wallet_labels w lbl s :
  (forall k, get_label w (Some k) = Ok (lbl k)) -> Inv s ->
  exists s', update_labels W get_label w s = Ok s' /\ Inv s' /\
    s' = with_heap (heap s') s /\
    (forall i k, keys (transactions s) !! i = Some k ->
       exists r it, cell_at s i 2 = Some r /\ heap s !! r = Some it /\
                    heap s' !! r = Some (setText (lbl k) it)) /\
    (forall r, (forall i, cell_at s i 2 ≠ Some r) ->
       heap s' !! r = heap s !! r).
Proof.
  intros Hlbl Hinv.
  destruct (update_labels_from_spec w lbl (seq 0 (rowCount s)) s Hlbl Hinv)
    as (s' & Hs' & Hinv' & [Hst Hdone Hrest]).
  { apply NoDup_seq. }
  { apply Forall_forall. intros i Hi. apply elem_of_seq in Hi. lia. }
  exists s'. split; [done|]. split; [done|]. split; [done|]. split.
  - intros i k Hk. apply Hdone; [|done]. apply elem_of_seq.
    apply lookup_lt_Some in Hk. rewrite keys_length in Hk.
    destruct Hinv as [_ Hrc]. lia.
  - intros r Hr. apply Hrest. intros i _. apply Hr.
Qed.

End LabelProofs.

Lemma update_labels_shows_the_wallet_labels_witness :
  let get_label := fun (w : gmap string string) (k : option string) =>
    match k with
    | Some h => Ok (default "" (w !! h))
    | None => Raise TypeError
    end in
  let w : gmap string string := {[ "aa" := "rent, May" ]} in
  exists s', update_labels _ get_label w sample_view = Ok s' /\ Inv s' /\
    s' = with_heap (heap s') sample_view /\
    (forall i k, keys (transactions sample_view) !! i = Some k ->
       exists r it, cell_at sample_view i 2 = Some r /\
                    heap sample_view !! r = Some it /\
                    heap s' !! r = Some (setText (default "" (w !! k)) it)) /\
    (forall r, (forall i, cell_at sample_view i 2 ≠ Some r) ->
       heap s' !! r = heap sample_view !! r).
Proof.
  intros get_label w.
  apply (update_labels_shows_the_wallet_labels _ get_label w
           (fun k => default "" (w !! k)) sample_view).
  - reflexivity.
  - apply sample_view_inv.
Defined.

Section EditProofs.

Variable parent : Parent.
Variable W : Type.
Variable get_label : W -> option string -> result string.
Variable set_label : option string -> string -> W -> W.
Variable set_fiat_value : option string -> string -> Satoshis -> W -> W.
Variable get_tx_item_fiat : W -> string -> Z -> option Z -> tx_item -> tx_item.

(** X13: editing the description of a row of a view that is in order
    hands the row's hash and the text of the edited cell to the wallet's
    [set_label], and then every row shows the label the wallet now has
    for its hash. *)
Theorem on_edited_description_relabels_every_row lbl w s row k :
  (forall w' k', get_label w' (Some k') = Ok (lbl w' k')) ->
  Inv s -> keys (transactions s) !! row = Some k ->
  exists r it s',
    cell_at s row 2 = Some r /\ heap s !! r = Some it /\
    on_edited parent W get_label set_label set_fiat_value get_tx_item_fiat
      row 2 (w, s) = Ok (set_label (Some k) (text it) w, s') /\
    Inv s' /\ s' = with_heap (heap s') s /\
    forall i k', keys (transactions s) !! i = Some k' ->
      exists r' it', cell_at s i 2 = Some r' /\ heap s !! r' = Some it' /\
        heap s' !! r' =
          Some (setText (lbl (set_label (Some k) (text it) w) k') it').
Proof.
  intros Hlbl Hinv Hk.
  destruct (inv_row _ _ _ Hinv Hk) as (rw & Hrw & Hok).
  destruct (row_ok_cell _ _ _ 2 Hok ltac:(lia)) as (r & it & Hcell & Hit & Hrole).
  set (w1 := set_label (Some k) (text it) w).
  destruct (update_labels_from_spec W get_label w1 (lbl w1) (seq 0 (rowCount s)) s)
    as (s' & Hs' & Hinv' & [Hst Hdone _]); [done | done | apply NoDup_seq | |].
  { apply Forall_forall. intros i Hi. apply elem_of_seq in Hi. lia. }
  exists r, it, s'. split; [unfold cell_at; by rewrite Hrw, Hcell|].
  split; [done|]. split.
  { unfold on_edited.
    rewrite (itemFromIndex_existing _ _ _ _ _ Hrw Hcell)
      by (destruct Hinv as [[] _]; lia).
    simpl. unfold deref. rewrite Hit. simpl. rewrite Hrole.
    fold w1. unfold update_labels. by rewrite Hs'. }
  split; [done|]. split; [done|].
  intros i k' Hk'. apply Hdone; [|done]. apply elem_of_seq.
  apply lookup_lt_Some in Hk'. rewrite keys_length in Hk'.
  destruct Hinv as [_ Hrc]. lia.
Qed.

(** X14: [on_edited] accepts the description and the fiat value column
    only: on a view that is in order, an edit reported for any other
    column of a row fails its assertion, and an edit reported for an
    index outside the model fails on the missing item. *)
Theorem on_edited_other_column_fails w s row column :
  Inv s -> column ≠ 2 -> column ≠ 5 ->
  on_edited parent W get_label set_label set_fiat_value get_tx_item_fiat
    row column (w, s) =
    Raise (if index_valid s row column then AssertionError
           else AttributeError).
Proof.
  intros Hinv H2 H5. unfold on_edited, itemFromIndex.
  destruct (index_valid s row column) eqn:Hv; [|done].
  apply andb_true_iff in Hv as [Hr Hc].
  apply bool_decide_eq_true in Hr. apply bool_decide_eq_true in Hc.
  destruct (cell_at s row column) as [r|] eqn:Hcell.
  - simpl. destruct (inv_record s row Hinv Hr) as (k & _ & Hk & _).
    destruct (inv_row _ _ _ Hinv Hk) as (rw & Hrw & items & _ & Hcells & _ & Htag).
    unfold cell_at in Hcell. rewrite Hrw, Hcells, list_lookup_fmap in Hcell.
    destruct (items !! column) as [r'|] eqn:Hi; [|done]. simpl in Hcell.
    injection Hcell as ->.
    destruct (Forall_lookup_1 _ _ _ _ Htag Hi) as (it & Hit & _).
    unfold deref. rewrite Hit. simpl.
    by rewrite !decide_False.
  - simpl. unfold deref. simpl.
    rewrite lookup_app_r, Nat.sub_diag by done. simpl.
    by rewrite !decide_False.
Qed.

End EditProofs.

Lemma on_edited_description_relabels_every_row_witness :
  let get_label := fun (w : gmap string string) (k : option string) =>
    match k with
    | Some h => Ok (default "" (w !! h))
    | None => Raise TypeError
    end in
  let set_label := fun (k : option string) (t : string) (w : gmap string string) =>
    match k with Some h => <[h := t]> w | None => w end in
  let lbl := fun (w : gmap string string) k => default "" (w !! k) in
  exists r it s',
    cell_at sample_view 0 2 = Some r /\ heap sample_view !! r = Some it /\
    on_edited sample_parent _ get_label set_label (fun _ _ _ w => w)
      (fun _ _ _ _ tx => tx) 0 2 (∅, sample_view)
      = Ok (set_label (Some "aa") (text it) ∅, s') /\
    Inv s' /\ s' = with_heap (heap s') sample_view /\
    forall i k', keys (transactions sample_view) !! i = Some k' ->
      exists r' it', cell_at sample_view i 2 = Some r' /\
        heap sample_view !! r' = Some it' /\
        heap s' !! r' =
          Some (setText (lbl (set_label (Some "aa") (text it) ∅) k') it').
Proof.
  intros get_label set_label lbl.
  apply (on_edited_description_relabels_every_row sample_parent _ get_label
           set_label (fun _ _ _ w => w) (fun _ _ _ _ tx => tx) lbl ∅
           sample_view 0 "aa").
  - reflexivity.
  - apply sample_view_inv.
  - reflexivity.
Defined.

Lemma on_edited_other_column_fails_witness :
  on_edited sample_parent unit (fun _ _ => Ok "") (fun _ _ w => w)
    (fun _ _ _ w => w) (fun _ _ _ _ tx => tx) 0 3 (tt, sample_view) =
    Raise (if index_valid sample_view 0 3 then AssertionError
           else AttributeError).
Proof.
  apply (on_edited_other_column_fails sample_parent unit (fun _ _ => Ok "")
           (fun _ _ w => w) (fun _ _ _ w => w) (fun _ _ _ _ tx => tx)
           tt sample_view 0 3).
  - apply sample_view_inv.
  - discriminate.
  - discriminate.
Defined.

Section EditFiatProofs.

Variable parent : Parent.
Variable W : Type.
Variable get_label : W -> option string -> result string.
Variable set_label : option string -> string -> W -> W.
Variable set_fiat_value : option string -> string -> Satoshis -> W -> W.
Variable get_tx_item_fiat : W -> string -> Z -> option Z -> tx_item -> tx_item.

(** X15: editing the fiat value of a row that shows the fiat columns.
    The row's hash, the text of the edited cell and the record's value
    go to the wallet's [set_fiat_value]; the record of that hash takes
    the fiat fields the wallet then reports; the view stays in order,
    with the same hashes in the same order, and only the row, the table
    entry and the items of that hash are written.  The wallet is asked
    for the fiat fields with the amount of the record's fee, or with
    [None] when the fee is [None]. *)
Theorem on_edited_fiat_value_updates_one_row w s row k tx items v fe :
  show_history parent = true ->
  headers_count parent <= columnCount s ->
  Inv s -> keys (transactions s) !! row = Some k ->
  od_get (transactions s) k = Some tx ->
  txid_to_items s !! k = Some items -> 6 <= length items ->
  value tx = Some v -> fee tx = Some fe ->
  (forall w', wf_row parent
     (get_tx_item_fiat w' k v
        (match fe with Some sat => sat | None => None end) tx) = true) ->
  exists r it s',
    cell_at s row 5 = Some r /\ heap s !! r = Some it /\
    let w1 := set_fiat_value (Some k) (text it) (Some v) w in
    let tx' := get_tx_item_fiat w1 k v
                 (match fe with Some sat => sat | None => None end) tx in
    let s2 := with_transactions (od_set (transactions s) k tx') s in
    on_edited parent W get_label set_label set_fiat_value get_tx_item_fiat
      row 5 (w, s) = Ok (w1, s') /\
    Inv s' /\ touch k s2 s' /\
    keys (transactions s') = keys (transactions s) /\
    od_get (transactions s') k = Some tx'.
Proof.
  intros Hsh Hcc Hinv Hk Htx Hitems Hlen Hv Hf Hwf.
  destruct (inv_row _ _ _ Hinv Hk) as (rw & Hrw & Hok).
  destruct Hok as (items0 & Hitems0 & Hcells & Hlen0 & Htag).
  assert (items0 = items) as -> by congruence.
  destruct (lookup_lt_is_Some_2 items 5 ltac:(lia)) as [r Hr].
  destruct (Forall_lookup_1 _ _ _ _ Htag Hr) as (it & Hit & Hrole).
  assert (cells rw !! 5 = Some (Some r)) as Hcell
    by (by rewrite Hcells, list_lookup_fmap, Hr).
  assert (5 < columnCount s) as Hc5.
  { unfold headers_count in Hcc. rewrite Hsh in Hcc.
    destruct (get_history_capital_gains_config parent); lia. }
  exists r, it.
  set (w1 := set_fiat_value (Some k) (text it) (Some v) w).
  set (tx' := get_tx_item_fiat w1 k v
                (match fe with Some sat => sat | None => None end) tx).
  set (s2 := with_transactions (od_set (transactions s) k tx') s).
  assert (k ∈ keys (transactions s)) as Hkin by (by eapply list_elem_of_lookup_2).
  assert (keys (transactions s2) = keys (transactions s)) as Hkeys
    by (by apply keys_od_set_in).
  destruct Hinv as [Hs Hrc].
  assert (Synced s2) as Hs2 by (by apply synced_with_transactions).
  destruct (update_fiat_spec parent k tx' s2 row rw items Hsh (Hwf w1))
    as (s' & items' & Hs' & Ht & Hh & Hrc' & Hlen');
    [ rewrite Hkeys; by destruct Hs | by rewrite Hkeys | done | done | done
    | lia | done | done | ].
  exists s'.
  split; [unfold cell_at; by rewrite Hrw, Hcell|]. split; [done|].
  assert (Synced s') as Hsy.
  { eapply (synced_touch k s2); try done.
    - rewrite Hrc'. unfold rowCount. simpl. fold (rowCount s).
      rewrite <- (keys_length (od_set _ _ _)), keys_od_set_in, keys_length by done.
      lia.
    - intros j rwj Hj. left. apply lookup_lt_Some in Hj.
      fold (rowCount s') in Hj. lia.
    - intros j rwj Hkj Hj. rewrite Hkeys in Hkj.
      pose proof (NoDup_lookup _ _ _ _ (synced_nodup _ Hs) Hkj Hk) as ->.
      destruct Hh as [Hit' Hrow' Htag']. rewrite Hrow' in Hj.
      injection Hj as <-. by exists items'.
    - intros _. exists row. split; [|by rewrite Hkeys]. rewrite Hrc'.
      apply lookup_lt_Some in Hrw. by unfold rowCount. }
  assert (transactions s' = transactions s2) as Htr
    by apply (t_transactions _ _ _ Ht).
  split.
  { unfold on_edited.
    rewrite (itemFromIndex_existing _ _ _ _ _ Hrw Hcell) by done.
    simpl. unfold deref. rewrite Hit. simpl. rewrite Hrole. simpl.
    rewrite Htx. simpl. rewrite Hv, Hf. simpl.
    match goal with
    | |- ?x ≫= _ = _ => change x with (update_fiat parent k tx' s2)
    end.
    by rewrite Hs'. }
  split.
  { split; [done|]. rewrite Hrc', Htr. unfold rowCount. simpl.
    fold (rowCount s). rewrite Hrc.
    by rewrite <- (keys_length (od_set _ _ _)), keys_od_set_in, keys_length. }
  split; [done|]. split; [by rewrite Htr|].
  rewrite Htr. simpl. rewrite od_get_od_set. by rewrite decide_True.
Qed.

End EditFiatProofs.

Lemma sample_view_fees_inv : Inv sample_view_fees.
Proof.
  apply reachable_inv.
  apply (reach_init sample_parent [sample_fee_tx "aa" 3 (-700)]).
  - apply sample_status_ok.
  - by apply sample_wf.
  - vm_compute. reflexivity.
Qed.

Lemma on_edited_fiat_value_updates_one_row_witness :
  let renew := fun (_ : unit) (_ : string) (_ : Z) (_ : option Z) (tx : tx_item) =>
    mk_tx_item (txid tx) (height tx) (confirmations tx) (timestamp tx)
      (date tx) (value tx) (balance tx) (label tx) (fee tx)
      (Some (Some 15%Z)) (Some false) (fiat_fee tx)
      (acquisition_price tx) (capital_gain tx) in
  let tx := sample_tx "aa" 3 (-700) in
  exists r it s',
    cell_at sample_view_fees 0 5 = Some r /\
    heap sample_view_fees !! r = Some it /\
    let w1 := tt in
    let tx' := renew w1 "aa" (-700)%Z (Some 1%Z) (sample_fee_tx "aa" 3 (-700)) in
    let s2 := with_transactions
                (od_set (transactions sample_view_fees) "aa" tx')
                sample_view_fees in
    on_edited sample_parent unit (fun _ _ => Ok "") (fun _ _ w => w)
      (fun _ _ _ w => w) renew 0 5 (tt, sample_view_fees) = Ok (w1, s') /\
    Inv s' /\ touch "aa" s2 s' /\
    keys (transactions s') = keys (transactions sample_view_fees) /\
    od_get (transactions s') "aa" = Some tx'.
Proof.
  intros renew tx.
  apply (on_edited_fiat_value_updates_one_row sample_parent unit
           (fun _ _ => Ok "") (fun _ _ w => w) (fun _ _ _ w => w) renew
           tt sample_view_fees 0 "aa" (sample_fee_tx "aa" 3 (-700))
           [0; 1; 2; 3; 4; 5; 6; 7] (-700)%Z (Some (Some 1%Z))).
  - reflexivity.
  - vm_compute. lia.
  - apply sample_view_fees_inv.
  - reflexivity.
  - vm_compute. reflexivity.
  - vm_compute. reflexivity.
  - simpl. lia.
  - reflexivity.
  - reflexivity.
  - intros w'. reflexivity.
Defined.

(** ** Changing the column layout *)

Lemma inv_cleared s n :
  5 <= n ->
  Inv (setHorizontalHeaderLabels n
         (with_transactions [] (with_txid_to_items ∅ (clear_model s)))).
Proof.
  intros Hn. split; [|done]. constructor; simpl.
  - apply NoDup_nil_2.
  - done.
  - intros i k rw H. by rewrite lookup_nil in H.
  - intros k [v Hv]. by rewrite lookup_empty in Hv.
  - lia.
Qed.

(** X16: when the configuration asks for more columns than the model
    has, [refresh_headers] throws the rows, the table and the mapping
    away and builds the view again from the wallet's history: whatever
    the view was, it comes out in order, with the columns the
    configuration needs, and holds exactly the fetched hashes, each with
    its last fetched record, capped. *)
Theorem refresh_headers_rebuilds_when_columns_grow p fetched s :
  status_ok p -> wf_fetched p fetched ->
  columnCount s < headers_count p ->
  exists s', refresh_headers_update p fetched s = Ok s' /\ Inv s' /\
    headers_count p <= columnCount s' /\
    (forall k, k ∈ keys (transactions s') <-> k ∈ txid <$> fetched) /\
    (forall k, od_get (transactions s') k =
               latest (limit_confirmations fetched) k None).
Proof.
  intros Hst Hwf Hlt. unfold refresh_headers_update, update_headers.
  set (ec := if show_history p then _ else _). simpl.
  rewrite bool_decide_false by lia. rewrite bool_decide_true by done.
  set (s4 := setHorizontalHeaderLabels _ _).
  assert (Inv s4) as Hinv4.
  { pose proof (inv_cleared (with_editable_columns ec s) (headers_count p)
                  (headers_count_ge p)) as H. exact H. }
  assert (headers_count p <= columnCount s4) as Hcc4 by (simpl; lia).
  destruct (update_post p fetched s4 Hst Hwf Hcc4 Hinv4)
    as (s' & Hs' & Hinv' & _ & _ & Hk & Hg); [by constructor|].
  destruct (update_spec p fetched s4 Hst Hwf Hcc4 Hinv4)
    as (s0 & Hs0 & _ & _ & Hcc').
  assert (s0 = s') as -> by congruence.
  exists s'. split; [done|]. split; [done|]. split; [lia|]. done.
Qed.

Lemma refresh_headers_rebuilds_when_columns_grow_witness :
  let s := with_columnCount 5 sample_view in
  exists s', refresh_headers_update sample_parent sample_history s = Ok s' /\
    Inv s' /\ headers_count sample_parent <= columnCount s' /\
    (forall k, k ∈ keys (transactions s') <-> k ∈ txid <$> sample_history) /\
    (forall k, od_get (transactions s') k =
               latest (limit_confirmations sample_history) k None).
Proof.
  apply (refresh_headers_rebuilds_when_columns_grow sample_parent
           sample_history (with_columnCount 5 sample_view)).
  - intros h st. simpl. lia.
  - repeat constructor.
  - vm_compute. lia.
Defined.

Lemma pop_to_all (m : gmap string (list nat)) n :
  (forall k items, m !! k = Some items -> length items <= n) ->
  pop_to n <$> m = m.
Proof.
  intros H. apply map_eq. intros k. rewrite lookup_fmap.
  destruct (m !! k) as [items|] eqn:Hk; [|done]. simpl. f_equal.
  apply take_ge. by apply (H k).
Qed.

Lemma removeColumns_rows column count s :
  0 < count -> column + count <= columnCount s ->
  Forall (fun rw => length (cells rw) <= columnCount s) (rows s) ->
  removeColumns column count s =
    with_columnCount (columnCount s - count)
      (with_rows ((fun rw => mk_Row (take column (cells rw)) (row_hidden rw))
                    <$> rows s) s) \/
  column + count < columnCount s.
Proof.
  intros Hc Hle Hrows.
  destruct (decide (column + count = columnCount s)) as [Heq|Hne]; [left|right; lia].
  unfold removeColumns. rewrite !bool_decide_true by done. simpl.
  do 2 f_equal. apply Forall_fmap_ext_1.
  eapply Forall_impl; [exact Hrows|]. intros rw Hrw. simpl in *. f_equal.
  rewrite drop_ge by lia. by rewrite app_nil_r.
Qed.

(** X17: when the configuration asks for fewer columns than the model
    has, for the layouts of five, six and eight columns,
    [update_headers] passes its assertion, cuts every row down to the
    new number of cells and leaves the model with that many columns; the
    mapping and the hidden flags are kept, and so is the table of
    items: its trimming loop compares with the old column count and
    removes nothing, so the table keeps its references to the items of
    the removed cells. *)
Theorem update_headers_cuts_the_rows p n fetched s :
  n ∈ [5; 6] -> columnCount s ∈ [6; 8] -> n < columnCount s ->
  Forall (fun rw => length (cells rw) <= columnCount s) (rows s) ->
  map_Forall (fun _ items => length items <= columnCount s)
    (txid_to_items s) ->
  exists s', update_headers p n fetched s = Ok s' /\
    columnCount s' = n /\
    rows s' = (fun rw => mk_Row (take n (cells rw)) (row_hidden rw)) <$> rows s /\
    transactions s' = transactions s /\
    txid_to_items s' = txid_to_items s.
Proof.
  intros Hn Hcc Hlt Hrows Htab. unfold update_headers.
  rewrite bool_decide_true by done.
  assert (n = 5 /\ columnCount s = 6 \/ n = 5 /\ columnCount s = 8 \/
          n = 6 /\ columnCount s = 8) as Hcase.
  { apply elem_of_cons in Hn as [->|Hn];
      [|apply elem_of_cons in Hn as [->|Hn]; [|by apply elem_of_nil in Hn]];
      (apply elem_of_cons in Hcc as [Hc|Hcc];
       [|apply elem_of_cons in Hcc as [Hc|Hcc]; [|by apply elem_of_nil in Hcc]]);
      lia. }
  destruct Hcase as [[-> Hc] | [[-> Hc] | [-> Hc]]]; rewrite Hc; simpl.
  - destruct (removeColumns_rows 5 1 s) as [-> | ?]; [lia | lia | done | | lia].
    eexists. split; [done|]. simpl. rewrite Hc.
    split; [done|]. split; [done|]. split; [done|].
    apply pop_to_all. intros k items Hk. rewrite <- Hc. by apply (Htab k).
  - destruct (removeColumns_rows 5 3 s) as [-> | ?]; [lia | lia | done | | lia].
    eexists. split; [done|]. simpl. rewrite Hc.
    split; [done|]. split; [done|]. split; [done|].
    apply pop_to_all. intros k items Hk. rewrite <- Hc. by apply (Htab k).
  - destruct (removeColumns_rows 6 2 s) as [-> | ?]; [lia | lia | done | | lia].
    eexists. split; [done|]. simpl. rewrite Hc.
    split; [done|]. split; [done|]. split; [done|].
    apply pop_to_all. intros k items Hk. rewrite <- Hc. by apply (Htab k).
Qed.

Lemma update_headers_cuts_the_rows_witness :
  exists s', update_headers sample_parent 6 sample_history sample_view = Ok s' /\
    columnCount s' = 6 /\
    rows s' = (fun rw => mk_Row (take 6 (cells rw)) (row_hidden rw))
                <$> rows sample_view /\
    transactions s' = transactions sample_view /\
    txid_to_items s' = txid_to_items sample_view.
Proof.
  apply (update_headers_cuts_the_rows sample_parent 6 sample_history sample_view).
  - apply (bool_decide_unpack _). vm_compute. reflexivity.
  - apply (bool_decide_unpack _). vm_compute. reflexivity.
  - vm_compute. lia.
  - repeat constructor; vm_compute; lia.
  - apply (bool_decide_unpack _). vm_compute. reflexivity.
Defined.

(** ** More on the export *)

Lemma only_file_refl f fs : only_file f fs fs.
Proof. by split_and!. Qed.

Lemma only_file_trans f fs1 fs2 fs3 :
  only_file f fs1 fs2 -> only_file f fs2 fs3 -> only_file f fs1 fs3.
Proof.
  intros (Ha & ? & ? & ?) (Hb & ? & ? & ?). split_and!; try congruence.
  intros g Hg. by rewrite Hb, Ha.
Qed.

Lemma only_file_insert f c fs :
  only_file f fs (with_files (<[f := c]> (files fs)) fs).
Proof.
  split_and!; try done. intros g Hg. simpl. by rewrite lookup_insert_ne.
Qed.

Lemma open_w_frame f fs fs' r :
  open_w f fs = (fs', r) -> only_file f fs fs'.
Proof.
  unfold open_w. destruct (open_fault fs f); intros [= <- <-].
  - apply only_file_refl.
  - apply only_file_insert.
Qed.

Lemma write_frame f l fs fs' r :
  write f l fs = (fs', r) -> only_file f fs fs'.
Proof.
  unfold write. simpl. destruct (write_fault fs f _); intros [= <- <-].
  - apply only_file_refl.
  - apply only_file_insert.
Qed.

Lemma writerows_frame f ls : forall fs fs' r,
  writerows f ls fs = (fs', r) -> only_file f fs fs'.
Proof.
  induction ls as [|l ls IH]; intros fs fs' r H; simpl in H.
  - injection H as <- <-. apply only_file_refl.
  - destruct (write f (CsvRow l) fs) as [fs1 [[]|e]] eqn:Hw.
    + eapply only_file_trans; [by eapply write_frame | by eapply IH].
    + injection H as <- <-. by eapply write_frame.
Qed.

Lemma export_only_its_file json_encode file_name is_csv self fs fs' r :
  do_export_history json_encode file_name is_csv self fs = (fs', r) ->
  only_file file_name fs fs'.
Proof.
  unfold do_export_history. intros H.
  destruct (open_w file_name fs) as [fs0 [[]|e]] eqn:Ho.
  - pose proof (open_w_frame _ _ _ _ Ho) as H0.
    eapply only_file_trans; [exact H0|]. destruct is_csv.
    + destruct (write file_name (CsvRow csv_header) fs0) as [fs1 [[]|e]] eqn:Hw.
      * eapply only_file_trans; [by eapply write_frame | by eapply writerows_frame].
      * injection H as <- <-. by eapply write_frame.
    + destruct (json_encode _) as [txt|e].
      * by eapply write_frame.
      * injection H as <- <-. apply only_file_refl.
  - injection H as <- <-. by eapply open_w_frame.
Qed.

(** X18: whatever its outcome, [do_export_history] writes no file but
    the one it was asked to write. *)
Theorem export_touches_only_its_file json_encode file_name is_csv self fs :
  only_file file_name fs
    (do_export_history json_encode file_name is_csv self fs).1.
Proof.
  destruct (do_export_history json_encode file_name is_csv self fs)
    as [fs' r] eqn:H.
  by apply (export_only_its_file json_encode file_name is_csv self fs fs' r).
Qed.



(** X20: [export_history_dialog] exports the history as it is after the
    [update] it starts with.  On a view built by [__init__] and kept by
    [update] and the filter controls, with a file that can be written,
    an accepted dialog reconciles the view with the fetched history,
    writes the header and one row per record of the reconciled view,
    whose hashes are exactly those of the fetched history, and reports
    success. *)
Theorem export_dialog_writes_the_fresh_history json_encode p fetched filename
    self fs dialogs :
  reachable self -> status_ok p -> wf_fetched p fetched ->
  headers_count p <= columnCount self ->
  filename ≠ "" ->
  open_fault fs filename = None ->
  (forall n, write_fault fs filename n = None) ->
  exists self1 fs',
    update p fetched self = Ok self1 /\
    export_history_dialog json_encode p fetched true filename true
      (self, fs, dialogs)
      = Ok (self1, fs',
            dialogs ++ [show_message
                          "Your wallet history has been successfully exported."]) /\
    files fs' !! filename =
      Some (CsvRow csv_header ::
            (CsvRow <$> (csv_line <$> values (transactions self1)))) /\
    only_file filename fs fs' /\
    (forall k, k ∈ txid <$> values (transactions self1) <-> k ∈ txid <$> fetched).
Proof.
  intros Hr Hst Hwf Hcc Hname Hopen Hwrite.
  destruct (update_post p fetched self Hst Hwf Hcc (reachable_inv _ Hr)
              (reachable_keyed _ Hr))
    as (self1 & Hupd & _ & _ & Hkd & Hk & _).
  set (fs0 := with_files (<[filename := []]> (files fs)) fs).
  set (fs1 := with_files (<[filename := [CsvRow csv_header]]> (files fs0)) fs0).
  destruct (writerows_ok filename (csv_line <$> values (transactions self1))
              fs1 [CsvRow csv_header])
    as (fs' & Hrows & Hf & _);
    [by simpl; rewrite lookup_insert_eq | intros n _; apply Hwrite |].
  assert (do_export_history json_encode filename true self1 fs = (fs', Ok tt))
    as Hexp.
  { unfold do_export_history, open_w. rewrite Hopen.
    rewrite write_ok by apply Hwrite. simpl. rewrite lookup_insert_eq. simpl.
    exact Hrows. }
  exists self1, fs'. split; [done|]. split.
  { unfold export_history_dialog. rewrite Hupd. simpl.
    rewrite decide_False by done. by rewrite Hexp. }
  split; [done|]. split.
  { by eapply (export_only_its_file json_encode). }
  intros k. by rewrite <- (keyed_keys _ Hkd).
Qed.

Lemma export_dialog_writes_the_fresh_history_witness :
  let fetched := [sample_tx "cc" 0 40; sample_tx "aa" 3 (-700)] in
  exists self1 fs',
    update sample_parent fetched sample_view = Ok self1 /\
    export_history_dialog sample_json_encode sample_parent fetched true
      "history.csv" true (sample_view, sample_fs, [])
      = Ok (self1, fs',
            [] ++ [show_message
                     "Your wallet history has been successfully exported."]) /\
    files fs' !! "history.csv" =
      Some (CsvRow csv_header ::
            (CsvRow <$> (csv_line <$> values (transactions self1)))) /\
    only_file "history.csv" sample_fs fs' /\
    (forall k, k ∈ txid <$> values (transactions self1) <-> k ∈ txid <$> fetched).
Proof.
  apply (export_dialog_writes_the_fresh_history sample_json_encode sample_parent
           [sample_tx "cc" 0 40; sample_tx "aa" 3 (-700)] "history.csv"
           sample_view sample_fs []).
  - apply sample_view_reachable.
  - intros h st. simpl. lia.
  - repeat constructor.
  - vm_compute. lia.
  - discriminate.
  - reflexivity.
  - intros n. reflexivity.
Defined.


(** ** Filling a row: [ensure] *)

(** X21: [ensure(items, idx, txid)] on the row of [txid].  When the row
    already has an item at column [idx] nothing happens.  Otherwise, if
    the model has a column [idx], the row is filled up to that column
    with items of the model, each tagged with [txid]; other rows and the
    items of other hashes are not written.  If the model has no column
    for the next item, the assertion of [ensure] fails. *)
Theorem ensure_fills_the_row k i idx items s rw :
  NoDup (keys (transactions s)) ->
  keys (transactions s) !! i = Some k ->
  rows s !! i = Some rw -> cells rw = Some <$> items ->
  Forall (tagged s k) items ->
  (idx < length items -> ensure items idx k s = Ok (items, s)) /\
  (length items <= idx -> idx < columnCount s ->
   exists items' s',
     ensure items idx k s = Ok (items', s') /\
     length items' = idx + 1 /\
     Forall (tagged s' k) items' /\
     rows s' !! i = Some (mk_Row (Some <$> items') (row_hidden rw)) /\
     touch k s s') /\
  (length items <= idx -> columnCount s <= length items ->
   ensure items idx k s = Raise AssertionError).
Proof.
  intros Hnd Hk Hrw Hcells Htag. split; [|split].
  - intros Hlt. unfold ensure.
    by replace (idx + 1 - length items) with 0 by lia.
  - intros Hle Hcol. unfold ensure.
    destruct (ensure_rounds_spec k i (idx + 1 - length items) items s rw)
      as (items' & s' & Hens & Hlen & Htag' & Ht & _ & _ & Hrow); try done.
    { intros _. lia. }
    exists items', s'. split; [done|]. split; [lia|]. done.
  - intros Hle Hcol. unfold ensure.
    replace (idx + 1 - length items) with (S (idx - length items)) by lia.
    simpl. rewrite (index_of_NoDup _ _ _ Hnd Hk).
    unfold index_valid.
    rewrite (bool_decide_false (length items < columnCount s)) by lia.
    by rewrite andb_false_r.
Qed.

Lemma ensure_fills_the_row_witness :
  (5 < length [0; 1; 2; 3; 4] ->
   ensure [0; 1; 2; 3; 4] 5 "aa" sample_view_plain
     = Ok ([0; 1; 2; 3; 4], sample_view_plain)) /\
  (length [0; 1; 2; 3; 4] <= 5 -> 5 < columnCount sample_view_plain ->
   exists items' s',
     ensure [0; 1; 2; 3; 4] 5 "aa" sample_view_plain = Ok (items', s') /\
     length items' = 5 + 1 /\
     Forall (tagged s' "aa") items' /\
     rows s' !! 0 = Some (mk_Row (Some <$> items') false) /\
     touch "aa" sample_view_plain s') /\
  (length [0; 1; 2; 3; 4] <= 5 ->
   columnCount sample_view_plain <= length [0; 1; 2; 3; 4] ->
   ensure [0; 1; 2; 3; 4] 5 "aa" sample_view_plain = Raise AssertionError).
Proof.
  apply (ensure_fills_the_row "aa" 0 5 [0; 1; 2; 3; 4] sample_view_plain
           (mk_Row (Some <$> [0; 1; 2; 3; 4]) false)).
  - apply (bool_decide_unpack _). vm_compute. reflexivity.
  - reflexivity.
  - reflexivity.
  - reflexivity.
  - repeat constructor; eexists; (split; [vm_compute; reflexivity | reflexivity]).
Defined.

(** ** What reconciliation leaves alone *)

Local Transparent set_all_item_properties update_item update_fiat insertRow
  is_negative.

Lemma quiet_refl s : quiet s s.
Proof.
  constructor; try done. intros r it H. exists it.
  split; [done | by intros ?].
Qed.

Lemma quiet_trans s1 s2 s3 : quiet s1 s2 -> quiet s2 s3 -> quiet s1 s3.
Proof.
  intros [? ? ? ? H12] [? ? ? ? H23]. constructor; try congruence.
  intros r it Hr. destruct (H12 r it Hr) as (it2 & Hr2 & Hk2).
  destruct (H23 r it2 Hr2) as (it3 & Hr3 & Hk3).
  exists it3. split; [done|]. intros H. by apply Hk3, Hk2.
Qed.

Lemma quiet_same_heap s s' :
  current_filter s' = current_filter s ->
  start_timestamp s' = start_timestamp s ->
  end_timestamp s' = end_timestamp s ->
  editable_columns s' = editable_columns s ->
  heap s' = heap s -> quiet s s'.
Proof.
  intros ? ? ? ? Hh. constructor; try done.
  intros r it Hr. exists it. rewrite Hh. split; [done | by intros ?].
Qed.

Lemma quiet_modify r f s :
  (forall it, keeps_sort it (f it)) -> quiet s (modify r f s).
Proof.
  intros Hf. constructor; try done. intros r' it Hr'. simpl.
  destruct (decide (r = r')) as [->|Hne].
  - exists (f it). split; [|apply Hf]. by rewrite list_lookup_alter_eq, Hr'.
  - exists it. split; [|by intros ?]. by rewrite list_lookup_alter_ne.
Qed.

Lemma quiet_grow s its : quiet s (with_heap (heap s ++ its) s).
Proof.
  constructor; try done. intros r it Hr. exists it. split; [|by intros ?].
  simpl. by apply lookup_app_l_Some.
Qed.

Ltac setter := intros ? ?; simpl; eauto.

Lemma tame_refl s : tame s s.
Proof. constructor; try done. apply quiet_refl. Qed.

Lemma tame_trans s1 s2 s3 : tame s1 s2 -> tame s2 s3 -> tame s1 s3.
Proof.
  intros [] []. constructor; try congruence; [by eapply quiet_trans | lia].
Qed.

Lemma tame_modify r f s :
  (forall it, keeps_sort it (f it)) -> tame s (modify r f s).
Proof.
  intros Hf. constructor; try done; [by apply quiet_modify|].
  simpl. by rewrite length_alter.
Qed.

Lemma tame_grow s its : tame s (with_heap (heap s ++ its) s).
Proof.
  constructor; try done; [apply quiet_grow|]. simpl. rewrite length_app. lia.
Qed.

Lemma tame_same_heap s s' :
  current_filter s' = current_filter s ->
  start_timestamp s' = start_timestamp s ->
  end_timestamp s' = end_timestamp s ->
  editable_columns s' = editable_columns s ->
  heap s' = heap s -> txid_to_items s' = txid_to_items s ->
  wallet s' = wallet s -> tame s s'.
Proof.
  intros ? ? ? ? Hh ? ?. constructor; try done; [by apply quiet_same_heap|].
  by rewrite Hh.
Qed.

Lemma tame_itemFromIndex row col s : tame s (itemFromIndex row col s).2.
Proof.
  unfold itemFromIndex. destruct (index_valid s row col); [|apply tame_refl].
  destruct (cell_at s row col); [apply tame_refl|]. simpl.
  eapply tame_trans; [apply (tame_grow s [new_item ""])|].
  by apply tame_same_heap.
Qed.

Lemma tame_set_item_properties r i k s : tame s (set_item_properties r i k s).
Proof.
  unfold set_item_properties. cbv zeta.
  set (s1 := if bool_decide (2 < i) then _ else s).
  assert (tame s s1) as H1.
  { subst s1. case_bool_decide; [apply tame_modify; setter | apply tame_refl]. }
  set (s2 := if bool_decide (i ≠ 1) then _ else s1).
  assert (tame s1 s2) as H2.
  { subst s2. case_bool_decide; [apply tame_modify; setter | apply tame_refl]. }
  set (s3 := if bool_decide (i ∉ editable_columns s2) then _ else s2).
  assert (tame s2 s3) as H3.
  { subst s3. case_bool_decide; [apply tame_modify; setter | apply tame_refl]. }
  eapply tame_trans; [exact H1|]. eapply tame_trans; [exact H2|].
  eapply tame_trans; [exact H3|]. apply tame_modify. setter.
Qed.

Lemma tame_setRowHidden i b s : tame s (setRowHidden i b s).
Proof. by apply tame_same_heap. Qed.

Lemma tame_insertRow i items s : tame s (insertRow i items s).
Proof.
  unfold insertRow. case_bool_decide; [by apply tame_same_heap | apply tame_refl].
Qed.

Lemma tame_hide_row_columns i cols : forall s x,
  hide_row_columns i cols s = Ok x ->
  tame s (match x with inl s' => s' | inr s' => s' end).
Proof.
  induction cols as [|c cols IH]; intros s x H; simpl in H.
  - injection H as <-. apply tame_refl.
  - pose proof (tame_itemFromIndex i c s) as Hi.
    destruct (itemFromIndex i c s) as [o s1]. simpl in Hi.
    destruct o as [r|]; simpl in H; [|discriminate].
    destruct (deref s1 r) as [item|]; simpl in H; [|discriminate].
    destruct (contains _ _).
    + injection H as <-. eapply tame_trans; [exact Hi|]. apply tame_setRowHidden.
    + eapply tame_trans; [exact Hi | by apply IH].
Qed.

Lemma tame_hide_row_dates i s s' : hide_row_dates i s = Ok s' -> tame s s'.
Proof.
  unfold hide_row_dates.
  destruct (start_timestamp s); [|intros [= <-]; apply tame_setRowHidden].
  destruct (end_timestamp s); [|intros [= <-]; apply tame_setRowHidden].
  pose proof (tame_itemFromIndex i 0 s) as Hi.
  destruct (itemFromIndex i 0 s) as [o s1]. simpl in Hi.
  destruct o as [r|]; simpl; [|discriminate].
  destruct (deref s1 r) as [item|]; simpl; [|discriminate].
  destruct (tx_hash_role item); [|discriminate].
  destruct (od_get _ _) as [tx|]; [|discriminate].
  destruct (date tx); [destruct (negb _)|]; intros [= <-];
    (eapply tame_trans; [exact Hi | apply tame_setRowHidden]).
Qed.

Lemma tame_hide_row i s s' : hide_row i s = Ok s' -> tame s s'.
Proof.
  unfold hide_row. intros H.
  destruct (hide_row_columns i _ s) as [x|] eqn:E; simpl in H; [|discriminate].
  apply tame_hide_row_columns in E. destruct x as [s1|s1].
  - by injection H as <-.
  - eapply tame_trans; [exact E | by eapply tame_hide_row_dates].
Qed.

Lemma tame_ensure_rounds k n : forall items s items' s',
  ensure_rounds n items k s = Ok (items', s') ->
  tame s s' /\ exists extra, items' = items ++ extra.
Proof.
  induction n as [|n IH]; intros items s items' s' H; simpl in H.
  - injection H as <- <-. split; [apply tame_refl|]. exists []. by rewrite app_nil_r.
  - destruct (index_of _ k) as [row|]; [|discriminate].
    destruct (negb _); [discriminate|].
    pose proof (tame_itemFromIndex row (length items) s) as Hi.
    destruct (itemFromIndex row (length items) s) as [o s1]. simpl in Hi.
    destruct o as [r|]; simpl in H; [|discriminate].
    apply IH in H as [Ht (extra & ->)]. split.
    + eapply tame_trans; [exact Hi|].
      eapply tame_trans; [eapply tame_set_item_properties | exact Ht].
    + exists (r :: extra). by rewrite <- app_assoc.
Qed.

Lemma tame_update_item p k st s s' : update_item p k st s = Ok s' -> tame s s'.
Proof.
  unfold update_item. destruct (negb (wallet s)); [intros [= <-]; apply tame_refl|].
  destruct (get_tx_status p k st) as [status status_str].
  destruct (getitem TX_ICONS status); simpl; [|discriminate].
  destruct (txid_to_items s !! k) as [items|]; [|intros [= <-]; apply tame_refl].
  destruct (getitem items 0); simpl; [|discriminate].
  destruct (getitem items 1); simpl; [|discriminate].
  intros [= <-].
  repeat (eapply tame_trans; [|apply tame_modify; setter]). apply tame_refl.
Qed.

(** [update_item] gives the first item of the row its sort data. *)
Lemma update_item_sorts p k st s s' items i0 :
  update_item p k st s = Ok s' -> wallet s = true ->
  txid_to_items s !! k = Some items -> items !! 0 = Some i0 ->
  i0 < length (heap s) ->
  exists it, heap s' !! i0 = Some it /\ is_Some (data_role it).
Proof.
  unfold update_item. intros H Hw Hitems Hi0 Hlt. rewrite Hw, Hitems in H.
  cbv beta iota zeta delta [negb] in H.
  destruct (get_tx_status p k st) as [status status_str].
  rewrite (getitem_Ok _ _ _ Hi0) in H.
  destruct (getitem TX_ICONS status); [|discriminate].
  destruct (getitem items 1) as [i1|]; [|discriminate].
  injection H as <-.
  match goal with
  | |- context [modify i1 _ (modify i0 (setData_sort ?d) ?s0)] =>
      set (s2 := s0); set (s3 := modify i0 (setData_sort d) s2)
  end.
  assert (exists it3, heap s3 !! i0 = Some it3 /\ is_Some (data_role it3))
    as (it3 & Hit3 & Hd3).
  { assert (i0 < length (heap s2)) as Hlt2
      by (subst s2; simpl; by rewrite !length_alter).
    clearbody s2.
    destruct (lookup_lt_is_Some_2 (heap s2) i0 Hlt2) as [it2 Hit2].
    subst s3. simpl. rewrite list_lookup_alter_eq, Hit2.
    eexists. split; [done|]. simpl. by eexists. }
  destruct (q_heap _ _ (quiet_modify i1 (setText status_str) s3 ltac:(setter))
              i0 it3 Hit3) as (it & Hit & Hk).
  exists it. split; [done | by apply Hk].
Qed.

Lemma grows_tame k s s' : tame s s' -> grows k s s'.
Proof.
  intros [Hq Hi Hw Hl]. constructor; try done.
  - intros k' _. by rewrite Hi.
  - exists []. rewrite Hi. destruct (txid_to_items s !! k); simpl; [|done].
    by rewrite app_nil_r.
Qed.

Lemma grows_refl k s : grows k s s.
Proof. apply grows_tame, tame_refl. Qed.

Lemma grows_trans k s1 s2 s3 : grows k s1 s2 -> grows k s2 s3 -> grows k s1 s3.
Proof.
  intros [Hq1 Hw1 Hl1 Ho1 [e1 He1]] [Hq2 Hw2 Hl2 Ho2 [e2 He2]].
  constructor; try congruence.
  - by eapply quiet_trans.
  - lia.
  - intros k' Hk'. rewrite Ho2, Ho1; done.
  - exists (e1 ++ e2). rewrite He2, He1.
    destruct (txid_to_items s1 !! k); simpl; [|done]. by rewrite app_assoc.
Qed.

Lemma grows_set_entry k s items extra :
  txid_to_items s !! k = Some items ->
  grows k s (with_txid_to_items (<[k := items ++ extra]> (txid_to_items s)) s).
Proof.
  intros Hk. constructor; try done.
  - by apply quiet_same_heap.
  - intros k' Hk'. simpl. by rewrite lookup_insert_ne.
  - exists extra. simpl. by rewrite lookup_insert_eq, Hk.
Qed.

Lemma sort_inv_grows k s s' : sort_inv s -> grows k s s' -> sort_inv s'.
Proof.
  intros Hs [Hq _ _ Ho [extra He]] k' items' Hk'.
  assert (exists items, txid_to_items s !! k' = Some items /\
            forall i0, items !! 0 = Some i0 -> items' !! 0 = Some i0)
    as (items & Hitems & Hhead).
  { destruct (decide (k' = k)) as [->|Hne].
    - rewrite Hk' in He. destruct (txid_to_items s !! k) as [items|]; [|done].
      simpl in He. injection He as ->. exists items. split; [done|].
      intros i0 Hi0. by apply lookup_app_l_Some.
    - rewrite Ho in Hk' by done. by exists items'. }
  destruct (Hs k' items Hitems) as (i0 & it & Hi0 & Hit & Hd).
  destruct (q_heap _ _ Hq i0 it Hit) as (it' & Hit' & Hk).
  exists i0, it'. split; [by apply Hhead|]. split; [done | by apply Hk].
Qed.

Lemma grows_update_fiat p k row s s' :
  update_fiat p k row s = Ok s' -> grows k s s'.
Proof.
  unfold update_fiat. cbv zeta. intros H.
  destruct (txid_to_items s !! k) as [items|] eqn:Hitems; simpl in H; [|discriminate].
  destruct (ensure items _ k s) as [[items' s1]|] eqn:En; simpl in H; [|discriminate].
  unfold ensure in En. apply tame_ensure_rounds in En as [Ht (extra & ->)].
  assert (txid_to_items s1 !! k = Some items) as Hitems1
    by (by rewrite (tm_items _ _ Ht)).
  pose proof (grows_trans k _ _ _ (grows_tame k _ _ Ht)
                (grows_set_entry k s1 items extra Hitems1)) as Hg.
  set (s2 := with_txid_to_items _ s1) in *. clearbody s2.
  destruct (getitem (items ++ extra) 5) as [i5|]; simpl in H; [|discriminate].
  destruct (getkey (fiat_default row)) as [fd|]; simpl in H; [|discriminate].
  destruct (getkey (fiat_value row)) as [fv|]; simpl in H; [|discriminate].
  destruct (lt0 (value row)) as [neg|]; simpl in H; [|discriminate].
  assert (forall f g, grows k s (modify i5 (setText f) (modify i5 (setForeground g) s2)))
    as Hg4.
  { intros f g. eapply grows_trans; [exact Hg|]. apply grows_tame.
    eapply tame_trans; apply tame_modify; setter. }
  destruct (neg && _); [|injection H as <-; apply Hg4].
  destruct (getitem (items ++ extra) 6) as [i6|]; simpl in H; [|discriminate].
  destruct (getkey (acquisition_price row)) as [ap|]; simpl in H; [|discriminate].
  destruct (getitem (items ++ extra) 7) as [i7|]; simpl in H; [|discriminate].
  destruct (getkey (capital_gain row)) as [cg|]; simpl in H; [|discriminate].
  injection H as <-. eapply grows_trans; [apply Hg4|]. apply grows_tame.
  eapply tame_trans; apply tame_modify; setter.
Qed.

Lemma tame_set_all_item_properties k item : forall i s,
  tame s (set_all_item_properties item i k s).
Proof.
  induction item as [|r item IH]; intros i s; simpl; [apply tame_refl|].
  eapply tame_trans; [eapply tame_set_item_properties | apply IH].
Qed.

Local Opaque set_all_item_properties update_item update_fiat hide_row insertRow
  is_negative.

(** [insert_tx] is quiet, and the entry it adds starts with an item
    that [update_item] gave its sort data. *)
Lemma grows_insert_tx p tx s s' :
  insert_tx p tx s = Ok s' ->
  quiet s s' /\ wallet s = true /\ wallet s' = true /\
  (sort_inv s -> sort_inv s').
Proof.
  unfold insert_tx. cbv zeta. intros H.
  destruct (wallet s) eqn:Hw; simpl in H; [|discriminate].
  destruct (get_tx_status p _ _) as [status status_str].
  destruct (getitem TX_ICONS status); simpl in H; [|discriminate].
  rewrite new_items_spec in H.
  set (k := txid tx) in *.
  set (item := seq (length (heap s)) _) in H.
  set (s1 := with_heap _ s) in H.
  assert (tame s s1) as Ht1 by apply tame_grow.
  assert (item !! 0 = Some (length (heap s))) as Hi0 by done.
  assert (length (heap s) < length (heap s1)) as Hl1.
  { subst s1. simpl. rewrite length_app. simpl. lia. }
  clearbody item s1.
  match type of H with
  | (?m ≫= _) = _ => destruct m as [s2|] eqn:E2; simpl in H; [|discriminate]
  end.
  assert (tame s1 s2) as Ht2.
  { destruct (invoice_paid p k).
    - destruct (getitem item 2); simpl in E2; [|discriminate].
      injection E2 as <-. apply tame_modify. setter.
    - injection E2 as <-. apply tame_refl. }
  clear E2.
  pose proof (tame_set_all_item_properties k item 0 s2) as Ht3.
  set (s3 := set_all_item_properties item 0 k s2) in *. clearbody s3.
  match type of H with
  | (?m ≫= _) = _ => destruct m as [s4|] eqn:E4; simpl in H; [|discriminate]
  end.
  assert (tame s3 s4) as Ht4.
  { destruct (is_negative (value tx)).
    - destruct (getitem item 2); simpl in E4; [|discriminate].
      destruct (getitem item 3); simpl in E4; [|discriminate].
      injection E4 as <-. eapply tame_trans; apply tame_modify; setter.
    - injection E4 as <-. apply tame_refl. }
  clear E4.
  assert (tame s1 s4) as Ht14
    by (eapply tame_trans; [exact Ht2|]; eapply tame_trans; [exact Ht3 | exact Ht4]).
  assert (tame s s4) as Ht by (by eapply tame_trans).
  clear Ht2 Ht3 Ht4 s2 s3.
  set (s5 := with_txid_to_items _ s4) in H.
  assert (quiet s4 s5) as Hq5 by (by apply quiet_same_heap).
  assert (txid_to_items s5 !! k = Some item) as Hk5
    by (subst s5; simpl; by rewrite lookup_insert_eq).
  assert (forall k', k' ≠ k -> txid_to_items s5 !! k' = txid_to_items s !! k') as Ho5.
  { intros k' Hk'. subst s5. simpl. rewrite lookup_insert_ne by done.
    by rewrite (tm_items _ _ Ht). }
  assert (wallet s5 = true) as Hw5 by (subst s5; simpl; by rewrite (tm_wallet _ _ Ht)).
  assert (length (heap s) < length (heap s5)) as Hl5.
  { subst s5. simpl. pose proof (tm_len _ _ Ht14). lia. }
  clearbody s5.
  destruct (update_item p k _ s5) as [s6|] eqn:E6; simpl in H; [|discriminate].
  destruct (update_item_sorts _ _ _ _ _ _ _ E6 Hw5 Hk5 Hi0 Hl5) as (it6 & Hit6 & Hd6).
  apply tame_update_item in E6.
  pose proof (tame_insertRow (rowCount s6) item s6) as Ht7.
  set (s7 := insertRow _ item s6) in *. clearbody s7.
  match type of H with
  | (?m ≫= _) = _ => destruct m as [s8|] eqn:E8; simpl in H; [|discriminate]
  end.
  assert (grows k s7 s8) as Hg8.
  { destruct (show_history p).
    - by eapply grows_update_fiat.
    - injection E8 as <-. apply grows_refl. }
  apply tame_hide_row in H.
  assert (grows k s6 s') as Hg6.
  { eapply grows_trans; [apply grows_tame, Ht7|].
    eapply grows_trans; [exact Hg8 | by apply grows_tame]. }
  assert (grows k s5 s') as Hg5
    by (eapply grows_trans; [apply grows_tame, E6 | exact Hg6]).
  assert (quiet s s') as Hq.
  { eapply quiet_trans; [apply (tm_quiet _ _ Ht)|].
    eapply quiet_trans; [exact Hq5 | apply (g_quiet _ _ _ Hg5)]. }
  split; [done|]. split; [done|].
  split; [by rewrite (g_wallet _ _ _ Hg5)|].
  intros Hs k' items' Hk'. destruct (decide (k' = k)) as [->|Hne].
  - destruct (g_own _ _ _ Hg5) as [extra He]. rewrite Hk', Hk5 in He.
    simpl in He. injection He as ->.
    destruct (q_heap _ _ (g_quiet _ _ _ Hg6) _ _ Hit6) as (it' & Hit' & Hk).
    exists (length (heap s)), it'. split; [by apply lookup_app_l_Some|].
    split; [done | by apply Hk].
  - rewrite (g_other _ _ _ Hg5), Ho5 in Hk' by done.
    destruct (Hs k' items' Hk') as (i0 & it & Hi & Hit & Hd).
    destruct (q_heap _ _ Hq _ _ Hit) as (it' & Hit' & Hk).
    exists i0, it'. split; [done|]. split; [done | by apply Hk].
Qed.

Lemma sober_refl s : sober s s.
Proof. split; [apply quiet_refl | done]. Qed.

Lemma sober_trans s1 s2 s3 : sober s1 s2 -> sober s2 s3 -> sober s1 s3.
Proof.
  intros (Hq1 & Hw1 & Hs1) (Hq2 & Hw2 & Hs2).
  split; [by eapply quiet_trans | split; auto].
Qed.

Lemma sober_grows k s s' : grows k s s' -> sober s s'.
Proof.
  intros Hg. split; [apply (g_quiet _ _ _ Hg)|]. split.
  - by rewrite (g_wallet _ _ _ Hg).
  - intros Hs. by eapply sort_inv_grows.
Qed.

Lemma sober_tame s s' : tame s s' -> sober s s'.
Proof. intros Ht. apply (sober_grows ""), grows_tame, Ht. Qed.

Lemma sober_with_transactions t s : sober s (with_transactions t s).
Proof. split; [by apply quiet_same_heap | done]. Qed.

Lemma sober_with_wallet s : sober s (with_wallet true s).
Proof. split; [by apply quiet_same_heap | done]. Qed.

Lemma sober_insert_tx p tx s s' : insert_tx p tx s = Ok s' -> sober s s'.
Proof.
  intros H. destruct (grows_insert_tx p tx s s' H) as (Hq & _ & Hw & Hs).
  by split.
Qed.

Lemma sober_add_tx p row s s' : add_tx p row s = Ok s' -> sober s s'.
Proof.
  unfold add_tx. cbv zeta. intros H.
  destruct (od_move_to_end _ _) as [t|]; simpl in H; [|discriminate].
  apply sober_insert_tx in H.
  eapply sober_trans; [|exact H].
  eapply sober_trans; apply sober_with_transactions.
Qed.

Lemma sober_refresh_tx p row s s' : refresh_tx p row s = Ok s' -> sober s s'.
Proof.
  unfold refresh_tx. cbv zeta. intros H.
  destruct (update_item p _ _ s) as [s1|] eqn:E1; simpl in H; [|discriminate].
  apply tame_update_item in E1.
  match type of H with
  | (?m ≫= _) = _ => destruct m as [s2|] eqn:E2; simpl in H; [|discriminate]
  end.
  assert (grows (txid row) s1 s2) as Hg2.
  { destruct (show_history p).
    - by eapply grows_update_fiat.
    - injection E2 as <-. apply grows_refl. }
  destruct (getkey _) as [items|]; simpl in H; [|discriminate].
  destruct (getitem items 4) as [i4|]; simpl in H; [|discriminate].
  injection H as <-.
  eapply sober_trans; [|apply sober_with_transactions].
  eapply sober_trans; [|apply sober_tame, tame_modify; setter].
  eapply sober_trans; [apply sober_tame, E1 | apply (sober_grows _ _ _ Hg2)].
Qed.

Lemma sober_walk p r : forall seen s seen' s',
  walk p r seen s = Ok (seen', s') -> sober s s'.
Proof.
  induction r as [|row r IH]; intros seen s seen' s' H; simpl in H.
  - injection H as <- <-. apply sober_refl.
  - destruct (od_get _ _) as [old|].
    + case_decide.
      * by eapply IH.
      * destruct (refresh_tx p row s) as [s1|] eqn:E; simpl in H; [|discriminate].
        eapply sober_trans; [by eapply sober_refresh_tx | by eapply IH].
    + destruct (add_tx p row s) as [s1|] eqn:E; simpl in H; [|discriminate].
      eapply sober_trans; [by eapply sober_add_tx | by eapply IH].
Qed.

Lemma sober_remove_row s k rws :
  sober s (with_rows rws
             (with_txid_to_items (delete k (txid_to_items s))
                (with_transactions (od_del (transactions s) k) s))).
Proof.
  split; [by apply quiet_same_heap|]. split; [done|].
  intros Hs k' items Hk'. simpl in Hk'.
  apply lookup_delete_Some in Hk' as [_ Hk']. by apply (Hs k').
Qed.

Lemma sober_remove_unseen seen : forall l removed s s',
  remove_unseen l seen removed s = Ok s' -> sober s s'.
Proof.
  induction l as [|[idx k] l IH]; intros removed s s' H; simpl in H.
  - injection H as <-. apply sober_refl.
  - case_bool_decide; [by eapply IH|].
    destruct (getkey (od_get _ _)); simpl in H; [|discriminate].
    destruct (getkey (_ !! k)); simpl in H; [|discriminate].
    unfold takeRow in H. simpl in H.
    destruct (rows s !! (idx - removed)) as [rw|].
    + destruct (getitem (cells rw) 0) as [o|]; simpl in H; [|discriminate].
      destruct (item_of o) as [i0|]; simpl in H; [|discriminate].
      destruct (deref _ i0) as [it|]; simpl in H; [|discriminate].
      case_decide; [|discriminate].
      eapply sober_trans; [|by eapply IH]. apply sober_remove_row.
    + simpl in H. discriminate.
Qed.

Lemma sober_update_full p r s s' : update_full p r s = Ok s' -> sober s s'.
Proof.
  unfold update_full. intros H.
  destruct (walk p r ∅ s) as [[seen s1]|] eqn:E; simpl in H; [|discriminate].
  eapply sober_trans; [by eapply sober_walk | by eapply sober_remove_unseen].
Qed.

Lemma sober_update p fetched s s' : update p fetched s = Ok s' -> sober s s'.
Proof.
  intros H.
  destruct (update_cases p fetched s) as [[_ Hu] | [(row & _ & _ & Hu) | [_ Hu]]];
    rewrite Hu in H.
  - injection H as <-. apply sober_with_wallet.
  - eapply sober_trans; [apply sober_with_wallet | by eapply sober_add_tx].
  - eapply sober_trans; [apply sober_with_wallet | by eapply sober_update_full].
Qed.

Lemma sober_hide_rows_from l : forall s s',
  hide_rows_from l s = Ok s' -> sober s s'.
Proof.
  induction l as [|i l IH]; intros s s' H; simpl in H.
  - injection H as <-. apply sober_refl.
  - destruct (hide_row i s) as [s1|] eqn:E; simpl in H; [|discriminate].
    eapply sober_trans; [apply sober_tame; by eapply tame_hide_row | by eapply IH].
Qed.

Lemma sober_insert_all p : forall l s s',
  insert_all p l s = Ok s' -> sober s s'.
Proof.
  induction l as [|tx l IH]; intros s s' H; simpl in H.
  - injection H as <-. apply sober_refl.
  - destruct (insert_tx p tx s) as [s1|] eqn:E; simpl in H; [|discriminate].
    eapply sober_trans; [by eapply sober_insert_tx | by eapply IH].
Qed.

Lemma sort_inv_controls s s' :
  txid_to_items s' = txid_to_items s -> heap s' = heap s ->
  sort_inv s -> sort_inv s'.
Proof.
  intros Hi Hh Hs k items Hk. rewrite Hi in Hk. rewrite Hh. by apply (Hs k).
Qed.

(** The first item of every row on display has sort data. *)
Lemma reachable_sort_inv s : reachable s -> sort_inv s.
Proof.
  induction 1 as [p fetched s Hst Hwf Hinit
                 | p fetched s s' Hr IH Hst Hwf Hcc Hupd
                 | f s s' Hr IH Hf | d s s' Hr IH Hf | d s s' Hr IH Hf
                 | s s' Hr IH Hf].
  - unfold init in Hinit. apply sober_insert_all in Hinit as (_ & _ & Hs).
    apply Hs. intros k items Hk. simpl in Hk. by rewrite lookup_empty in Hk.
  - apply sober_update in Hupd as (_ & _ & Hs). by apply Hs.
  - unfold HistoryList_filter, hide_rows in Hf.
    apply sober_hide_rows_from in Hf as (_ & _ & Hs). by apply Hs.
  - unfold select_start_date, hide_rows in Hf.
    apply sober_hide_rows_from in Hf as (_ & _ & Hs). by apply Hs.
  - unfold select_end_date, hide_rows in Hf.
    apply sober_hide_rows_from in Hf as (_ & _ & Hs). by apply Hs.
  - unfold on_hide_toolbar, hide_rows in Hf.
    apply sober_hide_rows_from in Hf as (_ & _ & Hs). by apply Hs.
Qed.

(** X22: whenever [update] returns, whichever way it took, it has left
    the filter string, the period and the set of editable columns as
    they were, and the wallet is bound; and if the first item of every
    entry of the item table had sort data before, so it has after. *)
Theorem update_leaves_the_controls_alone p fetched s s' :
  update p fetched s = Ok s' ->
  current_filter s' = current_filter s /\
  start_timestamp s' = start_timestamp s /\
  end_timestamp s' = end_timestamp s /\
  editable_columns s' = editable_columns s /\
  wallet s' = true /\
  ((forall k items, txid_to_items s !! k = Some items ->
      exists i0 it, items !! 0 = Some i0 /\ heap s !! i0 = Some it /\
                    is_Some (data_role it)) ->
   forall k items, txid_to_items s' !! k = Some items ->
     exists i0 it, items !! 0 = Some i0 /\ heap s' !! i0 = Some it /\
                   is_Some (data_role it)).
Proof.
  intros H.
  assert (wallet s' = true) as Hw.
  { destruct (update_cases p fetched s) as [[_ Hu] | [(row & _ & _ & Hu) | [_ Hu]]];
      rewrite Hu in H.
    - by injection H as <-.
    - apply sober_add_tx in H as (_ & Hw & _). by apply Hw.
    - apply sober_update_full in H as (_ & Hw & _). by apply Hw. }
  apply sober_update in H as ([] & _ & Hsort). by split_and!.
Qed.

Lemma update_leaves_the_controls_alone_witness :
  let s := with_current_filter "rent" sample_view in
  current_filter sample_view_refiltered = "rent" /\
  start_timestamp sample_view_refiltered = start_timestamp s /\
  end_timestamp sample_view_refiltered = end_timestamp s /\
  editable_columns sample_view_refiltered = editable_columns s /\
  wallet sample_view_refiltered = true /\
  ((forall k items, txid_to_items s !! k = Some items ->
      exists i0 it, items !! 0 = Some i0 /\ heap s !! i0 = Some it /\
                    is_Some (data_role it)) ->
   forall k items, txid_to_items sample_view_refiltered !! k = Some items ->
     exists i0 it, items !! 0 = Some i0 /\
                   heap sample_view_refiltered !! i0 = Some it /\
                   is_Some (data_role it)).
Proof.
  apply (update_leaves_the_controls_alone sample_parent
           [sample_tx "bb" 12 950; sample_tx "cc" 0 40]
           (with_current_filter "rent" sample_view) sample_view_refiltered).
  vm_compute. reflexivity.
Defined.

(** ** Sorting by the status column *)

Lemma tuple_lt_spec a b :
  tuple_lt a b = true <-> a.1 < b.1 \/ (a.1 = b.1 /\ (a.2 < b.2)%Z).
Proof.
  unfold tuple_lt. case_decide as H.
  - rewrite Z.ltb_lt. split; [by right | intros [?|[_ ?]]; [lia | done]].
  - rewrite bool_decide_eq_true. split; [by left | intros [?|[? _]]; done].
Qed.

Lemma reachable_sort_data s i :
  reachable s -> i < rowCount s ->
  exists rw r it d, rows s !! i = Some rw /\ cells rw !! 0 = Some (Some r) /\
    heap s !! r = Some it /\ data_role it = Some d.
Proof.
  intros Hr Hi. pose proof (reachable_inv s Hr) as Hinv.
  destruct (inv_record s i Hinv Hi) as (k & _ & Hk & _).
  destruct (inv_row _ _ _ Hinv Hk) as (rw & Hrw & items & Hitems & Hcells & _ & _).
  destruct (reachable_sort_inv s Hr k items Hitems) as (r & it & Hr0 & Hit & [d Hd]).
  exists rw, r, it, d. split; [done|]. split; [|done].
  by rewrite Hcells, list_lookup_fmap, Hr0.
Qed.

Section SortProofs.

Variable F : Type.
Variable float : string -> option F.
Variable F_lt : F -> F -> bool.
Variable item_lt : QStandardItem -> QStandardItem -> bool.

(** X23: in a view built by [__init__] and kept by [update] and the
    filter controls, the first cell of every row carries the
    [(status, conf)] pair that [update_item] put there, so [lessThan] on
    two cells of the status column never falls back to comparing texts:
    it returns Python's order of the two pairs, status first and then
    confirmations, and leaves the model as it is.  That order is
    irreflexive, transitive and total on distinct pairs. *)
Theorem lessThan_orders_the_status_column s i j :
  reachable s -> i < rowCount s -> j < rowCount s ->
  (exists d1 d2, sort_data s i = Some d1 /\ sort_data s j = Some d2 /\
     lessThan F float F_lt item_lt (i, 0) (j, 0) s = (Ok (tuple_lt d1 d2), s)) /\
  (forall a, tuple_lt a a = false) /\
  (forall a b c, tuple_lt a b = true -> tuple_lt b c = true ->
     tuple_lt a c = true) /\
  (forall a b, a ≠ b -> tuple_lt a b = true \/ tuple_lt b a = true).
Proof.
  intros Hr Hi Hj. split; [|split; [|split]].
  - destruct (reachable_sort_data s i Hr Hi) as (rw1 & r1 & it1 & d1 & Hrw1 & Hc1 & Hit1 & Hd1).
    destruct (reachable_sort_data s j Hr Hj) as (rw2 & r2 & it2 & d2 & Hrw2 & Hc2 & Hit2 & Hd2).
    assert (0 < columnCount s) as Hcc
      by (destruct (reachable_inv s Hr) as [[] _]; lia).
    exists d1, d2. unfold sort_data, cell_at.
    rewrite Hrw1, Hc1, Hit1, Hrw2, Hc2, Hit2.
    split; [done|]. split; [done|].
    unfold lessThan. simpl.
    rewrite (itemFromIndex_existing _ _ _ _ _ Hrw1 Hc1 Hcc).
    rewrite (itemFromIndex_existing _ _ _ _ _ Hrw2 Hc2 Hcc).
    unfold deref. rewrite Hit1, Hit2. simpl. by rewrite Hd1, Hd2.
  - intros a. apply not_true_iff_false. rewrite tuple_lt_spec. lia.
  - intros a b c. rewrite !tuple_lt_spec. lia.
  - intros [a1 a2] [b1 b2] Hne. rewrite !tuple_lt_spec. simpl.
    destruct (decide (a1 = b1)) as [->|?]; [|lia].
    destruct (decide (a2 = b2)) as [->|?]; [done|lia].
Qed.

End SortProofs.

Lemma lessThan_orders_the_status_column_witness :
  (exists d1 d2, sort_data sample_view 0 = Some d1 /\
     sort_data sample_view 1 = Some d2 /\
     lessThan unit (fun _ => None) (fun _ _ => false) (fun _ _ => false)
       (0, 0) (1, 0) sample_view = (Ok (tuple_lt d1 d2), sample_view)) /\
  (forall a, tuple_lt a a = false) /\
  (forall a b c, tuple_lt a b = true -> tuple_lt b c = true ->
     tuple_lt a c = true) /\
  (forall a b, a ≠ b -> tuple_lt a b = true \/ tuple_lt b a = true).
Proof.
  apply (lessThan_orders_the_status_column unit (fun _ => None)
           (fun _ _ => false) (fun _ _ => false) sample_view 0 1).
  - apply sample_view_reachable.
  - vm_compute. lia.
  - vm_compute. lia.
Defined.

(** ** The hidden flags depend on the data and the controls only *)

Lemma flags_only_sym s s' : flags_only s s' -> flags_only s' s.
Proof. intros [[] ? ? ? ? ?]. constructor; [constructor|..]; congruence. Qed.

Lemma flags_only_eq s t :
  flags_only s t -> (forall i, hidden_at t i = hidden_at s i) -> t = s.
Proof.
  intros [[Htr Hit Hh Hc Hcc] Hf Hst He Hed Hw] Hhid.
  assert (rows t = rows s) as Hrows.
  { apply list_eq. intros i. specialize (Hhid i). unfold hidden_at in Hhid.
    apply (f_equal (fun l => l !! i)) in Hc. rewrite !list_lookup_fmap in Hc.
    destruct (rows t !! i) as [[c1 h1]|], (rows s !! i) as [[c2 h2]|];
      simpl in *; congruence. }
  destruct s, t. simpl in *. congruence.
Qed.

Lemma hide_rows_determined s t s' t' :
  Inv s -> Inv t -> flags_only s t ->
  hide_rows s = Ok s' -> hide_rows t = Ok t' -> t' = s'.
Proof.
  intros Hs Ht Hfo Hs' Ht'.
  destruct (hide_rows_exact s Hs) as (s0 & Hs0 & Hinv0 & Hfo0 & Hfl0).
  destruct (hide_rows_exact t Ht) as (t0 & Ht0 & _ & Hfo1 & Hfl1).
  assert (s0 = s') as -> by congruence. assert (t0 = t') as -> by congruence.
  apply flags_only_eq.
  { eapply flags_only_trans; [apply flags_only_sym, Hfo0|].
    eapply flags_only_trans; [exact Hfo | exact Hfo1]. }
  intros i. unfold hidden_at at 1 2.
  destruct (decide (i < rowCount s)) as [Hi|Hi].
  - destruct (inv_record s i Hs Hi) as (k & tx & Hk & Htx).
    fold (hidden_at t' i). fold (hidden_at s' i).
    rewrite (Hfl0 i k tx Hk Htx).
    rewrite (Hfl1 i k tx), (hidden_flag_flags s t i tx Hfo); [done|..];
      by rewrite (sd_transactions _ _ (fo_data _ _ Hfo)).
  - rewrite !lookup_ge_None_2; [done|..].
    + fold (rowCount s'). rewrite (flags_only_rowCount _ _ Hfo0). lia.
    + fold (rowCount t'). rewrite (flags_only_rowCount _ _ Hfo1).
      rewrite (flags_only_rowCount _ _ Hfo). lia.
Qed.

(** X24: filtering is idempotent: on a view that is in order [filter]
    returns, and a second [filter] with the same string leaves the view
    exactly as the first one left it. *)
Theorem filter_twice_is_filter_once p s :
  Inv s ->
  exists s', HistoryList_filter p s = Ok s' /\ HistoryList_filter p s' = Ok s'.
Proof.
  intros Hinv. unfold HistoryList_filter.
  set (s0 := with_current_filter (lower p) s).
  assert (Inv s0) as Hinv0 by (by apply (inv_same_fields s)).
  destruct (hide_rows_exact s0 Hinv0) as (s' & Hs' & Hinv' & Hfo & _).
  exists s'. split; [done|].
  assert (with_current_filter (lower p) s' = s') as ->.
  { pose proof (fo_filter _ _ Hfo) as Hcf. simpl in Hcf.
    destruct s'. simpl in *. by rewrite Hcf. }
  destruct (hide_rows_exact s' Hinv') as (s2 & Hs2 & _).
  rewrite Hs2. f_equal.
  by apply (hide_rows_determined s0 s' s' s2).
Qed.

Lemma filter_twice_is_filter_once_witness :
  exists s', HistoryList_filter "Rent" sample_view = Ok s' /\
             HistoryList_filter "Rent" s' = Ok s'.
Proof. apply (filter_twice_is_filter_once "Rent" sample_view), sample_view_inv. Defined.

(** X25: the two ends of the period can be chosen in either order: on a
    view that is in order, [select_start_date] followed by
    [select_end_date] gives exactly the view that [select_end_date]
    followed by [select_start_date] gives. *)
Theorem period_ends_commute a b s :
  Inv s ->
  exists s1 t1 s2,
    select_start_date a s = Ok s1 /\ select_end_date b s1 = Ok s2 /\
    select_end_date b s = Ok t1 /\ select_start_date a t1 = Ok s2.
Proof.
  intros Hinv. unfold select_start_date, select_end_date.
  destruct (hide_rows_exact (with_start_timestamp a s))
    as (s1 & Hs1 & Hinv1 & Hfo1 & _); [by apply (inv_same_fields s)|].
  destruct (hide_rows_exact (with_end_timestamp b s))
    as (t1 & Ht1 & Hinvt & Hfot & _); [by apply (inv_same_fields s)|].
  destruct (hide_rows_exact (with_end_timestamp b s1))
    as (s2 & Hs2 & _); [by apply (inv_same_fields s1)|].
  destruct (hide_rows_exact (with_start_timestamp a t1))
    as (t2 & Ht2 & _); [by apply (inv_same_fields t1)|].
  exists s1, t1, s2. split; [done|]. split; [done|]. split; [done|].
  rewrite Ht2. f_equal.
  apply (hide_rows_determined (with_end_timestamp b s1)
           (with_start_timestamp a t1)); try done.
  - by apply (inv_same_fields s1).
  - by apply (inv_same_fields t1).
  - destruct Hfo1 as [[] ? ? ? ? ?]. destruct Hfot as [[] ? ? ? ? ?].
    constructor; [constructor|..]; simpl in *; congruence.
Qed.

Lemma period_ends_commute_witness :
  exists s1 t1 s2,
    select_start_date (Some 10%Z) sample_view = Ok s1 /\
    select_end_date (Some 20%Z) s1 = Ok s2 /\
    select_end_date (Some 20%Z) sample_view = Ok t1 /\
    select_start_date (Some 10%Z) t1 = Ok s2.
Proof.
  apply (period_ends_commute (Some 10%Z) (Some 20%Z) sample_view), sample_view_inv.
Defined.

(** ** The status cells: [update_item] *)

Local Transparent update_item.

(** X26: [update_item] on a hash that has a row, with the wallet bound
    and a status that has an icon.  The first item of the row gets the
    icon of the status, the tooltip with the confirmation count ("1
    confirmation", otherwise "n confirmations") and the pair of status
    and confirmations as sort data; the second item gets the status
    text; the hashes the two items carry are kept, and nothing else in
    the view is written. *)
Theorem update_item_refreshes_the_status_cells p k st s items i0 i1 it0 it1 ic :
  wallet s = true ->
  TX_ICONS !! (get_tx_status p k st).1 = Some ic ->
  txid_to_items s !! k = Some items ->
  items !! 0 = Some i0 -> items !! 1 = Some i1 ->
  heap s !! i0 = Some it0 -> heap s !! i1 = Some it1 ->
  exists s' it0' it1',
    update_item p k st s = Ok s' /\ s' = with_heap (heap s') s /\
    heap s' !! i0 = Some it0' /\ heap s' !! i1 = Some it1' /\
    icon it0' = Some (":icons/" +:+ ic) /\
    toolTip it0' = str_Z (st_conf st) +:+ " confirmation" +:+
                   (if decide (st_conf st = 1%Z) then "" else "s") /\
    data_role it0' = Some ((get_tx_status p k st).1, st_conf st) /\
    text it1' = (get_tx_status p k st).2 /\
    tx_hash_role it0' = tx_hash_role it0 /\
    tx_hash_role it1' = tx_hash_role it1 /\
    (forall r, r ≠ i0 -> r ≠ i1 -> heap s' !! r = heap s !! r).
Proof.
  intros Hw Hic Hitems Hi0 Hi1 Hit0 Hit1. unfold update_item.
  rewrite Hw, Hitems. cbv beta iota zeta delta [negb].
  destruct (get_tx_status p k st) as [status status_str]. simpl in Hic.
  rewrite (getitem_Ok _ _ _ Hic), (getitem_Ok _ _ _ Hi0), (getitem_Ok _ _ _ Hi1).
  cbn [mbind result_bind].
  destruct (decide (i0 = i1)) as [<-|Hne].
  - assert (it1 = it0) as -> by congruence.
    eexists _, _, _. split; [done|]. split; [by destruct s|].
    split; [cbn [heap modify with_heap]; by rewrite !list_lookup_alter_eq, Hit0|].
    split; [cbn [heap modify with_heap]; by rewrite !list_lookup_alter_eq, Hit0|].
    split_and!; try done.
    intros r Hr _. cbn [heap modify with_heap].
    by rewrite !list_lookup_alter_ne.
  - eexists _, _, _. split; [done|]. split; [by destruct s|].
    split.
    { cbn [heap modify with_heap].
      rewrite list_lookup_alter_ne by done.
      by rewrite !list_lookup_alter_eq, Hit0. }
    split.
    { cbn [heap modify with_heap].
      rewrite list_lookup_alter_eq.
      by rewrite !list_lookup_alter_ne, Hit1 by done. }
    split_and!; try done.
    intros r Hr0 Hr1. cbn [heap modify with_heap].
    by rewrite !list_lookup_alter_ne.
Qed.

Lemma update_item_refreshes_the_status_cells_witness :
  let st := mk_TxMinedStatus 100 1 None in
  exists s' it0' it1',
    update_item sample_parent "aa" st sample_view = Ok s' /\
    s' = with_heap (heap s') sample_view /\
    heap s' !! 0 = Some it0' /\ heap s' !! 1 = Some it1' /\
    icon it0' = Some (":icons/" +:+ "warning.png") /\
    toolTip it0' = str_Z (st_conf st) +:+ " confirmation" +:+
                   (if decide (st_conf st = 1%Z) then "" else "s") /\
    data_role it0' = Some ((get_tx_status sample_parent "aa" st).1, st_conf st) /\
    text it1' = (get_tx_status sample_parent "aa" st).2 /\
    tx_hash_role it0' = Some "aa" /\
    tx_hash_role it1' = Some "aa" /\
    (forall r, r ≠ 0 -> r ≠ 1 -> heap s' !! r = heap sample_view !! r).
Proof.
  intros st.
  assert (wallet sample_view = true) as H1 by reflexivity.
  assert (TX_ICONS !! (get_tx_status sample_parent "aa" st).1 = Some "warning.png")
    as H2 by reflexivity.
  assert (txid_to_items sample_view !! "aa" = Some [0; 1; 2; 3; 4; 5; 6; 7])
    as H3 by (vm_compute; reflexivity).
  assert ([0; 1; 2; 3; 4; 5; 6; 7] !! 0 = Some 0) as H4 by reflexivity.
  assert ([0; 1; 2; 3; 4; 5; 6; 7] !! 1 = Some 1) as H5 by reflexivity.
  assert (heap sample_view !! 0 =
          Some (default (new_item "") (heap sample_view !! 0))) as H6
    by (vm_compute; reflexivity).
  assert (heap sample_view !! 1 =
          Some (default (new_item "") (heap sample_view !! 1))) as H7
    by (vm_compute; reflexivity).
  exact (update_item_refreshes_the_status_cells sample_parent "aa" st
           sample_view [0; 1; 2; 3; 4; 5; 6; 7] 0 1 _ _ "warning.png"
           H1 H2 H3 H4 H5 H6 H7).
Defined.

(** ** Edge cases and a bound *)

(** X27: a period with one end only filters nothing: after
    [select_start_date] on a view without an end date, and after
    [select_end_date] on a view without a start date, every row of a
    view that is in order is shown, whatever date was chosen and
    whatever the text filter. *)
Theorem one_sided_period_hides_nothing d s :
  Inv s ->
  (end_timestamp s = None ->
   exists s', select_start_date d s = Ok s' /\ all_shown s' /\
              start_timestamp s' = d /\ end_timestamp s' = None) /\
  (start_timestamp s = None ->
   exists s', select_end_date d s = Ok s' /\ all_shown s' /\
              start_timestamp s' = None /\ end_timestamp s' = d).
Proof.
  intros Hinv. split; intros Hn.
  - unfold select_start_date.
    destruct (hide_rows_no_period (with_start_timestamp d s))
      as (s' & Hs' & _ & Hfo & Hall); [by apply (inv_same_fields s) | by right |].
    exists s'. destruct Hfo as [_ _ Hb He _ _]. simpl in *.
    split_and!; try done; congruence.
  - unfold select_end_date.
    destruct (hide_rows_no_period (with_end_timestamp d s))
      as (s' & Hs' & _ & Hfo & Hall); [by apply (inv_same_fields s) | by left |].
    exists s'. destruct Hfo as [_ _ Hb He _ _]. simpl in *.
    split_and!; try done; congruence.
Qed.

Lemma one_sided_period_hides_nothing_witness :
  (end_timestamp sample_view = None ->
   exists s', select_start_date (Some 10%Z) sample_view = Ok s' /\ all_shown s' /\
              start_timestamp s' = Some 10%Z /\ end_timestamp s' = None) /\
  (start_timestamp sample_view = None ->
   exists s', select_end_date (Some 10%Z) sample_view = Ok s' /\ all_shown s' /\
              start_timestamp s' = None /\ end_timestamp s' = Some 10%Z).
Proof. apply (one_sided_period_hides_nothing (Some 10%Z) sample_view), sample_view_inv. Defined.

Lemma keys_nil_inv {V} (d : list (string * V)) :
  (forall k, k ∈ keys d -> False) -> d = [].
Proof.
  destruct d as [|[k v] d]; [done|]. intros H. exfalso. apply (H k). by left.
Qed.

(** X28: an empty history empties the view: on a view built by
    [__init__] and kept by [update] and the filter controls, [update]
    with no transaction fetched returns and leaves no record, no row and
    no table entry. *)
Theorem update_with_empty_history_clears_the_view p s :
  reachable s -> status_ok p -> headers_count p <= columnCount s ->
  exists s', update p [] s = Ok s' /\
    transactions s' = [] /\ rows s' = [] /\ txid_to_items s' = ∅.
Proof.
  intros Hr Hst Hcc.
  destruct (update_post p [] s Hst ltac:(constructor) Hcc (reachable_inv s Hr)
              (reachable_keyed s Hr))
    as (s' & Hs' & Hinv' & _ & _ & Hk & _).
  assert (transactions s' = []) as Htr.
  { apply keys_nil_inv. intros k Hin. apply Hk in Hin.
    by apply elem_of_nil in Hin. }
  exists s'. split; [done|]. split; [done|]. split.
  - destruct Hinv' as [_ Hrc]. rewrite Htr in Hrc.
    by apply nil_length_inv.
  - apply dom_empty_inv_L. rewrite (inv_dom s' Hinv'), Htr. done.
Qed.

Lemma update_with_empty_history_clears_the_view_witness :
  exists s', update sample_parent [] sample_view = Ok s' /\
    transactions s' = [] /\ rows s' = [] /\ txid_to_items s' = ∅.
Proof.
  apply (update_with_empty_history_clears_the_view sample_parent sample_view).
  - apply sample_view_reachable.
  - intros h st. simpl. lia.
  - vm_compute. lia.
Defined.

Lemma latest_elem r k v : forall d,
  latest r k d = Some v -> d = Some v \/ v ∈ r.
Proof.
  induction r as [|row r IH]; intros d H; simpl in H; [by left|].
  destruct (IH _ H) as [Hd|Hv]; [|right; by right].
  case_decide as Hk; [|by left]. right. injection Hd as <-. by left.
Qed.

(** X29: the view never holds a confirmation count above ten: in every
    view built by [__init__] and kept by [update] and the filter
    controls each stored record has at most ten confirmations, and so
    has every row the CSV export writes. *)
Theorem stored_confirmations_are_capped s :
  reachable s ->
  Forall (fun tx => (confirmations tx <= 10)%Z) (values (transactions s)) /\
  Forall (fun l => exists c, l !! 2 = Some (PyInt c) /\ (c <= 10)%Z)
         (csv_line <$> values (transactions s)).
Proof.
  intros Hr.
  assert (Forall (fun tx => (confirmations tx <= 10)%Z) (values (transactions s)))
    as Hcap.
  { induction Hr as [p fetched s Hst Hwf Hinit
                    | p fetched s s' Hr IH Hst Hwf Hcc Hupd
                    | f s s' Hr IH Hf | d s s' Hr IH Hf | d s s' Hr IH Hf
                    | s s' Hr IH Hf].
    - destruct (init_transactions p fetched Hst Hwf)
        as (s0 & Hs0 & Hinv & _ & _ & Htr & _).
      assert (s0 = s) as -> by congruence.
      apply Forall_forall. intros tx Htx.
      apply list_elem_of_fmap in Htx as ([k v] & -> & Hkv). simpl.
      assert (od_get (transactions s) k = Some v) as Hg
        by (apply od_get_elem; [by destruct Hinv as [[] _] | done]).
      rewrite Htr, od_update_get in Hg. simpl in Hg.
      destruct (latest_elem _ _ _ _ Hg) as [?|Hin]; [done|].
      pose proof (limit_confirmations_bound fetched) as Hall.
      by apply (proj1 (Forall_forall _ _) Hall).
    - destruct (update_post p fetched s Hst Hwf Hcc (reachable_inv s Hr)
                  (reachable_keyed s Hr))
        as (s0 & Hs0 & Hinv & _ & _ & _ & Hget).
      assert (s0 = s') as -> by congruence.
      apply Forall_forall. intros tx Htx.
      apply list_elem_of_fmap in Htx as ([k v] & -> & Hkv). simpl.
      assert (od_get (transactions s') k = Some v) as Hg
        by (apply od_get_elem; [by destruct Hinv as [[] _] | done]).
      rewrite Hget in Hg.
      destruct (latest_elem _ _ _ _ Hg) as [?|Hin]; [done|].
      pose proof (limit_confirmations_bound fetched) as Hall.
      by apply (proj1 (Forall_forall _ _) Hall).
    - unfold HistoryList_filter in Hf.
      destruct (hide_rows_spec (with_current_filter (lower f) s))
        as (s0 & Hs0 & _ & [Ht _ _ _ _]);
        [by apply (inv_same_fields s), reachable_inv|].
      assert (s0 = s') as -> by congruence. by rewrite Ht.
    - unfold select_start_date in Hf.
      destruct (hide_rows_spec (with_start_timestamp d s))
        as (s0 & Hs0 & _ & [Ht _ _ _ _]);
        [by apply (inv_same_fields s), reachable_inv|].
      assert (s0 = s') as -> by congruence. by rewrite Ht.
    - unfold select_end_date in Hf.
      destruct (hide_rows_spec (with_end_timestamp d s))
        as (s0 & Hs0 & _ & [Ht _ _ _ _]);
        [by apply (inv_same_fields s), reachable_inv|].
      assert (s0 = s') as -> by congruence. by rewrite Ht.
    - unfold on_hide_toolbar in Hf.
      destruct (hide_rows_spec (with_end_timestamp None (with_start_timestamp None s)))
        as (s0 & Hs0 & _ & [Ht _ _ _ _]);
        [by apply (inv_same_fields s), reachable_inv|].
      assert (s0 = s') as -> by congruence. by rewrite Ht. }
  split; [done|]. apply Forall_fmap.
  eapply Forall_impl; [exact Hcap|]. intros tx Htx. simpl.
  by exists (confirmations tx).
Qed.

Lemma stored_confirmations_are_capped_witness :
  Forall (fun tx => (confirmations tx <= 10)%Z)
         (values (transactions sample_view)) /\
  Forall (fun l => exists c, l !! 2 = Some (PyInt c) /\ (c <= 10)%Z)
         (csv_line <$> values (transactions sample_view)).
Proof. apply (stored_confirmations_are_capped sample_view), sample_view_reachable. Defined.
